(** * paperd.ink TRMNL firmware: client state machine and image pipeline

    A shallow embedding of the parts of the firmware that the checked
    properties talk about:

    - [TRMNLClient] (trmnl_client.cpp): registration, the two remote
      calls with their retry loops, the adaptive image download, the
      content update, credentials, the image cache and offline mode;
    - [PaperdInkHardware] (paperdink_hardware.cpp): preferences, SD
      card, buttons, text screens, the render path ([displayImage],
      [pngDrawToEPD]);
    - main.cpp: [enterSleepMode] in both variants that the repository
      carries, the start-up sequence and the content update of
      [loop].

    C++ [int] is a 32-bit two's complement integer and [size_t] /
    [uint32_t] a 32-bit unsigned one (ESP32); both are modelled as [Z]
    with the conversions written out.  Byte buffers are [list Z].
    Methods that mutate the client or the hardware are functions in a
    state monad over [Sys]; the collaborators the firmware talks to
    (HTTP transport, WiFi, heap, PNG decoder, float unit) are oracles
    recorded in the environment part of the state. *)

From Stdlib Require Import ZArith Lia List Bool String QArith Qround.
From stdpp Require Import base option strings gmap list.

Local Open Scope string_scope.
Local Open Scope list_scope.
Local Open Scope Z_scope.

Set Warnings "-register-all".

(** ** Machine integers *)

Module CInt.

Definition INT_MAX : Z := 2147483647.
Definition INT_MIN : Z := -2147483648.
Definition UINT32_MOD : Z := 4294967296.

(** conversion to [size_t] / [uint32_t] *)
Definition to_size_t (z : Z) : Z := z mod UINT32_MOD.

(** conversion to [int] (two's complement wrap) *)
Definition to_int (z : Z) : Z :=
  let w := z mod UINT32_MOD in
  if w <=? INT_MAX then w else w - UINT32_MOD.

(** conversion to [int16_t] *)
Definition to_int16 (z : Z) : Z :=
  let w := z mod 65536 in
  if w <=? 32767 then w else w - 65536.

(** conversion to [uint8_t] *)
Definition to_uint8 (z : Z) : Z := z mod 256.

Definition is_int (z : Z) : Prop := INT_MIN <= z <= INT_MAX.
Definition is_size_t (z : Z) : Prop := 0 <= z < UINT32_MOD.

Definition fits_int (z : Z) : bool := (INT_MIN <=? z) && (z <=? INT_MAX).

End CInt.

(** ** config.h *)

Module Config.

Definition TRMNL_API_SETUP_ENDPOINT : string := "/api/setup".
Definition TRMNL_API_DISPLAY_ENDPOINT : string := "/api/display".
Definition FIRMWARE_VERSION : string := "1.0.0-paperdink".

Definition DISPLAY_WIDTH : Z := 400.
Definition DISPLAY_HEIGHT : Z := 300.

Definition DEEP_SLEEP_DURATION_SECONDS : Z := 1800.
Definition WIFI_CONNECT_TIMEOUT_MS : Z := 30000.
Definition MAX_IMAGE_SIZE : Z := 50000.
Definition CACHE_ENABLED : bool := true.

(** What secrets.h and the build flags may define.  The header is not
    part of the sources, so its macros are a parameter of the model;
    [None] stands for "not defined". *)
Record Build := {
  TRMNL_API_BASE_URL : string;
  WIFI_SSID : option string;
  WIFI_PASSWORD : option string;
  TRMNL_API_KEY : option string;
  CUSTOM_FRIENDLY_ID : option string;
}.

(** config.h's own default for the base URL, nothing else defined *)
Definition default_build : Build :=
  {| TRMNL_API_BASE_URL := "https://usetrmnl.com";
     WIFI_SSID := None; WIFI_PASSWORD := None;
     TRMNL_API_KEY := None; CUSTOM_FRIENDLY_ID := None |}.

End Config.

(** ** ArduinoJson documents, as far as the client reads them *)

Module Json.

Inductive t :=
| JNull
| JBool (b : bool)
| JInt (n : Z)
| JStr (s : string)
| JObj (fields : list (string * t)).

Fixpoint assoc (k : string) (fs : list (string * t)) : t :=
  match fs with
  | [] => JNull
  | (k', v) :: rest => if String.eqb k k' then v else assoc k rest
  end.

(** [doc["key"]]: a missing member, or a member of something that is
    not an object, is the null variant *)
Definition get (doc : t) (k : string) : t :=
  match doc with
  | JObj fs => assoc k fs
  | _ => JNull
  end.

(** [variant | variant]: the left one unless it is null *)
Definition or_else (a b : t) : t :=
  match a with
  | JNull => b
  | _ => a
  end.

(** [variant | "default"] *)
Definition or_str (v : t) (d : string) : string :=
  match v with
  | JStr s => s
  | _ => d
  end.

(** [variant | 200]: an integer that fits [int], else the default *)
Definition or_int (v : t) (d : Z) : Z :=
  match v with
  | JInt n => if CInt.fits_int n then n else d
  | _ => d
  end.

(** [variant | false] *)
Definition or_bool (v : t) (d : bool) : bool :=
  match v with
  | JBool b => b
  | _ => d
  end.

End Json.

(** ** Adaptive buffer sizing of [TRMNLClient::downloadImageAutoAlloc]

    The size computation between [httpClient.getSize()] and [malloc],
    as a function of the content length (an [int], -1 when the header
    is absent) and of [hardware->getFreeHeap()] (a [uint32_t]). *)

Module Alloc.
Import CInt Config.

Definition FALLBACK : Z := 65536.
Definition MARGIN : Z := 32768.

Definition initialAllocSize (contentLength : Z) : Z :=
  if (0 <? contentLength) && (contentLength <? to_int MAX_IMAGE_SIZE)
  then to_size_t contentLength
  else FALLBACK.

Definition shrunkCandidate (contentLength freeHeap : Z) : Z :=
  let candidate :=
    if 65536 <? freeHeap then to_size_t (freeHeap - MARGIN)
    else to_size_t (freeHeap / 2) in
  if ((contentLength <=? 0) || (to_int candidate <? contentLength))
     && (65536 <? candidate)
  then 65536
  else candidate.

Definition allocSize (contentLength freeHeap : Z) : Z :=
  let allocSize0 := initialAllocSize contentLength in
  if freeHeap <? to_size_t (allocSize0 + MARGIN)
  then shrunkCandidate contentLength freeHeap
  else allocSize0.

(** The sizing rule as the specification words it: the declared
    length when known and under the maximum, else the fallback; under
    memory pressure shrunk to free memory minus the margin, and
    floored at the fallback when the length was unknown. *)
Definition spec_allocSize (contentLength freeHeap : Z) : Z :=
  let candidate :=
    if (0 <? contentLength) && (contentLength <? MAX_IMAGE_SIZE)
    then contentLength else FALLBACK in
  if freeHeap <? candidate + MARGIN
  then if contentLength <=? 0
       then Z.max (freeHeap - MARGIN) FALLBACK
       else freeHeap - MARGIN
  else candidate.

End Alloc.

(** ** The state the firmware runs on *)

Module Sys.

(** Commands of the GxEPD2 panel driver (the render sink).  The
    colour arguments are fixed in the sources: the screen is filled
    white, bitmaps are drawn black. *)
Inductive EpdOp :=
| SetFullWindow
| FirstPage
| NextPage
| FillScreenWhite
| DrawBitmap (x y : Z) (bitmap : list Z) (w h : Z)
| SetCursor (x y : Z)
| SetTextSize (n : Z)
| PrintText (text : string).

(** What the firmware does to the outside, in program order. *)
Inductive Event :=
| EvEpd (op : EpdOp)
| EvHttpGet (url : string) (headers : list (string * string))
| EvDelay (ms : Z)
| EvWiFiBegin (ssid password : string)
| EvMalloc (size : Z) (ok : bool)
| EvFree
| EvPngOpen (rc : Z)
| EvPngDecode (rc : Z)
| EvFileWrite (path : string) (ok : bool)
| EvPeripheralsOff
| EvDeepSleep (seconds : Z).

(** What PNGdec makes of a byte buffer: the result of [openRAM], the
    header's dimensions, the scanlines it hands to the draw callback
    (as [getLineAsRGB565] returns them) and the result [decode] ends
    with when the callback never stops it. *)
Record PngImage := {
  open_rc : Z;
  width : Z;
  height : Z;
  scanlines : list (list Z);
  decode_rc : Z;
}.

(** One answer of the HTTP transport: [GET()]'s result code (negative
    on transport failure), [getSize()] (-1 without a content-length
    header), the body as the chunks the stream makes available one
    poll after the other (an empty chunk: nothing available, still
    connected; the connection closes after the last), and what
    [deserializeJson] makes of the body ([None]: a parse error). *)
Record HttpResponse := {
  code : Z;
  size : Z;
  chunks : list (list Z);
  json : option Json.t;
}.

(** [GET()] when nobody answers: HTTPC_ERROR_CONNECTION_REFUSED *)
Definition no_answer : HttpResponse :=
  {| code := -1; size := -1; chunks := []; json := None |}.

Inductive PrefVal :=
| PString (s : string)
| PInt (n : Z)
| PBool (b : bool).

Record TextCmd := { tc_text : string; tc_x : Z; tc_y : Z; tc_size : Z }.

(** The surroundings that a wake cycle does not change. *)
Record Env := {
  build : Config.Build;
  mac : string;                     (* esp_read_mac, formatted *)
  freeHeap : Z;                     (* ESP.getFreeHeap() *)
  maxAlloc : Z;                     (* largest block malloc can serve *)
  wifiJoinAfter : option Z;         (* ms until the station is connected *)
  extraPages : nat;                 (* pages of a paged frame, less one *)
  pngdec : list Z -> PngImage;
  sdOpenOk : string -> bool;        (* SD.open(path, FILE_WRITE) succeeds *)
}.

(** [PaperdInkHardware], the globals of paperdink_hardware.cpp and the
    platform underneath. *)
Record Hardware := {
  env : Env;
  preferences : gmap string PrefVal;
  sdCardAvailable : bool;
  sdFiles : gmap string (list Z);
  invertDisplayFlag : bool;
  text_cmds : list TextCmd;         (* g_text_cmds[0 .. g_text_cmd_count) *)
  wifiConnected : bool;             (* WiFi.status() == WL_CONNECTED *)
  net : list HttpResponse;          (* answers to the GETs to come *)
  millis : Z;
  liveBuffers : nat;                (* malloc'ed and not yet freed *)
  trace : list Event;
}.

Inductive DeviceState :=
| STATE_UNINITIALIZED
| STATE_WIFI_SETUP
| STATE_DEVICE_SETUP
| STATE_OPERATIONAL
| STATE_ERROR
| STATE_OFFLINE.

(** The data members of [TRMNLClient] that the modelled methods use. *)
Record Client := {
  currentState : DeviceState;
  macAddress : string;
  apiKey : string;
  friendlyId : string;
  refreshRate : Z;
  lastImageFilename : string;
  lastUpdateTime : Z;
  consecutiveErrors : Z;
  lastError : string;
}.

Record t := { client : Client; hw : Hardware }.

(** *** Field updates *)

Definition set_preferences (v : gmap string PrefVal) (h : Hardware) : Hardware :=
  {| env := env h; preferences := v; sdCardAvailable := sdCardAvailable h;
     sdFiles := sdFiles h; invertDisplayFlag := invertDisplayFlag h;
     text_cmds := text_cmds h; wifiConnected := wifiConnected h; net := net h;
     millis := millis h; liveBuffers := liveBuffers h; trace := trace h |}.

Definition set_sdFiles (v : gmap string (list Z)) (h : Hardware) : Hardware :=
  {| env := env h; preferences := preferences h; sdCardAvailable := sdCardAvailable h;
     sdFiles := v; invertDisplayFlag := invertDisplayFlag h;
     text_cmds := text_cmds h; wifiConnected := wifiConnected h; net := net h;
     millis := millis h; liveBuffers := liveBuffers h; trace := trace h |}.

Definition set_text_cmds (v : list TextCmd) (h : Hardware) : Hardware :=
  {| env := env h; preferences := preferences h; sdCardAvailable := sdCardAvailable h;
     sdFiles := sdFiles h; invertDisplayFlag := invertDisplayFlag h;
     text_cmds := v; wifiConnected := wifiConnected h; net := net h;
     millis := millis h; liveBuffers := liveBuffers h; trace := trace h |}.

Definition set_wifiConnected (v : bool) (h : Hardware) : Hardware :=
  {| env := env h; preferences := preferences h; sdCardAvailable := sdCardAvailable h;
     sdFiles := sdFiles h; invertDisplayFlag := invertDisplayFlag h;
     text_cmds := text_cmds h; wifiConnected := v; net := net h;
     millis := millis h; liveBuffers := liveBuffers h; trace := trace h |}.

Definition set_net (v : list HttpResponse) (h : Hardware) : Hardware :=
  {| env := env h; preferences := preferences h; sdCardAvailable := sdCardAvailable h;
     sdFiles := sdFiles h; invertDisplayFlag := invertDisplayFlag h;
     text_cmds := text_cmds h; wifiConnected := wifiConnected h; net := v;
     millis := millis h; liveBuffers := liveBuffers h; trace := trace h |}.

Definition set_millis (v : Z) (h : Hardware) : Hardware :=
  {| env := env h; preferences := preferences h; sdCardAvailable := sdCardAvailable h;
     sdFiles := sdFiles h; invertDisplayFlag := invertDisplayFlag h;
     text_cmds := text_cmds h; wifiConnected := wifiConnected h; net := net h;
     millis := v; liveBuffers := liveBuffers h; trace := trace h |}.

Definition set_liveBuffers (v : nat) (h : Hardware) : Hardware :=
  {| env := env h; preferences := preferences h; sdCardAvailable := sdCardAvailable h;
     sdFiles := sdFiles h; invertDisplayFlag := invertDisplayFlag h;
     text_cmds := text_cmds h; wifiConnected := wifiConnected h; net := net h;
     millis := millis h; liveBuffers := v; trace := trace h |}.

Definition set_trace (v : list Event) (h : Hardware) : Hardware :=
  {| env := env h; preferences := preferences h; sdCardAvailable := sdCardAvailable h;
     sdFiles := sdFiles h; invertDisplayFlag := invertDisplayFlag h;
     text_cmds := text_cmds h; wifiConnected := wifiConnected h; net := net h;
     millis := millis h; liveBuffers := liveBuffers h; trace := v |}.

Definition set_currentState (v : DeviceState) (c : Client) : Client :=
  {| currentState := v; macAddress := macAddress c; apiKey := apiKey c;
     friendlyId := friendlyId c; refreshRate := refreshRate c;
     lastImageFilename := lastImageFilename c; lastUpdateTime := lastUpdateTime c;
     consecutiveErrors := consecutiveErrors c; lastError := lastError c |}.

Definition set_macAddress (v : string) (c : Client) : Client :=
  {| currentState := currentState c; macAddress := v; apiKey := apiKey c;
     friendlyId := friendlyId c; refreshRate := refreshRate c;
     lastImageFilename := lastImageFilename c; lastUpdateTime := lastUpdateTime c;
     consecutiveErrors := consecutiveErrors c; lastError := lastError c |}.

Definition set_apiKey (v : string) (c : Client) : Client :=
  {| currentState := currentState c; macAddress := macAddress c; apiKey := v;
     friendlyId := friendlyId c; refreshRate := refreshRate c;
     lastImageFilename := lastImageFilename c; lastUpdateTime := lastUpdateTime c;
     consecutiveErrors := consecutiveErrors c; lastError := lastError c |}.

Definition set_friendlyId (v : string) (c : Client) : Client :=
  {| currentState := currentState c; macAddress := macAddress c; apiKey := apiKey c;
     friendlyId := v; refreshRate := refreshRate c;
     lastImageFilename := lastImageFilename c; lastUpdateTime := lastUpdateTime c;
     consecutiveErrors := consecutiveErrors c; lastError := lastError c |}.

Definition set_refreshRate (v : Z) (c : Client) : Client :=
  {| currentState := currentState c; macAddress := macAddress c; apiKey := apiKey c;
     friendlyId := friendlyId c; refreshRate := v;
     lastImageFilename := lastImageFilename c; lastUpdateTime := lastUpdateTime c;
     consecutiveErrors := consecutiveErrors c; lastError := lastError c |}.

Definition set_lastImageFilename (v : string) (c : Client) : Client :=
  {| currentState := currentState c; macAddress := macAddress c; apiKey := apiKey c;
     friendlyId := friendlyId c; refreshRate := refreshRate c;
     lastImageFilename := v; lastUpdateTime := lastUpdateTime c;
     consecutiveErrors := consecutiveErrors c; lastError := lastError c |}.

Definition set_lastUpdateTime (v : Z) (c : Client) : Client :=
  {| currentState := currentState c; macAddress := macAddress c; apiKey := apiKey c;
     friendlyId := friendlyId c; refreshRate := refreshRate c;
     lastImageFilename := lastImageFilename c; lastUpdateTime := v;
     consecutiveErrors := consecutiveErrors c; lastError := lastError c |}.

Definition set_consecutiveErrors (v : Z) (c : Client) : Client :=
  {| currentState := currentState c; macAddress := macAddress c; apiKey := apiKey c;
     friendlyId := friendlyId c; refreshRate := refreshRate c;
     lastImageFilename := lastImageFilename c; lastUpdateTime := lastUpdateTime c;
     consecutiveErrors := v; lastError := lastError c |}.

Definition set_lastError (v : string) (c : Client) : Client :=
  {| currentState := currentState c; macAddress := macAddress c; apiKey := apiKey c;
     friendlyId := friendlyId c; refreshRate := refreshRate c;
     lastImageFilename := lastImageFilename c; lastUpdateTime := lastUpdateTime c;
     consecutiveErrors := consecutiveErrors c; lastError := v |}.

(** *** The state monad of the firmware's methods *)

Definition M (A : Type) : Type := t -> A * t.

#[global] Instance M_ret : MRet M := fun A a s => (a, s).
#[global] Instance M_bind : MBind M :=
  fun A B f m s => let '(a, s') := m s in f a s'.

Definition getH {A} (f : Hardware -> A) : M A := fun s => (f (hw s), s).
Definition getC {A} (f : Client -> A) : M A := fun s => (f (client s), s).
Definition getE {A} (f : Env -> A) : M A := fun s => (f (env (hw s)), s).
Definition modH (f : Hardware -> Hardware) : M unit :=
  fun s => (tt, {| client := client s; hw := f (hw s) |}).
Definition modC (f : Client -> Client) : M unit :=
  fun s => (tt, {| client := f (client s); hw := hw s |}).

Definition emit (e : Event) : M unit :=
  modH (fun h => set_trace (trace h ++ [e]) h).

Definition epd (op : EpdOp) : M unit := emit (EvEpd op).

(** [delay(ms)]: time passes *)
Definition delay (ms : Z) : M unit :=
  emit (EvDelay ms) ;; modH (fun h => set_millis (millis h + ms) h).

(** [while (cond) body] for loops whose trip count is bounded by [fuel] *)
Fixpoint while (fuel : nat) (cond : M bool) (body : M unit) : M unit :=
  match fuel with
  | O => mret tt
  | S k => c ← cond; if c : bool then body ;; while k cond body else mret tt
  end.

(** [epd.firstPage(); do { body } while (epd.nextPage());] after the
    [firstPage]: the body runs once per page; it answers [false] when
    it leaves the loop by [break]. *)
Fixpoint pagedLoop (extra : nat) (body : M bool) : M unit :=
  continue ← body;
  if continue : bool then
    epd NextPage ;;
    match extra with
    | O => mret tt
    | S k => pagedLoop k body
    end
  else mret tt.

Definition nonempty (s : string) : bool := (0 <? String.length s)%nat.

End Sys.

(** ** Single-precision arithmetic of the render path

    [displayImage] and [pngDrawToEPD] compute the scale factor and the
    scaled coordinates in [float].  The float unit is a parameter of
    the model: the operations the sources use, nothing assumed about
    their rounding. *)

Record FloatOps := {
  flt : Type;
  f_of_int : Z -> flt;                (* (float)i *)
  f_div : flt -> flt -> flt;
  f_mul : flt -> flt -> flt;
  f_lt : flt -> flt -> bool;
  f_le : flt -> flt -> bool;
  f_trunc : flt -> Z;                 (* (int)x *)
  f_floor : flt -> Z;                 (* (int)floorf(x) *)
}.

(** ** paperdink_hardware.cpp *)

Module Hw.
Import CInt Config Sys.

(** result codes of PNGdec (PNGdec.h); [decode] answers
    PNG_QUIT_EARLY when the draw callback returns 0 *)
Definition PNG_SUCCESS : Z := 0.
Definition PNG_QUIT_EARLY : Z := 8.

(** *** Preferences *)

Definition saveString (key value : string) : M bool :=
  modH (fun h => set_preferences (<[key := PString value]> (preferences h)) h) ;;
  mret (nonempty value).

Definition loadString (key defaultValue : string) : M string :=
  p ← getH preferences;
  mret (match p !! key with
        | Some (PString s) => s
        | _ => defaultValue
        end).

Definition saveInt (key : string) (value : Z) : M bool :=
  modH (fun h => set_preferences (<[key := PInt value]> (preferences h)) h) ;;
  mret true.

Definition loadInt (key : string) (defaultValue : Z) : M Z :=
  p ← getH preferences;
  mret (match p !! key with
        | Some (PInt n) => n
        | _ => defaultValue
        end).

(** *** SD card *)

Definition isSDCardAvailable : M bool := getH sdCardAvailable.

Definition writeFile (path : string) (data : list Z) : M bool :=
  avail ← getH sdCardAvailable;
  if negb avail then mret false else
  can ← getE sdOpenOk;
  if negb (can path) then emit (EvFileWrite path false) ;; mret false else
  modH (fun h => set_sdFiles (<[path := data]> (sdFiles h)) h) ;;
  emit (EvFileWrite path true) ;;
  mret true.

Definition getFreeHeap : M Z := getE freeHeap.
Definition getMacAddress : M string := getE mac.

(** *** Text screens *)

Definition clearDisplay : M unit :=
  epd FirstPage ;;
  n ← getE extraPages;
  pagedLoop n (epd FillScreenWhite ;; mret true).

Definition printCmd (c : TextCmd) : M unit :=
  epd (SetCursor (tc_x c) (tc_y c)) ;;
  epd (SetTextSize (tc_size c)) ;;
  epd (PrintText (tc_text c)).

Fixpoint printCmds (cs : list TextCmd) : M unit :=
  match cs with
  | [] => mret tt
  | c :: rest => printCmd c ;; printCmds rest
  end.

Definition updateDisplay : M unit :=
  epd FirstPage ;;
  n ← getE extraPages;
  pagedLoop n (epd FillScreenWhite ;;
               cs ← getH text_cmds;
               printCmds cs ;;
               mret true) ;;
  modH (set_text_cmds []).

Definition displayText (text : string) (x y size : Z) : M unit :=
  cs ← getH text_cmds;
  if (Z.of_nat (length cs) <? 16)
  then modH (set_text_cmds (cs ++ [ {| tc_text := text; tc_x := x; tc_y := y; tc_size := size |} ]))
  else mret tt.

(** *** Power *)

Definition disablePeripherals : M unit :=
  emit EvPeripheralsOff ;; modH (set_wifiConnected false).

Definition enterDeepSleep (sleepTimeSeconds : Z) : M unit :=
  disablePeripherals ;;
  emit (EvDeepSleep sleepTimeSeconds).

(** *** PNGdec *)

Definition png_openRAM (data : list Z) : M Z :=
  dec ← getE pngdec;
  let rc := open_rc (dec data) in
  emit (EvPngOpen rc) ;; mret rc.

Section Render.
Context (fl : FloatOps).

Record PngDrawContext := {
  x0 : Z;
  y0 : Z;
  tW : Z;
  tH : Z;
  sX : flt fl;
  sY : flt fl;
  invert : bool;
}.

(** 8-bit luma of an RGB565 sample, as the draw callback computes it *)
Definition luma565 (c : Z) : Z :=
  let r5 := to_uint8 (Z.land (Z.shiftr c 11) 31) in
  let g6 := to_uint8 (Z.land (Z.shiftr c 5) 63) in
  let b5 := to_uint8 (Z.land c 31) in
  let r := to_uint8 ((r5 * 255 + 15) / 31) in
  let g := to_uint8 ((g6 * 255 + 31) / 63) in
  let b := to_uint8 ((b5 * 255 + 15) / 31) in
  to_uint8 ((r * 30 + g * 59 + b * 11) / 100).

Definition isBlack (inv : bool) (lum : Z) : bool :=
  if inv then 128 <=? lum else lum <? 128.

(** one step of the [dx] loop over the destination line *)
Definition plot (ctx : PngDrawContext) (srcW : Z) (line565 : list Z)
           (lineBits : list Z) (dx : Z) : list Z :=
  let sx := f_trunc fl (f_div fl (f_of_int fl dx) (sX ctx)) in
  let sx := if sx <? 0 then 0 else sx in
  let sx := if srcW <=? sx then srcW - 1 else sx in
  let c := nth (Z.to_nat sx) line565 0 in
  let black := isBlack (invert ctx) (luma565 c) in
  let dstX := x0 ctx + dx in
  if (0 <=? dstX) && (dstX <? DISPLAY_WIDTH) && black
  then alter (fun b => Z.land b (to_uint8 (Z.lnot (Z.shiftr 128 (Z.land dstX 7)))))
             (Z.to_nat (Z.shiftr dstX 3)) lineBits
  else lineBits.

Definition buildLine (ctx : PngDrawContext) (srcW : Z) (line565 : list Z) : list Z :=
  fold_left (plot ctx srcW line565) (seqZ 0 (tW ctx))
            (replicate (Z.to_nat ((DISPLAY_WIDTH + 7) / 8)) 255).

Fixpoint drawRows (lineBits : list Z) (dys : list Z) : M unit :=
  match dys with
  | [] => mret tt
  | dy :: rest =>
      (if (dy <? 0) || (DISPLAY_HEIGHT <=? dy) then mret tt
       else epd (DrawBitmap 0 dy lineBits DISPLAY_WIDTH 1)) ;;
      drawRows lineBits rest
  end.

(** The PNGdec draw callback for source line [y] of width [iWidth];
    the result 0 stops the decode. *)
Definition pngDrawToEPD (ctx : PngDrawContext) (iWidth y : Z) (line565 : list Z) : M Z :=
  if 1024 <? iWidth then mret 0 else
  let lineBits := buildLine ctx iWidth line565 in
  let yStart := y0 ctx + f_floor fl (f_mul fl (f_of_int fl y) (sY ctx)) in
  let yEnd := y0 ctx + f_floor fl (f_mul fl (f_of_int fl (y + 1)) (sY ctx)) - 1 in
  let yEnd := if yEnd <? yStart then yStart else yEnd in
  drawRows lineBits (seqZ yStart (yEnd - yStart + 1)) ;;
  mret 1.

Fixpoint decodeLines (ctx : PngDrawContext) (iWidth y : Z)
         (lines : list (list Z)) (final : Z) : M Z :=
  match lines with
  | [] => mret final
  | l :: rest =>
      go ← pngDrawToEPD ctx iWidth y l;
      if go =? 0 then mret PNG_QUIT_EARLY
      else decodeLines ctx iWidth (y + 1) rest final
  end.

(** [s_png.decode(&ctx, 0)] on the buffer that is open *)
Definition png_decode (ctx : PngDrawContext) (data : list Z) : M Z :=
  dec ← getE pngdec;
  let img := dec data in
  rc ← decodeLines ctx (width img) 0 (scanlines img) (decode_rc img);
  emit (EvPngDecode rc) ;; mret rc.

(** [displayImage(imageData, imageSize)]; the buffer and its size
    travel together, [None] is the null pointer. *)
Definition displayImage (imageData : option (list Z)) : M unit :=
  match imageData with
  | None => mret tt
  | Some data =>
    let imageSize := Z.of_nat (length data) in
    if imageSize =? 0 then mret tt else
    let raw1bppSize := (DISPLAY_WIDTH * DISPLAY_HEIGHT) / 8 in
    pages ← getE extraPages;
    if imageSize =? raw1bppSize then
      epd SetFullWindow ;;
      epd FirstPage ;;
      pagedLoop pages
        (epd FillScreenWhite ;;
         epd (DrawBitmap 0 0 data DISPLAY_WIDTH DISPLAY_HEIGHT) ;;
         mret true)
    else
      rc ← png_openRAM data;
      if negb (rc =? PNG_SUCCESS) then
        clearDisplay ;;
        displayText "PNG decode failed" 10 60 1 ;;
        updateDisplay
      else
        dec ← getE pngdec;
        let pngW := to_int16 (width (dec data)) in
        let pngH := to_int16 (height (dec data)) in
        let one := f_of_int fl 1 in
        let s :=
          if (0 <? pngW) && (0 <? pngH) then
            let sx := f_div fl (f_of_int fl DISPLAY_WIDTH) (f_of_int fl pngW) in
            let sy := f_div fl (f_of_int fl DISPLAY_HEIGHT) (f_of_int fl pngH) in
            let s := if f_lt fl sx sy then sx else sy in
            if f_le fl s (f_of_int fl 0) then one else s
          else one in
        let tW := f_floor fl (f_mul fl (f_of_int fl pngW) s) in
        let tH := f_floor fl (f_mul fl (f_of_int fl pngH) s) in
        let tW := if tW <? 1 then 1 else tW in
        let tH := if tH <? 1 then 1 else tH in
        inv ← getH invertDisplayFlag;
        let ctx := {| x0 := Z.quot (DISPLAY_WIDTH - tW) 2;
                      y0 := Z.quot (DISPLAY_HEIGHT - tH) 2;
                      tW := tW; tH := tH; sX := s; sY := s;
                      invert := inv |} in
        epd SetFullWindow ;;
        epd FirstPage ;;
        pagedLoop pages
          (epd FillScreenWhite ;;
           orc ← png_openRAM data;
           if negb (orc =? PNG_SUCCESS) then mret false else
           dec ← png_decode ctx data;
           if negb (dec =? PNG_SUCCESS) then mret false else
           mret true)
  end.

End Render.

End Hw.

(** ** trmnl_client.cpp *)

Module Client.
Import CInt Config Sys.

Record SetupResponse := {
  sr_status : Z;
  sr_apiKey : string;
  sr_friendlyId : string;
  sr_imageUrl : string;
  sr_filename : string;
}.

Record DisplayResponse := {
  status : Z;
  imageUrl : string;
  filename : string;
  updateFirmware : bool;
  firmwareUrl : string;
  dr_refreshRate : Z;
  resetFirmware : bool;
  error : string;
}.

(** [SetupResponse response;] / [DisplayResponse response;] as the
    callers declare them: the strings are empty; the scalars are not
    initialised in C++ and are never read before a call has set
    them, so any value does. *)
Definition fresh_SetupResponse : SetupResponse :=
  {| sr_status := 0; sr_apiKey := ""; sr_friendlyId := "";
     sr_imageUrl := ""; sr_filename := "" |}.

Definition fresh_DisplayResponse : DisplayResponse :=
  {| status := 0; imageUrl := ""; filename := ""; updateFirmware := false;
     firmwareUrl := ""; dr_refreshRate := 0; resetFirmware := false;
     error := "" |}.

Definition USER_AGENT : string := "paperdink-trmnl/1.0".
Definition maxRetries : Z := 3.

Definition setState (st : DeviceState) : M unit := modC (set_currentState st).

(** *** Registration record *)

Definition isDeviceRegistered : M bool :=
  k ← getC apiKey;
  f ← getC friendlyId;
  mret (nonempty k && nonempty f).

Definition saveDeviceInfo : M unit :=
  k ← getC apiKey;
  Hw.saveString "api_key" k ;;
  f ← getC friendlyId;
  Hw.saveString "friendly_id" f ;;
  r ← getC refreshRate;
  Hw.saveInt "refresh_rate" r ;;
  mret tt.

Definition loadDeviceInfo : M bool :=
  b ← getE build;
  k ← match TRMNL_API_KEY b with
      | Some k => mret k
      | None => Hw.loadString "api_key" ""
      end;
  modC (set_apiKey k) ;;
  f ← match CUSTOM_FRIENDLY_ID b with
      | Some f => mret f
      | None => Hw.loadString "friendly_id" ""
      end;
  modC (set_friendlyId f) ;;
  r ← Hw.loadInt "refresh_rate" DEEP_SLEEP_DURATION_SECONDS;
  modC (set_refreshRate r) ;;
  isDeviceRegistered.

Definition clearDeviceRegistration : M unit :=
  modC (set_apiKey "") ;;
  modC (set_friendlyId "") ;;
  Hw.saveString "api_key" "" ;;
  Hw.saveString "friendly_id" "" ;;
  mret tt.

Definition setRefreshRate (seconds : Z) : M unit :=
  modC (set_refreshRate seconds) ;;
  Hw.saveInt "refresh_rate" seconds ;;
  mret tt.

(** *** WiFi *)

Definition isWiFiConnected : M bool := getH wifiConnected.

Definition loadCredentials : M (bool * (string * string)) :=
  b ← getE build;
  match WIFI_SSID b with
  | Some ssid =>
      mret (true, (ssid, match WIFI_PASSWORD b with Some p => p | None => "" end))
  | None =>
      ssid ← Hw.loadString "wifi_ssid" "";
      password ← Hw.loadString "wifi_password" "";
      mret (nonempty ssid, (ssid, password))
  end.

(** [WiFi.status() == WL_CONNECTED] while joining: the station is
    connected once the time the environment takes has passed since
    [WiFi.begin] *)
Definition pollWiFi (startTime : Z) : M bool :=
  j ← getE wifiJoinAfter;
  now ← getH millis;
  let up := match j with
            | Some d => d <=? now - startTime
            | None => false
            end in
  modH (set_wifiConnected up) ;;
  mret up.

Definition connectToWiFi : M bool :=
  cred ← loadCredentials;
  let '(found, (ssid, password)) := cred in
  if negb found then mret false else
  emit (EvWiFiBegin ssid password) ;;
  startTime ← getH millis;
  while (Z.to_nat (WIFI_CONNECT_TIMEOUT_MS / 500) + 1)
        (up ← pollWiFi startTime;
         now ← getH millis;
         mret (negb up && (now - startTime <? WIFI_CONNECT_TIMEOUT_MS)))
        (delay 500) ;;
  pollWiFi startTime.

(** *** HTTP transport *)

Definition http_GET (url : string) (headers : list (string * string)) : M HttpResponse :=
  emit (EvHttpGet url headers) ;;
  n ← getH net;
  match n with
  | [] => mret no_answer
  | r :: rest => modH (set_net rest) ;; mret r
  end.

(** The retry loop of [callSetupAPI]:
    [for (attempt = 1; attempt <= maxRetries; ++attempt)]; [last] is
    the answer that set [httpResponseCode] so far. *)
Fixpoint setupAttempts (fuel : nat) (attempt : Z) (last : HttpResponse)
         (url : string) (headers : list (string * string)) : M HttpResponse :=
  match fuel with
  | O => mret last
  | S k =>
      if attempt <=? maxRetries then
        r ← http_GET url headers;
        if code r =? 200 then mret r
        else if code r <? 0 then
          delay (1000 * attempt) ;; setupAttempts k (attempt + 1) r url headers
        else if 500 <=? code r then
          delay (1000 * attempt) ;; setupAttempts k (attempt + 1) r url headers
        else mret r
      else mret last
  end.

(** The retry loop of [callDisplayAPI]. *)
Fixpoint displayAttempts (fuel : nat) (attempt : Z) (last : HttpResponse)
         (url : string) (headers : list (string * string)) : M HttpResponse :=
  match fuel with
  | O => mret last
  | S k =>
      if attempt <=? maxRetries then
        r ← http_GET url headers;
        if code r =? 200 then mret r
        else if (code r <? 0) || (500 <=? code r) then
          delay (1000 * attempt) ;; displayAttempts k (attempt + 1) r url headers
        else mret r
      else mret last
  end.

Definition setupUrl (b : Build) (mac : string) : string :=
  TRMNL_API_BASE_URL b +:+ TRMNL_API_SETUP_ENDPOINT +:+
  "?mac=" +:+ mac +:+
  "&firmware_version=" +:+ FIRMWARE_VERSION +:+
  "&device_type=paperdink".

Definition displayUrl (b : Build) : string :=
  TRMNL_API_BASE_URL b +:+ TRMNL_API_DISPLAY_ENDPOINT.

Definition parseSetup (doc : Json.t) : SetupResponse :=
  let okFlag := Json.or_bool (Json.get doc "success") false
                || Json.or_bool (Json.get doc "ok") false in
  let status := Json.or_int (Json.get doc "status") (if okFlag then 200 else 0) in
  let parsedApiKey :=
    Json.or_str (Json.or_else (Json.get doc "api_key") (Json.get doc "apiKey")) "" in
  let parsedApiKey :=
    if negb (nonempty parsedApiKey) then
      Json.or_str
        (Json.or_else (Json.or_else (Json.or_else
           (Json.get (Json.get doc "device") "api_key")
           (Json.get (Json.get doc "device") "apiKey"))
           (Json.get (Json.get doc "data") "api_key"))
           (Json.get (Json.get doc "data") "apiKey")) ""
    else parsedApiKey in
  let parsedFriendly :=
    Json.or_str (Json.or_else (Json.get doc "friendly_id") (Json.get doc "friendlyId")) "" in
  let parsedFriendly :=
    if negb (nonempty parsedFriendly) then
      Json.or_str
        (Json.or_else (Json.or_else (Json.or_else
           (Json.get (Json.get doc "device") "friendly_id")
           (Json.get (Json.get doc "device") "friendlyId"))
           (Json.get (Json.get doc "data") "friendly_id"))
           (Json.get (Json.get doc "data") "friendlyId")) ""
    else parsedFriendly in
  let parsedImageUrl :=
    Json.or_str (Json.or_else (Json.get doc "image_url") (Json.get doc "imageUrl")) "" in
  let parsedFilename := Json.or_str (Json.get doc "filename") "" in
  {| sr_status := status; sr_apiKey := parsedApiKey; sr_friendlyId := parsedFriendly;
     sr_imageUrl := parsedImageUrl; sr_filename := parsedFilename |}.

Definition callSetupAPI (response : SetupResponse) : M (bool * SetupResponse) :=
  up ← isWiFiConnected;
  if negb up then mret (false, response) else
  m ← Hw.getMacAddress;
  modC (set_macAddress m) ;;
  b ← getE build;
  let url := setupUrl b m in
  let headers := [("Accept", "application/json"); ("Accept-Encoding", "identity");
                  ("User-Agent", USER_AGENT); ("Connection", "close")] in
  r ← setupAttempts (Z.to_nat maxRetries + 1) 1 no_answer url headers;
  if code r =? 200 then
    match json r with
    | Some doc =>
        let response := parseSetup doc in
        let success := (sr_status response =? 200)
                       || (nonempty (sr_apiKey response) && nonempty (sr_friendlyId response)) in
        mret (success, response)
    | None => mret (false, response)
    end
  else mret (false, response).

Definition parseDisplay (doc : Json.t) (refreshRate : Z) : DisplayResponse :=
  let imageUrl := Json.or_str (Json.get doc "image_url") "" in
  let imageUrl := if negb (nonempty imageUrl) then Json.or_str (Json.get doc "url") "" else imageUrl in
  let imageUrl := if negb (nonempty imageUrl) then Json.or_str (Json.get doc "image") "" else imageUrl in
  {| status := Json.or_int (Json.get doc "status") 200;
     imageUrl := imageUrl;
     filename := Json.or_str (Json.get doc "filename") "";
     updateFirmware := Json.or_bool (Json.get doc "update_firmware") false;
     firmwareUrl := Json.or_str (Json.get doc "firmware_url") "";
     dr_refreshRate := Json.or_int (Json.get doc "refresh_rate") refreshRate;
     resetFirmware := Json.or_bool (Json.get doc "reset_firmware") false;
     error := Json.or_str (Json.get doc "error") "" |}.

Definition displayHeaders (apiKey friendlyId : string) : list (string * string) :=
  ([("Accept", "image/*, application/json"); ("Accept-Encoding", "identity");
    ("access-token", apiKey); ("User-Agent", USER_AGENT)]
   ++ (if nonempty friendlyId then [("X-Friendly-Id", friendlyId)] else [])
   ++ [("Connection", "close")])%list.

Definition callDisplayAPI (response : DisplayResponse) : M (bool * DisplayResponse) :=
  up ← isWiFiConnected;
  k ← getC apiKey;
  if negb up || (String.length k =? 0)%nat then mret (false, response) else
  b ← getE build;
  let url := displayUrl b in
  f ← getC friendlyId;
  r ← displayAttempts (Z.to_nat maxRetries + 1) 1 no_answer url (displayHeaders k f);
  if code r =? 200 then
    match json r with
    | Some doc =>
        rate ← getC refreshRate;
        let response := parseDisplay doc rate in
        (if negb (dr_refreshRate response =? rate)
         then setRefreshRate (dr_refreshRate response) else mret tt) ;;
        let success := (status response =? 200)
                       || (nonempty (imageUrl response)
                           && (String.length (error response) =? 0)%nat) in
        (if resetFirmware response
         then clearDeviceRegistration ;; delay 100 else mret tt) ;;
        mret (success, response)
    | None =>
        rate ← getC refreshRate;
        mret (true, {| status := 200; imageUrl := url; filename := "";
                       updateFirmware := false; firmwareUrl := "";
                       dr_refreshRate := rate; resetFirmware := false;
                       error := "" |})
    end
  else mret (false, response).

(** *** Image download *)

Definition malloc (n : Z) : M bool :=
  limit ← getE maxAlloc;
  let ok := n <=? limit in
  emit (EvMalloc n ok) ;;
  (if ok then modH (fun h => set_liveBuffers (S (liveBuffers h)) h) else mret tt) ;;
  mret ok.

Definition free : M unit :=
  emit EvFree ;;
  modH (fun h => set_liveBuffers (pred (liveBuffers h)) h).

(** The read loop, one pass per poll of the stream; [buf] holds the
    [bytesRead] bytes received so far.  When a chunk does not fit,
    the buffer is filled to [maxSize]; the pass after that finds the
    rest of the chunk available and nothing left to read into, and
    breaks. *)
Fixpoint readStream (polls : list (list Z)) (maxSize : Z) (buf : list Z) : M (list Z) :=
  match polls with
  | [] => mret buf
  | c :: rest =>
      let available := Z.of_nat (length c) in
      if available =? 0 then delay 1 ;; readStream rest maxSize buf else
      let bytesRead := Z.of_nat (length buf) in
      let toRead := if maxSize <? bytesRead + available
                    then maxSize - bytesRead else available in
      if toRead =? 0 then mret buf else
      let buf := (buf ++ take (Z.to_nat toRead) c)%list in
      if toRead <? available then mret buf
      else readStream rest maxSize buf
  end.

(** [downloadImageAutoAlloc(imageUrl, &outBuffer, &outSize)]: the
    result and the buffer left in [*outBuffer] ([None]: null), its
    length being [*outSize]. *)
Definition downloadImageAutoAlloc (url : string) (outBuffer : option (list Z))
  : M (bool * option (list Z)) :=
  up ← isWiFiConnected;
  if negb up || (String.length url =? 0)%nat then mret (false, outBuffer) else
  k ← getC apiKey;
  r ← http_GET url [("Accept", "image/*"); ("access-token", k);
                    ("Connection", "close"); ("User-Agent", USER_AGENT)];
  if negb (code r =? 200) then mret (false, None) else
  let contentLength := to_int (size r) in
  freeHeap ← Hw.getFreeHeap;
  let allocSize := Alloc.allocSize contentLength freeHeap in
  ok ← malloc allocSize;
  if negb ok then mret (false, None) else
  buffer ← readStream (chunks r) allocSize [];
  let bytesRead := Z.of_nat (length buffer) in
  if (0 <? contentLength) && negb (to_int bytesRead =? contentLength)
     && (to_int bytesRead <? contentLength)
  then free ;; mret (false, None)
  else if bytesRead =? 0 then free ;; mret (false, None)
  else mret (true, Some buffer).

Definition cacheImage (filename : string) (imageData : list Z) : M bool :=
  avail ← Hw.isSDCardAvailable;
  if negb avail then mret false else
  Hw.writeFile ("/cache/" +:+ filename) imageData.

Section WithFloat.
Context (fl : FloatOps).

Definition registerDevice : M bool :=
  ok ← connectToWiFi;
  if negb ok then modC (set_lastError "WiFi connection failed") ;; mret false else
  reg ← isDeviceRegistered;
  if reg : bool then
    setState STATE_OPERATIONAL ;;
    modC (set_consecutiveErrors 0) ;;
    mret true
  else
    res ← callSetupAPI fresh_SetupResponse;
    let '(ok, response) := res in
    if ok : bool then
      modC (set_apiKey (sr_apiKey response)) ;;
      modC (set_friendlyId (sr_friendlyId response)) ;;
      saveDeviceInfo ;;
      setState STATE_OPERATIONAL ;;
      modC (set_consecutiveErrors 0) ;;
      mret true
    else
      modC (fun c => set_consecutiveErrors (to_int (consecutiveErrors c + 1)) c) ;;
      modC (set_lastError "Device registration failed") ;;
      mret false.

Definition updateContent : M bool :=
  up ← isWiFiConnected;
  if negb up then setState STATE_OFFLINE ;; mret false else
  res ← callDisplayAPI fresh_DisplayResponse;
  let '(ok, response) := res in
  done ←
    (if ok : bool then
       if nonempty (imageUrl response) then
         dl ← downloadImageAutoAlloc (imageUrl response) None;
         let '(got, imageBuffer) := dl in
         if got : bool then
           Hw.displayImage fl imageBuffer ;;
           (if CACHE_ENABLED && nonempty (filename response)
            then cacheImage (filename response)
                            (match imageBuffer with Some d => d | None => [] end) ;;
                 mret tt
            else mret tt) ;;
           modC (set_lastImageFilename (filename response)) ;;
           now ← getH millis;
           modC (set_lastUpdateTime now) ;;
           modC (set_consecutiveErrors 0) ;;
           free ;;
           mret true
         else
           modC (set_lastError "image download failed") ;;
           (match imageBuffer with Some _ => free | None => mret tt end) ;;
           mret false
       else modC (set_lastError "no imageUrl") ;; mret false
     else modC (set_lastError "display API error") ;; mret false);
  if done : bool then mret true else
  modC (fun c => set_consecutiveErrors (to_int (consecutiveErrors c + 1)) c) ;;
  mret false.

End WithFloat.

End Client.

(** ** main.cpp: going to sleep

    The repository carries two variants of the driver.  The current
    one (the one written against this client and this render path)
    keeps the frame and sleeps for the refresh rate as it is; the
    earlier one draws a sleep screen and raises short rates to five
    minutes. *)

Module Main.
Import CInt Config Sys.

Definition enterSleepMode : M unit :=
  Hw.disablePeripherals ;;
  r ← getC refreshRate;
  let sleepDuration := to_size_t r in
  Hw.enterDeepSleep sleepDuration.

Definition enterSleepMode_earlier : M unit :=
  Hw.clearDisplay ;;
  Hw.displayText "Sleeping..." 50 100 2 ;;
  Hw.displayText "Press any button" 10 140 1 ;;
  Hw.displayText "to wake up" 10 160 1 ;;
  Hw.updateDisplay ;;
  Hw.disablePeripherals ;;
  r ← getC refreshRate;
  let sleepDuration := to_size_t r in
  let sleepDuration := if sleepDuration <? 300 then 300 else sleepDuration in
  Hw.enterDeepSleep sleepDuration.

(** the deep sleeps a run has entered, in order *)
Definition sleeps (tr : list Event) : list Z :=
  omap (fun e => match e with EvDeepSleep n => Some n | _ => None end) tr.

End Main.

(** ** Observations on runs, and the properties in the specification's words *)

Module Obs.
Import CInt Config Sys.

Definition run {A} (m : M A) (s : Sys.t) : Sys.t := snd (m s).
Definition result {A} (m : M A) (s : Sys.t) : A := fst (m s).

(** the requests a trace holds *)
Definition httpGets (tr : list Event) : list string :=
  omap (fun e => match e with EvHttpGet u _ => Some u | _ => None end) tr.

(** what went to the panel *)
Definition epdOps (tr : list Event) : list EpdOp :=
  omap (fun e => match e with EvEpd op => Some op | _ => None end) tr.

(** the files the firmware tried to write *)
Definition fileWrites (tr : list Event) : list string :=
  omap (fun e => match e with EvFileWrite p _ => Some p | _ => None end) tr.

(** the sizes requested from [malloc] *)
Definition mallocs (tr : list Event) : list Z :=
  omap (fun e => match e with EvMalloc n _ => Some n | _ => None end) tr.

(** the [openRAM] calls *)
Definition pngOpens (tr : list Event) : list Z :=
  omap (fun e => match e with EvPngOpen rc => Some rc | _ => None end) tr.

(** the texts printed to the panel *)
Definition printed (tr : list Event) : list string :=
  omap (fun e => match e with EvEpd (PrintText t) => Some t | _ => None end) tr.

Definition candidateSize (contentLength : Z) : Z :=
  if (0 <? contentLength) && (contentLength <? MAX_IMAGE_SIZE)
  then contentLength else Alloc.FALLBACK.

Definition sleepObs (s : Sys.t) : Client * list Z :=
  (client s, Main.sleeps (trace (hw s))).

(** everything a GET leaves alone *)
Definition aroundNet (s : Sys.t) :=
  (client s, env (hw s), preferences (hw s), sdCardAvailable (hw s), sdFiles (hw s),
   invertDisplayFlag (hw s), text_cmds (hw s), wifiConnected (hw s), liveBuffers (hw s),
   epdOps (trace (hw s)), fileWrites (trace (hw s)), pngOpens (trace (hw s))).

(** what the display call leaves alone: the error counter, the
    surroundings, the cache, the heap and the panel *)
Definition apiObs (s : Sys.t) :=
  (currentState (client s), consecutiveErrors (client s), env (hw s),
   sdCardAvailable (hw s), sdFiles (hw s), wifiConnected (hw s), liveBuffers (hw s),
   epdOps (trace (hw s)), fileWrites (trace (hw s))).

(** what the download leaves alone: the client, the cache and the panel *)
Definition dlObs (s : Sys.t) :=
  (client s, env (hw s), sdCardAvailable (hw s), sdFiles (hw s), wifiConnected (hw s),
   epdOps (trace (hw s)), fileWrites (trace (hw s))).

(** what joining the WiFi leaves alone: the client, the transport's
    script and the requests made *)
Definition wifiObs (s : Sys.t) :=
  (client s, net (hw s), httpGets (trace (hw s))).

(** what the panel was made to print, and the text queued for it *)
Definition textObs (s : Sys.t) : list string * list TextCmd :=
  (printed (trace (hw s)), text_cmds (hw s)).

(** A computation leaves an observation as it was. *)
Definition keeps {X A} (obs : Sys.t -> X) (m : M A) : Prop :=
  forall s, obs (snd (m s)) = obs s.

(** A computation moves every state to one related to it by [R]. *)
Definition follows {A} (R : Sys.t -> Sys.t -> Prop) (m : M A) : Prop :=
  forall s, R s (snd (m s)).

(** the trace only grows *)
Definition grows (s s' : Sys.t) : Prop :=
  exists added, trace (hw s') = trace (hw s) ++ added.

(** *** Retry policy, as specified

    An attempt is repeated after a transport failure (negative code)
    or a 5xx answer, after a delay of attempt index times one second;
    any other answer ends the call.  At most [maxRetries] attempts. *)
Definition retryable (c : Z) : bool := (c <? 0) || (500 <=? c).

Fixpoint schedule (get : Event) (attempt : Z) (codes : list Z) : list Event :=
  match codes with
  | [] => []
  | c :: rest =>
      get :: (if retryable c
              then EvDelay (1000 * attempt) :: schedule get (attempt + 1) rest
              else [])
  end.

(** the call's last result code, by the same rule *)
Fixpoint finalCode (last : Z) (codes : list Z) : Z :=
  match codes with
  | [] => last
  | c :: rest => if retryable c then finalCode c rest else c
  end.

(** the codes of the next [n] answers of the transport; nobody
    answers once the script is used up *)
Fixpoint codesFrom (n : nat) (answers : list HttpResponse) : list Z :=
  match n with
  | O => []
  | S m => code (hd no_answer answers) :: codesFrom m (tl answers)
  end.

Definition nextCodes (s : Sys.t) : list Z := codesFrom 3 (net (hw s)).

Definition setupHeaders : list (string * string) :=
  [("Accept", "application/json"); ("Accept-Encoding", "identity");
   ("User-Agent", Client.USER_AGENT); ("Connection", "close")].

(** the requests of the two calls, as events *)
Definition setupGet (s : Sys.t) : Event :=
  EvHttpGet (Client.setupUrl (build (env (hw s))) (mac (env (hw s)))) setupHeaders.

Definition displayGet (s : Sys.t) : Event :=
  EvHttpGet (Client.displayUrl (build (env (hw s))))
            (Client.displayHeaders (apiKey (client s)) (friendlyId (client s))).

(** the answer the display call's retry loop ends with, and the
    state it leaves *)
Definition displayAnswer (s : Sys.t) : HttpResponse * Sys.t :=
  Client.displayAttempts (Z.to_nat Client.maxRetries + 1) 1 no_answer
    (Client.displayUrl (build (env (hw s))))
    (Client.displayHeaders (apiKey (client s)) (friendlyId (client s))) s.

(** the bytes an answer delivers before the connection closes *)
Definition received (r : HttpResponse) : Z :=
  Z.of_nat (length (concat (chunks r))).

(** [callSetupAPI] sets the MAC address before it asks *)
Definition withMac (s : Sys.t) : Sys.t :=
  {| client := set_macAddress (mac (env (hw s))) (client s); hw := hw s |}.

(** the answer the setup call's retry loop ends with, and the state
    it leaves *)
Definition setupAnswer (s : Sys.t) : HttpResponse * Sys.t :=
  Client.setupAttempts (Z.to_nat Client.maxRetries + 1) 1 no_answer
    (Client.setupUrl (build (env (hw s))) (mac (env (hw s)))) setupHeaders (withMac s).

(** a value the preferences hold *)
Definition stored (s : Sys.t) (key : string) : option PrefVal :=
  preferences (hw s) !! key.

(** *** The frame of a raw 1-bit image on a panel of [S extra] pages *)
Definition rawFrame (data : list Z) (extra : nat) : list Event :=
  [EvEpd SetFullWindow; EvEpd FirstPage]
  ++ concat (replicate (S extra)
       [EvEpd FillScreenWhite;
        EvEpd (DrawBitmap 0 0 data DISPLAY_WIDTH DISPLAY_HEIGHT);
        EvEpd NextPage]).

End Obs.

(** ** Concrete devices, for running the model *)

Module Scenario.
Import CInt Config Sys.

(** exact rational arithmetic standing in for the float unit *)
Definition ExactQ : FloatOps :=
  {| flt := Q; f_of_int := inject_Z; f_div := Qdiv; f_mul := Qmult;
     f_lt := fun a b => negb (Qle_bool b a); f_le := Qle_bool;
     f_trunc := fun q => Z.quot (Qnum q) (Zpos (Qden q));
     f_floor := Qfloor |}.

(** a 2x1 PNG, whatever the bytes *)
Definition tinyPng (_ : list Z) : PngImage :=
  {| open_rc := 0; width := 2; height := 1; scanlines := [[0; 65535]]; decode_rc := 0 |}.

(** bytes that PNGdec does not open (PNG_INVALID_FILE) *)
Definition notPng (_ : list Z) : PngImage :=
  {| open_rc := 6; width := 0; height := 0; scanlines := []; decode_rc := 6 |}.

(** a PNG whose data breaks off after the first line (PNG_DECODE_ERROR) *)
Definition brokenPng (_ : list Z) : PngImage :=
  {| open_rc := 0; width := 2; height := 2; scanlines := [[0; 65535]]; decode_rc := 2 |}.

(** a PNG of 1200 pixels a line *)
Definition widePng (_ : list Z) : PngImage :=
  {| open_rc := 0; width := 1200; height := 1; scanlines := [[0]]; decode_rc := 0 |}.

Definition env_with (dec : list Z -> PngImage) (join : option Z) : Env :=
  {| build := default_build; mac := "AA:BB:CC:DD:EE:FF";
     freeHeap := 200000; maxAlloc := 110000;
     wifiJoinAfter := join; extraPages := 0;
     pngdec := dec; sdOpenOk := fun _ => true |}.

Definition hardware (e : Env) (answers : list HttpResponse) : Hardware :=
  {| env := e;
     preferences := {[ "wifi_ssid" := PString "home"; "wifi_password" := PString "secret";
                       "api_key" := PString "key-1"; "friendly_id" := PString "desk" ]};
     sdCardAvailable := true; sdFiles := ∅; invertDisplayFlag := false;
     text_cmds := []; wifiConnected := true; net := answers;
     millis := 0; liveBuffers := 0; trace := [] |}.

Definition registered (st : DeviceState) (rate : Z) : Client :=
  {| currentState := st; macAddress := "AA:BB:CC:DD:EE:FF";
     apiKey := "key-1"; friendlyId := "desk"; refreshRate := rate;
     lastImageFilename := ""; lastUpdateTime := 0;
     consecutiveErrors := 0; lastError := "" |}.

Definition device (st : DeviceState) (rate : Z) (join : option Z)
           (dec : list Z -> PngImage) (answers : list HttpResponse) : Sys.t :=
  {| client := registered st rate; hw := hardware (env_with dec join) answers |}.

(** the same device with only [free] bytes of heap left *)
Definition pressed (free : Z) (answers : list HttpResponse) : Sys.t :=
  {| client := registered STATE_OPERATIONAL 1800;
     hw := hardware {| build := default_build; mac := "AA:BB:CC:DD:EE:FF";
                       freeHeap := free; maxAlloc := free;
                       wifiJoinAfter := Some 0; extraPages := 0;
                       pngdec := tinyPng; sdOpenOk := fun _ => true |} answers |}.

Definition answer (c : Z) : HttpResponse :=
  {| code := c; size := -1; chunks := []; json := None |}.

Definition jsonAnswer (doc : Json.t) : HttpResponse :=
  {| code := 200; size := -1; chunks := []; json := Some doc |}.

Definition imageAnswer (declared : Z) (body : list (list Z)) : HttpResponse :=
  {| code := 200; size := declared; chunks := body; json := None |}.

End Scenario.

(** ** paperdink_hardware.cpp: files, settings, buttons *)

Module Storage.
Import CInt Config Sys.

Definition set_invertDisplayFlag (v : bool) (h : Hardware) : Hardware :=
  {| env := env h; preferences := preferences h; sdCardAvailable := sdCardAvailable h;
     sdFiles := sdFiles h; invertDisplayFlag := v;
     text_cmds := text_cmds h; wifiConnected := wifiConnected h; net := net h;
     millis := millis h; liveBuffers := liveBuffers h; trace := trace h |}.

(** *** Preferences *)

Definition saveBool (key : string) (value : bool) : M bool :=
  modH (fun h => set_preferences (<[key := PBool value]> (preferences h)) h) ;;
  mret true.

Definition loadBool (key : string) (defaultValue : bool) : M bool :=
  p ← getH preferences;
  mret (match p !! key with
        | Some (PBool b) => b
        | _ => defaultValue
        end).

Definition clearPreferences : M unit :=
  modH (set_preferences ∅).

Definition setInvertDisplay (invert : bool) : M unit :=
  modH (set_invertDisplayFlag invert) ;;
  saveBool "invert" invert ;;
  mret tt.

Definition getInvertDisplay : M bool := getH invertDisplayFlag.

(** *** SD card.  A file can be opened for reading when it exists. *)

(** [readFile(path, buffer, maxSize, &actualSize)]: the result, and
    the bytes left in the buffer, their number being [*actualSize];
    [None] when the call returns before it writes [*actualSize]. *)
Definition readFile (path : string) (maxSize : Z) : M (bool * option (list Z)) :=
  avail ← getH sdCardAvailable;
  if negb avail then mret (false, None) else
  files ← getH sdFiles;
  match files !! path with
  | None => mret (false, None)
  | Some content =>
      let fileSize := Z.of_nat (length content) in
      let readSize := Z.min fileSize maxSize in
      let buffer := take (Z.to_nat readSize) content in
      let bytesRead := Z.of_nat (length buffer) in
      mret (0 <? bytesRead, Some buffer)
  end.

Definition fileExists (path : string) : M bool :=
  avail ← getH sdCardAvailable;
  if negb avail then mret false else
  files ← getH sdFiles;
  mret (bool_decide (is_Some (files !! path))).

Definition getFileSize (path : string) : M Z :=
  avail ← getH sdCardAvailable;
  if negb avail then mret 0 else
  files ← getH sdFiles;
  match files !! path with
  | None => mret 0
  | Some content => mret (Z.of_nat (length content))
  end.

Definition deleteFile (path : string) : M bool :=
  avail ← getH sdCardAvailable;
  if negb avail then mret false else
  files ← getH sdFiles;
  match files !! path with
  | None => mret false
  | Some _ => modH (fun h => set_sdFiles (delete path (sdFiles h)) h) ;; mret true
  end.

End Storage.

Module Buttons.
Import CInt Config Sys.

Definition BUTTON_LONG_PRESS_MS : Z := 2000.
Definition BUTTON_VERY_LONG_PRESS_MS : Z := 5000.

Inductive ButtonState :=
| BUTTON_RELEASED
| BUTTON_PRESSED
| BUTTON_LONG_PRESS
| BUTTON_VERY_LONG_PRESS.

(** the three arrays of [PaperdInkHardware], four entries each *)
Record t := {
  buttonPressTime : list Z;
  buttonStates : list ButtonState;
  buttonPressed : list bool;
}.

(** as the constructor and [initializeButtons] leave them *)
Definition initial : t :=
  {| buttonPressTime := replicate 4 0;
     buttonStates := replicate 4 BUTTON_RELEASED;
     buttonPressed := replicate 4 false |}.

(** the body of the loop of [updateButtons] for button [i];
    [level] is what [digitalRead] gives for its pin (true: HIGH) and
    [currentTime] is [millis()], an [unsigned long] *)
Definition updateButton (level : bool) (currentTime : Z) (i : nat) (b : t) : t :=
  let currentPressed := negb level in
  let wasPressed := default false (buttonPressed b !! i) in
  if currentPressed && negb wasPressed then
    {| buttonPressTime := <[i := currentTime]> (buttonPressTime b);
       buttonStates := <[i := BUTTON_PRESSED]> (buttonStates b);
       buttonPressed := <[i := true]> (buttonPressed b) |}
  else if negb currentPressed && wasPressed then
    {| buttonPressTime := buttonPressTime b;
       buttonStates := <[i := BUTTON_RELEASED]> (buttonStates b);
       buttonPressed := <[i := false]> (buttonPressed b) |}
  else if currentPressed && wasPressed then
    let pressedDuration :=
      to_size_t (currentTime - default 0 (buttonPressTime b !! i)) in
    if BUTTON_VERY_LONG_PRESS_MS <? pressedDuration then
      {| buttonPressTime := buttonPressTime b;
         buttonStates := <[i := BUTTON_VERY_LONG_PRESS]> (buttonStates b);
         buttonPressed := buttonPressed b |}
    else if BUTTON_LONG_PRESS_MS <? pressedDuration then
      {| buttonPressTime := buttonPressTime b;
         buttonStates := <[i := BUTTON_LONG_PRESS]> (buttonStates b);
         buttonPressed := buttonPressed b |}
    else b
  else b.

(** [updateButtons()]: the four pins in turn, read at [currentTime] *)
Definition updateButtons (levels : list bool) (currentTime : Z) (b : t) : t :=
  fold_left (fun acc i => updateButton (default true (levels !! i)) currentTime i acc)
            (seq 0 4) b.

Definition getButtonState (buttonNum : Z) (b : t) : ButtonState :=
  if (buttonNum <? 0) || (4 <=? buttonNum) then BUTTON_RELEASED
  else default BUTTON_RELEASED (buttonStates b !! Z.to_nat buttonNum).

Definition resetButtonState (buttonNum : Z) (b : t) : t :=
  if (buttonNum <? 0) || (4 <=? buttonNum) then b
  else
    let i := Z.to_nat buttonNum in
    {| buttonPressTime := <[i := 0]> (buttonPressTime b);
       buttonStates := <[i := BUTTON_RELEASED]> (buttonStates b);
       buttonPressed := <[i := false]> (buttonPressed b) |}.

(** what the arrays hold for button [i] *)
Definition entry (i : nat) (b : t) : option Z * option ButtonState * option bool :=
  (buttonPressTime b !! i, buttonStates b !! i, buttonPressed b !! i).

(** the arrays have their four entries *)
Definition wf (b : t) : Prop :=
  length (buttonPressTime b) = 4%nat
  /\ length (buttonStates b) = 4%nat
  /\ length (buttonPressed b) = 4%nat.

End Buttons.

(** ** trmnl_client.cpp: credentials, cache, offline mode *)

Module Cache.
Import CInt Config Sys.

Definition saveCredentials (ssid password : string) : M unit :=
  Hw.saveString "wifi_ssid" ssid ;;
  Hw.saveString "wifi_password" password ;;
  mret tt.

Definition hasWiFiCredentials : M bool :=
  cred ← Client.loadCredentials;
  mret (fst cred).

Definition clearWiFiCredentials : M unit :=
  Hw.saveString "wifi_ssid" "" ;;
  Hw.saveString "wifi_password" "" ;;
  mret tt.

(** [TRMNLClient::begin()] *)
Definition begin : M bool :=
  Client.loadDeviceInfo ;;
  Client.setState STATE_UNINITIALIZED ;;
  mret true.

Definition loadCachedImage (filename : string) (maxSize : Z) : M (bool * option (list Z)) :=
  avail ← Hw.isSDCardAvailable;
  if negb avail then mret (false, None) else
  Storage.readFile ("/cache/" +:+ filename) maxSize.

Definition isCacheValid (filename : string) : M bool :=
  avail ← Hw.isSDCardAvailable;
  if negb avail then mret false else
  Storage.fileExists ("/cache/" +:+ filename).

Definition hasCachedContent : M bool :=
  avail ← Hw.isSDCardAvailable;
  if negb avail then mret false else
  last ← getC lastImageFilename;
  if negb (nonempty last) then mret false else
  isCacheValid last.

(** The read loop of [downloadImage], the download into a buffer the
    caller owns: one pass per poll while [bytesRead < maxSize].  When a
    chunk does not fit, the buffer is filled to [maxSize] and the loop
    condition ends the loop. *)
Fixpoint readFixed (polls : list (list Z)) (maxSize : Z) (buf : list Z) : M (list Z) :=
  match polls with
  | [] => mret buf
  | c :: rest =>
      let bytesRead := Z.of_nat (length buf) in
      if negb (bytesRead <? maxSize) then mret buf else
      let available := Z.of_nat (length c) in
      if available =? 0 then delay 1 ;; readFixed rest maxSize buf else
      let toRead := Z.min available (maxSize - bytesRead) in
      let buf := buf ++ take (Z.to_nat toRead) c in
      if toRead <? available then mret buf
      else readFixed rest maxSize buf
  end.

(** [downloadImage(imageUrl, buffer, maxSize, &actualSize)]: the
    result and what was read into the buffer ([None]: [*actualSize]
    not written) *)
Definition downloadImage (url : string) (maxSize : Z) : M (bool * option (list Z)) :=
  up ← Client.isWiFiConnected;
  if negb up || (String.length url =? 0)%nat then mret (false, None) else
  k ← getC apiKey;
  r ← Client.http_GET url [("Accept", "image/*"); ("access-token", k);
                           ("Connection", "close"); ("User-Agent", Client.USER_AGENT)];
  if code r =? 200 then
    let contentLength := to_int (size r) in
    buffer ← readFixed (chunks r) maxSize [];
    let bytesRead := Z.of_nat (length buffer) in
    mret ((0 <? bytesRead) && ((contentLength <=? 0) || (to_int bytesRead =? contentLength)),
          Some buffer)
  else mret (false, None).

Section WithFloat.
Context (fl : FloatOps).

Definition displayCachedContent : M bool :=
  avail ← Hw.isSDCardAvailable;
  last ← getC lastImageFilename;
  if negb avail || (String.length last =? 0)%nat then mret false else
  ok ← Client.malloc MAX_IMAGE_SIZE;
  if ok : bool then
    res ← loadCachedImage last MAX_IMAGE_SIZE;
    let '(loaded, imageBuffer) := res in
    if loaded : bool then
      Hw.displayImage fl imageBuffer ;;
      Client.free ;;
      mret true
    else
      Client.free ;;
      mret false
  else mret false.

Definition enterOfflineMode : M bool :=
  Client.setState STATE_OFFLINE ;;
  displayCachedContent.

End WithFloat.

End Cache.

(** ** main.cpp: the startup sequence *)

Module Boot.
Import CInt Config Sys.

Definition performStartupSequence : M unit :=
  creds ← Cache.hasWiFiCredentials;
  if negb creds then
    Client.setState STATE_WIFI_SETUP ;;
    Hw.displayText "WiFi Setup Required" 10 100 2 ;;
    Hw.displayText "Connect to paperdink-setup" 10 130 1 ;;
    Hw.displayText "to configure WiFi" 10 150 1 ;;
    Hw.updateDisplay
  else
    reg ← Client.isDeviceRegistered;
    if negb reg then
      Client.setState STATE_DEVICE_SETUP ;;
      Hw.displayText "Device Setup" 10 100 2 ;;
      Hw.displayText "Registering with TRMNL..." 10 130 1 ;;
      Hw.updateDisplay
    else
      Client.setState STATE_OPERATIONAL ;;
      Hw.displayText "Ready" 10 100 3 ;;
      Hw.displayText "paperd.ink TRMNL" 10 140 2 ;;
      Hw.updateDisplay ;;
      delay 2000.

Section WithFloat.
Context (fl : FloatOps).

(** the content-update block of [loop()] - what stands between
    [handleSystemStates] and the battery check - entered when a refresh
    is due: a successful update is followed by deep sleep, a failed one
    by the cached image when there is one; the result tells whether the
    device went to sleep.  The rest of [loop()] is not in it. *)
Definition loop_refresh : M bool :=
  ok ← Client.updateContent fl;
  if ok : bool then
    Main.enterSleepMode ;;
    mret true
  else
    cached ← Cache.hasCachedContent;
    (if cached : bool then Cache.displayCachedContent fl ;; mret tt else mret tt) ;;
    mret false.

End WithFloat.

End Boot.

(** ** Further observations *)

Module View.
Import CInt Config Sys Obs.

(** everything but the panel, the text queued for it and the clock *)
Definition panelFrame (s : Sys.t) :=
  (client s, env (hw s), preferences (hw s), sdCardAvailable (hw s), sdFiles (hw s),
   invertDisplayFlag (hw s), wifiConnected (hw s), net (hw s),
   liveBuffers (hw s), httpGets (trace (hw s)), fileWrites (trace (hw s)),
   mallocs (trace (hw s)), Main.sleeps (trace (hw s))).

(** what is settled once the display call has returned: the refresh
    rate, the stored settings and the sleeps entered *)
Definition settled (s : Sys.t) : Z * gmap string PrefVal * list Z :=
  (refreshRate (client s), preferences (hw s), Main.sleeps (trace (hw s))).

(** the device state is as it was, or one of those the firmware
    assigns *)
Definition stateStep (s s' : Sys.t) : Prop :=
  currentState (client s') = currentState (client s)
  \/ In (currentState (client s'))
        [STATE_UNINITIALIZED; STATE_WIFI_SETUP; STATE_DEVICE_SETUP;
         STATE_OPERATIONAL; STATE_OFFLINE].

(** the cache entry of an image *)
Definition cached (filename : string) (s : Sys.t) : option (list Z) :=
  sdFiles (hw s) !! ("/cache/" +:+ filename).

(** the bitmaps sent to the panel: position, data, width, height *)
Definition bitmaps (tr : list Event) : list (Z * Z * list Z * Z * Z) :=
  omap (fun e => match e with
                 | EvEpd (DrawBitmap x y bits w h) => Some (x, y, bits, w, h)
                 | _ => None
                 end) tr.

(** a bitmap that is one full line of the panel, inside the frame *)
Definition panelLine (b : Z * Z * list Z * Z * Z) : bool :=
  let '(x, y, bits, w, h) := b in
  (x =? 0) && (0 <=? y) && (y <? DISPLAY_HEIGHT) && (w =? DISPLAY_WIDTH) && (h =? 1)
  && (Z.of_nat (length bits) =? (DISPLAY_WIDTH + 7) / 8).

(** the panel commands of the queued texts *)
Definition textEvents (cs : list TextCmd) : list Event :=
  concat (map (fun c => [EvEpd (SetCursor (tc_x c) (tc_y c));
                         EvEpd (SetTextSize (tc_size c));
                         EvEpd (PrintText (tc_text c))]) cs).

(** the frame of a text screen on a panel of [S extra] pages *)
Definition textFrame (cs : list TextCmd) (extra : nat) : list Event :=
  EvEpd FirstPage
  :: concat (replicate (S extra)
       (EvEpd FillScreenWhite :: textEvents cs ++ [EvEpd NextPage])).

(** the pixel of a 1-bit line at column [x]: true is white *)
Definition pixel (lineBits : list Z) (x : Z) : bool :=
  Z.testbit (nth (Z.to_nat (x / 8)) lineBits 0) (7 - x mod 8).

(** an event that sends the panel one full line inside the frame *)
Definition rowEvent (e : Event) : bool :=
  match e with
  | EvEpd (DrawBitmap x y bits w h) => panelLine (x, y, bits, w, h)
  | _ => false
  end.

(** the state with further events in its trace *)
Definition logged (evs : list Event) (s : Sys.t) : Sys.t :=
  {| client := client s; hw := set_trace (trace (hw s) ++ evs) (hw s) |}.

(** the panel got nothing but full lines inside the frame *)
Definition linesOnly (s s' : Sys.t) : Prop :=
  exists added,
    bitmaps (trace (hw s')) = bitmaps (trace (hw s)) ++ added
    /\ forallb panelLine added = true.

Section Sampling.
Context (fl : FloatOps).

(** whether destination column [dx] of the scaled line samples a
    source pixel that counts as black *)
Definition inked (ctx : Hw.PngDrawContext fl) (srcW : Z) (line565 : list Z) (dx : Z) : bool :=
  let sx := f_trunc fl (f_div fl (f_of_int fl dx) (Hw.sX fl ctx)) in
  let sx := if sx <? 0 then 0 else sx in
  let sx := if srcW <=? sx then srcW - 1 else sx in
  Hw.isBlack (Hw.invert fl ctx) (Hw.luma565 (nth (Z.to_nat sx) line565 0)).

End Sampling.

End View.

(** ** More devices, for running the model *)

Module Bench.
Import CInt Config Sys.

(** a client that holds no ids *)
Definition blank (st : DeviceState) (rate : Z) : Client :=
  {| currentState := st; macAddress := "";
     apiKey := ""; friendlyId := ""; refreshRate := rate;
     lastImageFilename := ""; lastUpdateTime := 0;
     consecutiveErrors := 0; lastError := "" |}.

(** hardware with the given preferences and SD card content *)
Definition board (e : Env) (prefs : gmap string PrefVal) (files : gmap string (list Z))
           (answers : list HttpResponse) : Hardware :=
  {| env := e; preferences := prefs;
     sdCardAvailable := true; sdFiles := files; invertDisplayFlag := false;
     text_cmds := []; wifiConnected := false; net := answers;
     millis := 0; liveBuffers := 0; trace := [] |}.

(** a device that knows its WiFi and has not been registered *)
Definition unregistered (answers : list HttpResponse) : Sys.t :=
  {| client := blank STATE_DEVICE_SETUP 1800;
     hw := board (Scenario.env_with Scenario.tinyPng (Some 0))
                 {[ "wifi_ssid" := PString "home"; "wifi_password" := PString "secret" ]}
                 ∅ answers |}.

(** a device out of the box: nothing stored *)
Definition factory : Sys.t :=
  {| client := blank STATE_UNINITIALIZED 0;
     hw := board (Scenario.env_with Scenario.tinyPng (Some 0)) ∅ ∅ [] |}.

(** a registered device off line that showed [name] last, with the
    given SD card content *)
Definition offline (name : string) (files : gmap string (list Z)) : Sys.t :=
  {| client := set_lastImageFilename name (Scenario.registered STATE_OPERATIONAL 1800);
     hw := board (Scenario.env_with Scenario.tinyPng None)
                 {[ "wifi_ssid" := PString "home"; "wifi_password" := PString "secret";
                    "api_key" := PString "key-1"; "friendly_id" := PString "desk" ]}
                 files [] |}.

End Bench.

(** * Verification *)

Import CInt Config Sys Obs.

(** ** Machine integers *)

Lemma to_size_t_id z : is_size_t z -> to_size_t z = z.
Proof. unfold is_size_t, to_size_t, UINT32_MOD. intros H. apply Z.mod_small. lia. Qed.

Lemma to_int_id z : is_int z -> to_int z = z.
Proof.
  unfold is_int, to_int, INT_MIN, INT_MAX, UINT32_MOD. intros H.
  destruct (Z_lt_le_dec z 0) as [Hn | Hp].
  - replace (z mod 4294967296) with (z + 4294967296).
    + destruct (Z.leb_spec (z + 4294967296) 2147483647); lia.
    + apply Z.mod_unique with (q := -1); lia.
  - rewrite Z.mod_small by lia.
    destruct (Z.leb_spec z 2147483647); lia.
Qed.

(** ** Buffer sizing *)

Lemma initialAllocSize_eq contentLength :
  Alloc.initialAllocSize contentLength = candidateSize contentLength.
Proof.
  unfold Alloc.initialAllocSize, candidateSize.
  rewrite (to_int_id MAX_IMAGE_SIZE) by (unfold is_int, MAX_IMAGE_SIZE, INT_MIN, INT_MAX; lia).
  destruct (0 <? contentLength) eqn:H0; simpl; [| reflexivity].
  destruct (contentLength <? MAX_IMAGE_SIZE) eqn:H1; [| reflexivity].
  apply to_size_t_id. unfold is_size_t, UINT32_MOD.
  apply Z.ltb_lt in H0, H1. unfold MAX_IMAGE_SIZE in H1. lia.
Qed.

Lemma candidateSize_range contentLength :
  0 < candidateSize contentLength <= Alloc.FALLBACK.
Proof.
  unfold candidateSize, Alloc.FALLBACK, MAX_IMAGE_SIZE.
  destruct (0 <? contentLength) eqn:H0; simpl; [| lia].
  destruct (contentLength <? 50000) eqn:H1; [| lia].
  apply Z.ltb_lt in H0, H1. lia.
Qed.

Lemma allocSize_fits contentLength freeHeap :
  candidateSize contentLength + Alloc.MARGIN <= freeHeap ->
  Alloc.allocSize contentLength freeHeap = candidateSize contentLength.
Proof.
  intros Hfit. unfold Alloc.allocSize. rewrite initialAllocSize_eq.
  pose proof (candidateSize_range contentLength) as Hc.
  unfold Alloc.FALLBACK, Alloc.MARGIN in *.
  rewrite to_size_t_id by (unfold is_size_t, UINT32_MOD; lia).
  destruct (Z.ltb_spec freeHeap (candidateSize contentLength + 32768)); [lia | reflexivity].
Qed.

Lemma allocSize_pressure contentLength freeHeap :
  is_size_t freeHeap ->
  freeHeap < candidateSize contentLength + Alloc.MARGIN ->
  Alloc.allocSize contentLength freeHeap =
  if 65536 <? freeHeap then freeHeap - Alloc.MARGIN else freeHeap / 2.
Proof.
  intros Hheap Hp. unfold Alloc.allocSize. rewrite initialAllocSize_eq.
  pose proof (candidateSize_range contentLength) as Hc.
  unfold Alloc.FALLBACK, Alloc.MARGIN in *.
  unfold is_size_t, UINT32_MOD in Hheap.
  rewrite to_size_t_id by (unfold is_size_t, UINT32_MOD; lia).
  destruct (Z.ltb_spec freeHeap (candidateSize contentLength + 32768)); [| lia].
  unfold Alloc.shrunkCandidate, Alloc.MARGIN.
  destruct (Z.ltb_spec 65536 freeHeap) as [Hbig | Hsmall].
  - rewrite to_size_t_id by (unfold is_size_t, UINT32_MOD; lia).
    destruct (Z.ltb_spec 65536 (freeHeap - 32768)); [lia |].
    rewrite andb_false_r. reflexivity.
  - assert (0 <= freeHeap / 2 <= 32768).
    { split; [apply Z.div_pos; lia |].
      apply Z.div_le_upper_bound; lia. }
    rewrite to_size_t_id by (unfold is_size_t, UINT32_MOD; lia).
    destruct (Z.ltb_spec 65536 (freeHeap / 2)); [lia |].
    rewrite andb_false_r. reflexivity.
Qed.

(** C1, as stated: under memory pressure the specification has the
    size shrunk to free memory minus 32 KiB and, the length unknown,
    floored at 64 KiB.  With 70000 bytes free and no content length
    the code allocates 37232 bytes, below the 64 KiB the specification
    names; with 50000 bytes free and 40000 declared it allocates half
    of the free memory, not free memory minus the margin. *)
Lemma C1_counterexample :
  Alloc.allocSize (-1) 70000 = 37232
  /\ Alloc.spec_allocSize (-1) 70000 = 65536
  /\ Alloc.allocSize 40000 50000 = 25000
  /\ Alloc.spec_allocSize 40000 50000 = 17232
  /\ Alloc.allocSize (-1) 70000 <> Alloc.spec_allocSize (-1) 70000.
Proof.
  split; [vm_compute; reflexivity |].
  split; [vm_compute; reflexivity |].
  split; [vm_compute; reflexivity |].
  split; [vm_compute; reflexivity |].
  vm_compute. discriminate.
Qed.

(** The sizing rule of the code, case by case. *)
Lemma allocSize_cases (contentLength freeHeap : Z) :
  is_int contentLength ->
  is_size_t freeHeap ->
  let candidate :=
    if (0 <? contentLength) && (contentLength <? MAX_IMAGE_SIZE)
    then contentLength else Alloc.FALLBACK in
  (candidate + Alloc.MARGIN <= freeHeap ->
     Alloc.allocSize contentLength freeHeap = candidate)
  /\ (freeHeap < candidate + Alloc.MARGIN -> 65536 < freeHeap ->
     Alloc.allocSize contentLength freeHeap = freeHeap - Alloc.MARGIN)
  /\ (freeHeap < candidate + Alloc.MARGIN -> freeHeap <= 65536 ->
     Alloc.allocSize contentLength freeHeap = freeHeap / 2)
  /\ 0 <= Alloc.allocSize contentLength freeHeap <= freeHeap
  /\ Alloc.allocSize contentLength freeHeap <= Alloc.FALLBACK.
Proof.
  intros Hcl Hheap candidate.
  pose proof (candidateSize_range contentLength) as Hc.
  pose proof (allocSize_fits contentLength freeHeap) as Hfit.
  pose proof (allocSize_pressure contentLength freeHeap Hheap) as Hpr.
  change (candidateSize contentLength) with candidate in Hc, Hfit, Hpr.
  unfold is_size_t, UINT32_MOD in Hheap. unfold Alloc.FALLBACK, Alloc.MARGIN in *.
  assert (Hhalf : 0 <= freeHeap / 2 <= freeHeap).
  { split; [apply Z.div_pos; lia | apply Z.div_le_upper_bound; lia]. }
  assert (Hhalf' : freeHeap <= 65536 -> freeHeap / 2 <= 65536).
  { intros. lia. }
  split; [exact Hfit |].
  split.
  { intros Hp Hbig. rewrite Hpr by exact Hp.
    destruct (Z.ltb_spec 65536 freeHeap); [reflexivity | lia]. }
  split.
  { intros Hp Hsmall. rewrite Hpr by exact Hp.
    destruct (Z.ltb_spec 65536 freeHeap); [lia | reflexivity]. }
  destruct (Z_lt_le_dec freeHeap (candidate + 32768)) as [Hp | Hf].
  - rewrite Hpr by exact Hp.
    destruct (Z.ltb_spec 65536 freeHeap); lia.
  - rewrite Hfit by exact Hf. lia.
Qed.


(** ** Running the state monad *)

Lemma bind_run {A B} (m : M A) (f : A -> M B) (s : Sys.t) :
  (m ≫= f) s = f (fst (m s)) (snd (m s)).
Proof. unfold mbind, M_bind. destruct (m s); reflexivity. Qed.

Lemma ret_run {A} (a : A) (s : Sys.t) : (mret a : M A) s = (a, s).
Proof. reflexivity. Qed.

(** ** Frame rules: what a computation leaves alone *)

Section Keeps.
Context {X : Type} (obs : Sys.t -> X).

Lemma keeps_ret {A} (a : A) : keeps obs (mret a : M A).
Proof. intros s. reflexivity. Qed.

Lemma keeps_bind {A B} (m : M A) (f : A -> M B) :
  keeps obs m -> (forall a, keeps obs (f a)) -> keeps obs (m ≫= f).
Proof.
  intros Hm Hf s. rewrite bind_run. rewrite Hf. apply Hm.
Qed.

Lemma keeps_getH {A} (f : Hardware -> A) : keeps obs (getH f).
Proof. intros s. reflexivity. Qed.

Lemma keeps_getC {A} (f : Client -> A) : keeps obs (getC f).
Proof. intros s. reflexivity. Qed.

Lemma keeps_getE {A} (f : Env -> A) : keeps obs (getE f).
Proof. intros s. reflexivity. Qed.

Lemma keeps_while fuel (cond : M bool) (body : M unit) :
  keeps obs cond -> keeps obs body -> keeps obs (while fuel cond body).
Proof.
  intros Hc Hb. induction fuel as [| k IH]; simpl.
  - apply keeps_ret.
  - apply keeps_bind; [exact Hc |]. intros [|].
    + apply keeps_bind; [exact Hb | intros _; exact IH].
    + apply keeps_ret.
Qed.

Lemma keeps_pagedLoop extra (body : M bool) :
  keeps obs (epd NextPage) -> keeps obs body -> keeps obs (pagedLoop extra body).
Proof.
  intros Hn Hb. induction extra as [| k IH]; simpl.
  - apply keeps_bind; [exact Hb |]. intros [|]; [| apply keeps_ret].
    apply keeps_bind; [exact Hn | intros _; apply keeps_ret].
  - apply keeps_bind; [exact Hb |]. intros [|]; [| apply keeps_ret].
    apply keeps_bind; [exact Hn | intros _; exact IH].
Qed.

End Keeps.

(** Decompose a computation along its binds and branches; what is left
    are the primitive state changes, settled by [prim]. *)
Ltac frame_step prim :=
  lazymatch goal with
  | |- keeps _ (mret _) => apply keeps_ret
  | |- keeps _ (getH _) => apply keeps_getH
  | |- keeps _ (getC _) => apply keeps_getC
  | |- keeps _ (getE _) => apply keeps_getE
  | |- keeps _ (_ ≫= _) => apply keeps_bind; [| intros ?]
  | |- keeps _ (while _ _ _) => apply keeps_while
  | |- keeps _ (pagedLoop _ _) => apply keeps_pagedLoop
  | |- keeps _ (if ?b then _ else _) => destruct b
  | |- keeps _ (match ?x with _ => _ end) => destruct x
  | |- keeps _ _ => prim
  end.

Ltac frame prim := repeat (frame_step prim).

(** unfold the monad and the record plumbing, nothing else *)
Ltac msimpl :=
  cbv beta iota zeta delta
    [mbind M_bind mret M_ret getH getC getE modH modC emit epd delay];
  cbn beta iota zeta delta
    [fst snd
     client hw env preferences sdCardAvailable sdFiles invertDisplayFlag text_cmds
     wifiConnected net millis liveBuffers trace
     currentState macAddress apiKey friendlyId refreshRate lastImageFilename
     lastUpdateTime consecutiveErrors lastError
     set_preferences set_sdFiles set_text_cmds set_wifiConnected set_net set_millis
     set_liveBuffers set_trace set_currentState set_macAddress set_apiKey
     set_friendlyId set_refreshRate set_lastImageFilename set_lastUpdateTime
     set_consecutiveErrors set_lastError].

(** selecting from a trace that grew by one event *)
Lemma omap_snoc_none {A B} (f : A -> option B) (l : list A) (e : A) :
  f e = None -> omap f (l ++ [e]) = omap f l.
Proof. intros H. rewrite omap_app. simpl. rewrite H. apply app_nil_r. Qed.

Lemma omap_snoc_some {A B} (f : A -> option B) (l : list A) (e : A) (b : B) :
  f e = Some b -> omap f (l ++ [e]) = (omap f l ++ [b])%list.
Proof. intros H. rewrite omap_app. simpl. rewrite H. reflexivity. Qed.

Ltac trace_simpl :=
  repeat first [ rewrite omap_snoc_none by reflexivity
               | erewrite omap_snoc_some by reflexivity ].

(** a primitive leaves an observation alone by computation; events
    that the observation does not select drop out of the trace *)
Ltac untouched :=
  let s := fresh "s" in
  intros s; msimpl; trace_simpl; reflexivity.

(** ** Going to sleep *)

Lemma printCmds_quiet cs : keeps sleepObs (Hw.printCmds cs).
Proof.
  unfold sleepObs, Main.sleeps.
  induction cs as [| c cs IH]; simpl.
  - apply keeps_ret.
  - apply keeps_bind; [| intros _; exact IH].
    unfold Hw.printCmd. frame untouched.
Qed.

Lemma clearDisplay_quiet : keeps sleepObs Hw.clearDisplay.
Proof. unfold Hw.clearDisplay, sleepObs, Main.sleeps. frame untouched. Qed.

Lemma displayText_quiet text x y size : keeps sleepObs (Hw.displayText text x y size).
Proof. unfold Hw.displayText, sleepObs, Main.sleeps. frame untouched. Qed.

Lemma updateDisplay_quiet : keeps sleepObs Hw.updateDisplay.
Proof.
  unfold Hw.updateDisplay.
  frame ltac:(first [ apply printCmds_quiet | unfold sleepObs, Main.sleeps; untouched ]).
Qed.

(** C5, as stated: the sleep duration is never below a minimum.  A
    registered device whose refresh rate is 60 seconds is put to sleep
    by the current driver for 60 seconds, below the five minutes that
    the earlier driver enforces, and a rate of 0 gives a sleep of 0
    seconds: there is no floor. *)
Lemma C5_counterexample :
  let s := Scenario.device STATE_OPERATIONAL 60 (Some 0) Scenario.tinyPng [] in
  let s0 := Scenario.device STATE_OPERATIONAL 0 (Some 0) Scenario.tinyPng [] in
  Main.sleeps (trace (hw (run Main.enterSleepMode s))) = [60]
  /\ Main.sleeps (trace (hw (run Main.enterSleepMode_earlier s))) = [300]
  /\ Main.sleeps (trace (hw (run Main.enterSleepMode s0))) = [0]
  /\ ~ (forall s, exists d, Main.sleeps (trace (hw (run Main.enterSleepMode s))) = [d] /\ 300 <= d).
Proof.
  intros s s0.
  split; [vm_compute; reflexivity |].
  split; [vm_compute; reflexivity |].
  split; [vm_compute; reflexivity |].
  intros H.
  destruct (H (Scenario.device STATE_OPERATIONAL 60 (Some 0) Scenario.tinyPng [])) as (d & Hd & Hle).
  vm_compute in Hd. injection Hd as <-. lia.
Qed.

(** C5, amended: the current driver sleeps for exactly the refresh
    rate the client holds, converted to [uint32_t], with no minimum;
    only the earlier driver raises durations under 300 seconds to 300.
    A device with no persisted refresh rate loads the default,
    DEEP_SLEEP_DURATION_SECONDS. *)
Theorem C5_sleep_duration (s s0 : Sys.t) :
  preferences (hw s0) !! "refresh_rate" = None ->
  refreshRate (client (run Client.loadDeviceInfo s0)) = DEEP_SLEEP_DURATION_SECONDS
  /\ Main.sleeps (trace (hw (run Main.enterSleepMode s)))
     = (Main.sleeps (trace (hw s)) ++ [to_size_t (refreshRate (client s))])%list
  /\ Main.sleeps (trace (hw (run Main.enterSleepMode_earlier s)))
     = (Main.sleeps (trace (hw s)) ++ [Z.max 300 (to_size_t (refreshRate (client s)))])%list.
Proof.
  intros Habsent. split; [| split].
  - unfold run, Client.loadDeviceInfo, Hw.loadInt, Hw.loadString, Client.isDeviceRegistered.
    destruct (TRMNL_API_KEY (build (env (hw s0)))) eqn:Hk;
      destruct (CUSTOM_FRIENDLY_ID (build (env (hw s0)))) eqn:Hf;
      msimpl; rewrite ?Hk, ?Hf; msimpl; rewrite Habsent; reflexivity.
  - unfold run, Main.enterSleepMode.
    rewrite bind_run, bind_run.
    change (fst (getC refreshRate (snd (Hw.disablePeripherals s)))) with (refreshRate (client s)).
    change (snd (getC refreshRate (snd (Hw.disablePeripherals s)))) with (snd (Hw.disablePeripherals s)).
    unfold Hw.enterDeepSleep, Hw.disablePeripherals, Main.sleeps. msimpl.
    trace_simpl. reflexivity.
  - unfold run, Main.enterSleepMode_earlier.
    rewrite bind_run. rewrite bind_run. rewrite bind_run. rewrite bind_run. rewrite bind_run.
    remember (snd (Hw.updateDisplay _)) as s1 eqn:Es1.
    assert (Hs1 : sleepObs s1 = sleepObs s).
    { subst s1.
      etransitivity; [apply updateDisplay_quiet |].
      etransitivity; [apply displayText_quiet |].
      etransitivity; [apply displayText_quiet |].
      etransitivity; [apply displayText_quiet |].
      apply clearDisplay_quiet. }
    clear Es1. unfold sleepObs in Hs1. injection Hs1 as Hc Htr.
    rewrite bind_run. rewrite bind_run.
    change (fst (getC refreshRate (snd (Hw.disablePeripherals s1)))) with (refreshRate (client s1)).
    change (snd (getC refreshRate (snd (Hw.disablePeripherals s1)))) with (snd (Hw.disablePeripherals s1)).
    rewrite Hc.
    replace (if to_size_t (refreshRate (client s)) <? 300 then 300 else to_size_t (refreshRate (client s)))
      with (Z.max 300 (to_size_t (refreshRate (client s))))
      by (destruct (Z.ltb_spec (to_size_t (refreshRate (client s))) 300); lia).
    rewrite <- Htr.
    unfold Hw.enterDeepSleep, Hw.disablePeripherals, Main.sleeps. msimpl.
    trace_simpl. reflexivity.
Qed.

Lemma C5_sleep_duration_witness :
  let s := Scenario.device STATE_OPERATIONAL 60 (Some 0) Scenario.tinyPng [] in
  refreshRate (client (run Client.loadDeviceInfo s)) = 1800
  /\ Main.sleeps (trace (hw (run Main.enterSleepMode s))) = [60]
  /\ Main.sleeps (trace (hw (run Main.enterSleepMode_earlier s))) = [300].
Proof.
  intros s.
  assert (Habsent : preferences (hw s) !! "refresh_rate" = None) by (vm_compute; reflexivity).
  destruct (C5_sleep_duration s s Habsent) as (A & B & C).
  split; [exact A |]. split; [exact B | exact C].
Defined.

(** ** The HTTP transport and the retry loops *)

Lemma http_GET_answer url headers s :
  fst (Client.http_GET url headers s) = hd no_answer (net (hw s)).
Proof. unfold Client.http_GET. msimpl. destruct (net (hw s)); reflexivity. Qed.

Lemma http_GET_net url headers s :
  net (hw (snd (Client.http_GET url headers s))) = tl (net (hw s)).
Proof. unfold Client.http_GET. msimpl. destruct (net (hw s)) eqn:E; msimpl; [exact E | reflexivity]. Qed.

Lemma http_GET_trace url headers s :
  trace (hw (snd (Client.http_GET url headers s))) = trace (hw s) ++ [EvHttpGet url headers].
Proof. unfold Client.http_GET. msimpl. destruct (net (hw s)); reflexivity. Qed.

Lemma http_GET_around url headers : keeps aroundNet (Client.http_GET url headers).
Proof.
  intros s. unfold Client.http_GET, aroundNet, epdOps, fileWrites, pngOpens. msimpl.
  destruct (net (hw s)); msimpl; trace_simpl; reflexivity.
Qed.

Lemma delay_around ms : keeps aroundNet (delay ms).
Proof. unfold aroundNet, epdOps, fileWrites, pngOpens. untouched. Qed.

Lemma delay_trace ms s : trace (hw (snd (delay ms s))) = trace (hw s) ++ [EvDelay ms].
Proof. reflexivity. Qed.

Lemma delay_net ms s : net (hw (snd (delay ms s))) = net (hw s).
Proof. reflexivity. Qed.

(** the two loops are the same loop *)
Lemma setupAttempts_displayAttempts fuel attempt last url headers s :
  Client.setupAttempts fuel attempt last url headers s
  = Client.displayAttempts fuel attempt last url headers s.
Proof.
  revert attempt last s. induction fuel as [| k IH]; intros attempt last s; [reflexivity |].
  simpl. destruct (attempt <=? Client.maxRetries); [| reflexivity].
  rewrite !bind_run.
  destruct (code (fst (Client.http_GET url headers s)) =? 200); [reflexivity |].
  destruct (code (fst (Client.http_GET url headers s)) <? 0); simpl.
  - rewrite !bind_run. apply IH.
  - destruct (500 <=? code (fst (Client.http_GET url headers s))); [| reflexivity].
    rewrite !bind_run. apply IH.
Qed.

Lemma displayAttempts_around fuel attempt last url headers :
  keeps aroundNet (Client.displayAttempts fuel attempt last url headers).
Proof.
  revert attempt last. induction fuel as [| k IH]; intros attempt last; simpl.
  - apply keeps_ret.
  - frame ltac:(first [apply http_GET_around | apply delay_around | apply IH]).
Qed.

Lemma displayAttempts_spec fuel attempt last url headers s :
  1 <= attempt ->
  4 - attempt <= Z.of_nat fuel ->
  let codes := codesFrom (Z.to_nat (4 - attempt)) (net (hw s)) in
  trace (hw (snd (Client.displayAttempts fuel attempt last url headers s)))
    = trace (hw s) ++ schedule (EvHttpGet url headers) attempt codes
  /\ code (fst (Client.displayAttempts fuel attempt last url headers s))
    = finalCode (code last) codes.
Proof.
  revert attempt last s. induction fuel as [| k IH]; intros attempt last s Ha Hfuel codes.
  - assert (Z.to_nat (4 - attempt) = O) as E by lia.
    subst codes. rewrite E. simpl. rewrite app_nil_r. split; reflexivity.
  - simpl. unfold Client.maxRetries.
    destruct (Z.leb_spec attempt 3) as [Hle | Hgt].
    + assert (Z.to_nat (4 - attempt) = S (Z.to_nat (4 - (attempt + 1)))) as E by lia.
      subst codes. rewrite E. simpl codesFrom.
      rewrite bind_run.
      pose proof (http_GET_answer url headers s) as Hr.
      pose proof (http_GET_net url headers s) as Hn.
      pose proof (http_GET_trace url headers s) as Ht.
      destruct (Client.http_GET url headers s) as [r s1]. simpl fst in *. simpl snd in *.
      rewrite <- Hr, <- Hn. clear Hr Hn.
      simpl schedule. simpl finalCode. unfold retryable.
      destruct (Z.eqb_spec (code r) 200) as [H200 | Hn200].
      * rewrite H200. simpl. try rewrite ret_run. simpl. rewrite Ht. split; [reflexivity | exact H200].
      * destruct (orb (code r <? 0) (500 <=? code r)) eqn:Hretry.
        -- rewrite bind_run.
           destruct (IH (attempt + 1) r (snd (delay (1000 * attempt) s1))) as [IHt IHc];
             [lia | lia |].
           rewrite delay_net in IHt, IHc. rewrite delay_trace in IHt.
           rewrite IHt, IHc, Ht. rewrite <- !app_assoc. split; reflexivity.
        -- try rewrite ret_run. simpl. rewrite Ht. split; reflexivity.
    + assert (Z.to_nat (4 - attempt) = O) as E by lia.
      subst codes. rewrite E. simpl. rewrite app_nil_r. split; reflexivity.
Qed.

(** the schedule never holds more requests than codes *)
Lemma schedule_gets get attempt codes :
  (length (httpGets (schedule get attempt codes)) <= length codes)%nat.
Proof.
  revert attempt. induction codes as [| c rest IH]; intros attempt; simpl; [lia |].
  destruct get; simpl; try (destruct (retryable c); simpl; [specialize (IH (attempt + 1)) |]; lia).
Qed.

(** ** The two remote calls *)

Lemma nonempty_length k : nonempty k = true -> (String.length k =? 0)%nat = false.
Proof.
  unfold nonempty. intros H. apply Nat.ltb_lt in H. apply Nat.eqb_neq. lia.
Qed.

(** [callDisplayAPI] past its guard, in terms of the answer that ends
    the retry loop *)
Lemma callDisplayAPI_run dr s :
  wifiConnected (hw s) = true ->
  nonempty (apiKey (client s)) = true ->
  Client.callDisplayAPI dr s =
    let r := fst (displayAnswer s) in
    let s1 := snd (displayAnswer s) in
    if code r =? 200 then
      match json r with
      | Some doc =>
          let rate := refreshRate (client s1) in
          let response := Client.parseDisplay doc rate in
          let s2 := if negb (Client.dr_refreshRate response =? rate)
                    then snd (Client.setRefreshRate (Client.dr_refreshRate response) s1)
                    else s1 in
          let s3 := if Client.resetFirmware response
                    then snd ((Client.clearDeviceRegistration ;; delay 100) s2)
                    else s2 in
          ((Client.status response =? 200)
           || (nonempty (Client.imageUrl response)
               && (String.length (Client.error response) =? 0)%nat),
           response, s3)
      | None =>
          (true,
           {| Client.status := 200;
              Client.imageUrl := Client.displayUrl (build (env (hw s)));
              Client.filename := ""; Client.updateFirmware := false;
              Client.firmwareUrl := ""; Client.dr_refreshRate := refreshRate (client s1);
              Client.resetFirmware := false; Client.error := "" |},
           s1)
      end
    else (false, dr, s1).
Proof.
  intros Hwifi Hkey. apply nonempty_length in Hkey.
  unfold Client.callDisplayAPI, Client.isWiFiConnected.
  rewrite bind_run. change (fst (getH wifiConnected s)) with (wifiConnected (hw s)).
  change (snd (getH wifiConnected s)) with s.
  rewrite bind_run. change (fst (getC apiKey s)) with (apiKey (client s)).
  change (snd (getC apiKey s)) with s.
  rewrite Hwifi, Hkey. cbn [negb orb].
  rewrite bind_run. change (fst (getE build s)) with (build (env (hw s))).
  change (snd (getE build s)) with s.
  rewrite bind_run. change (fst (getC friendlyId s)) with (friendlyId (client s)).
  change (snd (getC friendlyId s)) with s.
  rewrite bind_run.
  change (Client.displayAttempts _ _ _ _ _ s) with (displayAnswer s).
  destruct (displayAnswer s) as [r s1]. cbn [fst snd].
  destruct (code r =? 200); [| reflexivity].
  destruct (json r) as [doc |]; [| reflexivity].
  rewrite bind_run. change (fst (getC refreshRate s1)) with (refreshRate (client s1)).
  change (snd (getC refreshRate s1)) with s1.
  cbv zeta.
  rewrite bind_run.
  destruct (negb (Client.dr_refreshRate (Client.parseDisplay doc (refreshRate (client s1)))
                  =? refreshRate (client s1))).
  - rewrite bind_run.
    destruct (Client.resetFirmware (Client.parseDisplay doc (refreshRate (client s1)))); reflexivity.
  - rewrite bind_run.
    destruct (Client.resetFirmware (Client.parseDisplay doc (refreshRate (client s1)))); reflexivity.
Qed.

Lemma displayAnswer_around s : aroundNet (snd (displayAnswer s)) = aroundNet s.
Proof. unfold displayAnswer. apply displayAttempts_around. Qed.

Lemma displayAnswer_client s : client (snd (displayAnswer s)) = client s.
Proof.
  pose proof (displayAnswer_around s) as H. unfold aroundNet in H.
  remember (snd (displayAnswer s)) as s1. clear Heqs1. congruence.
Qed.

Lemma displayAnswer_spec s :
  trace (hw (snd (displayAnswer s))) = trace (hw s) ++ schedule (displayGet s) 1 (nextCodes s)
  /\ code (fst (displayAnswer s)) = finalCode (-1) (nextCodes s).
Proof.
  unfold displayAnswer, displayGet, nextCodes.
  apply (displayAttempts_spec _ 1 no_answer); [lia | vm_compute; discriminate].
Qed.

(** what [clearDeviceRegistration] leaves behind *)
Lemma clearDeviceRegistration_clears s :
  let s' := snd ((Client.clearDeviceRegistration ;; delay 100) s) in
  apiKey (client s') = ""
  /\ friendlyId (client s') = ""
  /\ stored s' "api_key" = Some (PString "")
  /\ stored s' "friendly_id" = Some (PString "")
  /\ trace (hw s') = trace (hw s) ++ [EvDelay 100].
Proof.
  unfold Client.clearDeviceRegistration, Hw.saveString, stored. msimpl.
  split; [reflexivity |]. split; [reflexivity |].
  split; [| split; [| reflexivity]].
  - rewrite lookup_insert_ne by discriminate. apply lookup_insert_eq.
  - apply lookup_insert_eq.
Qed.

(** C2: a display answer with HTTP 200 whose JSON carries
    [reset_firmware: true] makes [callDisplayAPI] clear the API key and
    the friendly id, in the client and in the preferences, before it
    returns, whatever the other members of the answer are. *)
Theorem C2_reset_clears_registration (s : Sys.t) (dr : Client.DisplayResponse) (doc : Json.t) :
  wifiConnected (hw s) = true ->
  nonempty (apiKey (client s)) = true ->
  code (fst (displayAnswer s)) = 200 ->
  json (fst (displayAnswer s)) = Some doc ->
  Json.get doc "reset_firmware" = Json.JBool true ->
  let s' := run (Client.callDisplayAPI dr) s in
  apiKey (client s') = ""
  /\ friendlyId (client s') = ""
  /\ stored s' "api_key" = Some (PString "")
  /\ stored s' "friendly_id" = Some (PString "")
  /\ Client.isDeviceRegistered s' = (false, s').
Proof.
  intros Hwifi Hkey H200 Hjson Hreset. unfold run.
  rewrite callDisplayAPI_run by assumption.
  cbv zeta. rewrite H200, Hjson. change (200 =? 200) with true. cbv iota.
  assert (Hflag : Client.resetFirmware
                    (Client.parseDisplay doc (refreshRate (client (snd (displayAnswer s))))) = true).
  { unfold Client.parseDisplay. cbn [Client.resetFirmware]. rewrite Hreset. reflexivity. }
  rewrite Hflag. cbn [snd].
  match goal with
  | |- context [snd ((Client.clearDeviceRegistration ;; delay 100) ?x)] =>
      destruct (clearDeviceRegistration_clears x) as (A & B & C & D & _);
      remember (snd ((Client.clearDeviceRegistration ;; delay 100) x)) as s3 eqn:E; clear E
  end.
  repeat (split; [assumption |]).
  unfold Client.isDeviceRegistered. msimpl. rewrite A, B. reflexivity.
Qed.

Lemma C2_reset_clears_registration_witness :
  let doc := Json.JObj [("status", Json.JInt 500); ("error", Json.JStr "gone");
                        ("reset_firmware", Json.JBool true)] in
  let s := Scenario.device STATE_OPERATIONAL 1800 (Some 0) Scenario.tinyPng
             [Scenario.answer 503; Scenario.jsonAnswer doc] in
  let s' := run (Client.callDisplayAPI Client.fresh_DisplayResponse) s in
  apiKey (client s') = ""
  /\ friendlyId (client s') = ""
  /\ stored s' "api_key" = Some (PString "")
  /\ stored s' "friendly_id" = Some (PString "")
  /\ Client.isDeviceRegistered s' = (false, s').
Proof.
  intros doc s.
  apply (C2_reset_clears_registration s Client.fresh_DisplayResponse doc);
    vm_compute; reflexivity.
Defined.

(** C8: an HTTP 200 answer whose body is not JSON does not fail the
    display call: the call returns true with a descriptor that names
    the display endpoint itself as the image, has status 200, empty
    filename and error, both firmware flags false and the refresh rate
    the client holds; the registration and refresh rate stay as they
    were. *)
Theorem C8_non_json_is_image (s : Sys.t) (dr : Client.DisplayResponse) :
  wifiConnected (hw s) = true ->
  nonempty (apiKey (client s)) = true ->
  code (fst (displayAnswer s)) = 200 ->
  json (fst (displayAnswer s)) = None ->
  result (Client.callDisplayAPI dr) s =
    (true,
     {| Client.status := 200;
        Client.imageUrl := TRMNL_API_BASE_URL (build (env (hw s))) +:+ TRMNL_API_DISPLAY_ENDPOINT;
        Client.filename := "";
        Client.updateFirmware := false;
        Client.firmwareUrl := "";
        Client.dr_refreshRate := refreshRate (client s);
        Client.resetFirmware := false;
        Client.error := "" |})
  /\ client (run (Client.callDisplayAPI dr) s) = client s.
Proof.
  intros Hwifi Hkey H200 Hjson. unfold result, run.
  rewrite callDisplayAPI_run by assumption.
  cbv zeta. rewrite H200, Hjson. change (200 =? 200) with true. cbv iota.
  cbn [fst snd]. rewrite displayAnswer_client. split; reflexivity.
Qed.

Lemma C8_non_json_is_image_witness :
  let s := Scenario.device STATE_OPERATIONAL 900 (Some 0) Scenario.tinyPng
             [Scenario.imageAnswer 3 [[137; 80; 78]]] in
  result (Client.callDisplayAPI Client.fresh_DisplayResponse) s =
    (true,
     {| Client.status := 200;
        Client.imageUrl := "https://usetrmnl.com/api/display";
        Client.filename := "";
        Client.updateFirmware := false;
        Client.firmwareUrl := "";
        Client.dr_refreshRate := 900;
        Client.resetFirmware := false;
        Client.error := "" |})
  /\ client (run (Client.callDisplayAPI Client.fresh_DisplayResponse) s) = client s.
Proof.
  intros s.
  apply (C8_non_json_is_image s Client.fresh_DisplayResponse); vm_compute; reflexivity.
Defined.

(** [callSetupAPI] past its guard: the state it leaves is the one its
    retry loop leaves, and it fails unless that loop ends on a 200 *)
Lemma callSetupAPI_run sr s :
  wifiConnected (hw s) = true ->
  snd (Client.callSetupAPI sr s) = snd (setupAnswer s)
  /\ (code (fst (setupAnswer s)) <> 200 -> fst (Client.callSetupAPI sr s) = (false, sr)).
Proof.
  intros Hwifi.
  unfold Client.callSetupAPI, Client.isWiFiConnected, Hw.getMacAddress.
  rewrite bind_run. change (fst (getH wifiConnected s)) with (wifiConnected (hw s)).
  change (snd (getH wifiConnected s)) with s.
  rewrite Hwifi. cbn [negb].
  rewrite bind_run. change (fst (getE mac s)) with (mac (env (hw s))).
  change (snd (getE mac s)) with s.
  rewrite bind_run.
  change (snd (modC (set_macAddress (mac (env (hw s)))) s)) with (withMac s).
  rewrite bind_run. change (fst (getE build (withMac s))) with (build (env (hw s))).
  change (snd (getE build (withMac s))) with (withMac s).
  cbv zeta. rewrite bind_run.
  change (Client.setupAttempts _ _ _ _ _ (withMac s)) with (setupAnswer s).
  destruct (setupAnswer s) as [r s1]. cbn [fst snd].
  destruct (Z.eqb_spec (code r) 200) as [E | E].
  - destruct (json r); split; try reflexivity; intros; contradiction.
  - split; [reflexivity | intros _; reflexivity].
Qed.

Lemma setupAnswer_spec s :
  trace (hw (snd (setupAnswer s))) = trace (hw s) ++ schedule (setupGet s) 1 (nextCodes s)
  /\ code (fst (setupAnswer s)) = finalCode (-1) (nextCodes s).
Proof.
  unfold setupAnswer. rewrite setupAttempts_displayAttempts.
  unfold setupGet, nextCodes.
  apply (displayAttempts_spec _ 1 no_answer _ _ (withMac s)); [lia | vm_compute; discriminate].
Qed.

Lemma setRefreshRate_trace v s : trace (hw (snd (Client.setRefreshRate v s))) = trace (hw s).
Proof. reflexivity. Qed.

(** the events [callDisplayAPI] adds are the loop's, followed by the
    100 ms pause when a reset was signalled *)
Lemma callDisplayAPI_trace dr s :
  wifiConnected (hw s) = true ->
  nonempty (apiKey (client s)) = true ->
  exists tail,
    trace (hw (snd (Client.callDisplayAPI dr s)))
      = trace (hw s) ++ schedule (displayGet s) 1 (nextCodes s) ++ tail
    /\ (tail = [] \/ tail = [EvDelay 100]).
Proof.
  intros Hwifi Hkey. rewrite callDisplayAPI_run by assumption. cbv zeta.
  destruct (displayAnswer_spec s) as [Htr _].
  destruct (code (fst (displayAnswer s)) =? 200);
    [| exists []; rewrite app_nil_r; split; [exact Htr | left; reflexivity]].
  destruct (json (fst (displayAnswer s))) as [doc |];
    [| exists []; rewrite app_nil_r; split; [exact Htr | left; reflexivity]].
  cbn [snd].
  set (rate := refreshRate (client (snd (displayAnswer s)))).
  set (resp := Client.parseDisplay doc rate).
  assert (Hs2 : trace (hw (if negb (Client.dr_refreshRate resp =? rate)
                           then snd (Client.setRefreshRate (Client.dr_refreshRate resp)
                                       (snd (displayAnswer s)))
                           else snd (displayAnswer s)))
                = trace (hw s) ++ schedule (displayGet s) 1 (nextCodes s)).
  { destruct (negb (Client.dr_refreshRate resp =? rate)); [rewrite setRefreshRate_trace |]; exact Htr. }
  destruct (Client.resetFirmware resp).
  - exists [EvDelay 100]. split; [| right; reflexivity].
    match goal with
    | |- context [snd ((Client.clearDeviceRegistration ;; delay 100) ?x)] =>
        destruct (clearDeviceRegistration_clears x) as (_ & _ & _ & _ & T)
    end.
    rewrite T, Hs2. rewrite <- app_assoc. reflexivity.
  - exists []. rewrite app_nil_r. split; [exact Hs2 | left; reflexivity].
Qed.

Lemma retryable_not_200 c : retryable c = true -> c <> 200.
Proof. unfold retryable. intros H ->. vm_compute in H. discriminate. Qed.

Lemma client_error_not_retryable c : 400 <= c < 500 -> retryable c = false /\ c <> 200.
Proof.
  intros H. unfold retryable. split; [| lia].
  destruct (Z.ltb_spec c 0); destruct (Z.leb_spec 500 c); try lia; reflexivity.
Qed.

Lemma httpGets_app a b : httpGets (a ++ b) = httpGets a ++ httpGets b.
Proof. apply omap_app. Qed.

(** C7: for the setup call and for the display call alike, the
    attempts follow the retry schedule: an attempt is repeated only
    after a negative result code or an HTTP status of 500 or more, the
    delay after attempt k is k seconds, and there are at most 3
    attempts.  A 4xx first answer gives exactly one attempt and a
    failed call; three retryable answers in a row (three 503s) give
    exactly three attempts, with delays of 1, 2 and 3 seconds after
    them, and a failed call.  The setup call needs WiFi only, so this
    holds for a device without ids as well; the display call makes its
    requests only when the client holds an API key and asks nothing
    otherwise. *)
Theorem C7_retry_policy (s : Sys.t) (sr : Client.SetupResponse) (dr : Client.DisplayResponse)
        (c1 c2 c3 : Z) :
  wifiConnected (hw s) = true ->
  nextCodes s = [c1; c2; c3] ->
  let sS := run (Client.callSetupAPI sr) s in
  let sD := run (Client.callDisplayAPI dr) s in
  let okS := fst (result (Client.callSetupAPI sr) s) in
  let okD := fst (result (Client.callDisplayAPI dr) s) in
  (trace (hw sS) = trace (hw s) ++ schedule (setupGet s) 1 [c1; c2; c3]
   /\ (length (httpGets (trace (hw sS))) <= length (httpGets (trace (hw s))) + 3)%nat
   /\ (400 <= c1 < 500 ->
         okS = false /\ trace (hw sS) = trace (hw s) ++ [setupGet s])
   /\ (retryable c1 = true -> retryable c2 = true -> retryable c3 = true ->
         okS = false
         /\ trace (hw sS) = trace (hw s) ++
              [setupGet s; EvDelay 1000; setupGet s; EvDelay 2000; setupGet s; EvDelay 3000]))
  /\ (nonempty (apiKey (client s)) = true ->
      (exists tail,
         trace (hw sD) = trace (hw s) ++ schedule (displayGet s) 1 [c1; c2; c3] ++ tail
         /\ (tail = [] \/ tail = [EvDelay 100]))
      /\ (length (httpGets (trace (hw sD))) <= length (httpGets (trace (hw s))) + 3)%nat
      /\ (400 <= c1 < 500 ->
            okD = false /\ trace (hw sD) = trace (hw s) ++ [displayGet s])
      /\ (retryable c1 = true -> retryable c2 = true -> retryable c3 = true ->
            okD = false
            /\ trace (hw sD) = trace (hw s) ++
                 [displayGet s; EvDelay 1000; displayGet s; EvDelay 2000; displayGet s;
                  EvDelay 3000]))
  /\ (nonempty (apiKey (client s)) = false -> okD = false /\ sD = s).
Proof.
  intros Hwifi Hcodes. cbv zeta. unfold run, result.
  set (sS := snd (Client.callSetupAPI sr s)).
  set (sD := snd (Client.callDisplayAPI dr s)).
  set (okS := fst (fst (Client.callSetupAPI sr s))).
  set (okD := fst (fst (Client.callDisplayAPI dr s))).
  destruct (callSetupAPI_run sr s Hwifi) as [HsS HfS].
  destruct (setupAnswer_spec s) as [HtS HcS].
  destruct (displayAnswer_spec s) as [HtD HcD].
  rewrite Hcodes in *.
  assert (TS : trace (hw sS) = trace (hw s) ++ schedule (setupGet s) 1 [c1; c2; c3]).
  { unfold sS. rewrite HsS. exact HtS. }
  split; [| split].
  - split; [exact TS |].
    split.
    { rewrite TS, httpGets_app, length_app.
      pose proof (schedule_gets (setupGet s) 1 [c1; c2; c3]) as B.
      change (length [c1; c2; c3]) with 3%nat in B. lia. }
    split.
    + intros H4xx. destruct (client_error_not_retryable c1 H4xx) as [Hnr Hne].
      assert (Efin : finalCode (-1) [c1; c2; c3] = c1) by (simpl; rewrite Hnr; reflexivity).
      assert (Esch : forall g, schedule g 1 [c1; c2; c3] = [g])
        by (intros g; simpl; rewrite Hnr; reflexivity).
      rewrite Efin in HcS.
      split; [unfold okS; rewrite HfS by (rewrite HcS; exact Hne); reflexivity |].
      rewrite TS, Esch. reflexivity.
    + intros R1 R2 R3.
      assert (Efin : finalCode (-1) [c1; c2; c3] = c3)
        by (simpl; rewrite R1, R2, R3; reflexivity).
      assert (Esch : forall g, schedule g 1 [c1; c2; c3]
                               = [g; EvDelay 1000; g; EvDelay 2000; g; EvDelay 3000])
        by (intros g; simpl; rewrite R1, R2, R3; reflexivity).
      rewrite Efin in HcS. pose proof (retryable_not_200 c3 R3) as Hne.
      split; [unfold okS; rewrite HfS by (rewrite HcS; exact Hne); reflexivity |].
      rewrite TS, Esch. reflexivity.
  - intros Hkey.
    destruct (callDisplayAPI_trace dr s Hwifi Hkey) as (tail & HtD' & Htail).
    rewrite Hcodes in HtD'.
    assert (FailD : code (fst (displayAnswer s)) <> 200 ->
                    okD = false
                    /\ trace (hw sD) = trace (hw s) ++ schedule (displayGet s) 1 [c1; c2; c3]).
    { intros Hne. unfold okD, sD. rewrite callDisplayAPI_run by assumption. cbv zeta.
      destruct (Z.eqb_spec (code (fst (displayAnswer s))) 200); [contradiction |].
      split; [reflexivity | exact HtD]. }
    split; [exists tail; split; [exact HtD' | exact Htail] |].
    split.
    { fold sD in HtD'. rewrite HtD', !httpGets_app, !length_app.
      pose proof (schedule_gets (displayGet s) 1 [c1; c2; c3]) as B.
      change (length [c1; c2; c3]) with 3%nat in B.
      destruct Htail as [-> | ->].
      - change (httpGets []) with (@nil string). cbn [length]. lia.
      - change (httpGets [EvDelay 100]) with (@nil string). cbn [length]. lia. }
    split.
    + intros H4xx. destruct (client_error_not_retryable c1 H4xx) as [Hnr Hne].
      assert (Efin : finalCode (-1) [c1; c2; c3] = c1) by (simpl; rewrite Hnr; reflexivity).
      assert (Esch : forall g, schedule g 1 [c1; c2; c3] = [g])
        by (intros g; simpl; rewrite Hnr; reflexivity).
      rewrite Efin in HcD.
      destruct FailD as [F1 F2]; [rewrite HcD; exact Hne |].
      split; [exact F1 | rewrite F2, Esch; reflexivity].
    + intros R1 R2 R3.
      assert (Efin : finalCode (-1) [c1; c2; c3] = c3)
        by (simpl; rewrite R1, R2, R3; reflexivity).
      assert (Esch : forall g, schedule g 1 [c1; c2; c3]
                               = [g; EvDelay 1000; g; EvDelay 2000; g; EvDelay 3000])
        by (intros g; simpl; rewrite R1, R2, R3; reflexivity).
      rewrite Efin in HcD. pose proof (retryable_not_200 c3 R3) as Hne.
      destruct FailD as [F1 F2]; [rewrite HcD; exact Hne |].
      split; [exact F1 | rewrite F2, Esch; reflexivity].
  - intros Hnokey. unfold okD, sD, Client.callDisplayAPI, Client.isWiFiConnected.
    rewrite !bind_run.
    change (fst (getH wifiConnected s)) with (wifiConnected (hw s)).
    change (snd (getH wifiConnected s)) with s.
    change (fst (getC apiKey s)) with (apiKey (client s)).
    change (snd (getC apiKey s)) with s.
    apply Nat.ltb_ge in Hnokey.
    replace (String.length (apiKey (client s)) =? 0)%nat with true
      by (symmetry; apply Nat.eqb_eq; lia).
    rewrite orb_true_r. split; reflexivity.
Qed.

Lemma C7_retry_policy_witness :
  let fresh answers :=
    {| client := Bench.blank STATE_DEVICE_SETUP 1800;
       hw := Scenario.hardware (Scenario.env_with Scenario.tinyPng (Some 0)) answers |} in
  let s503 := Scenario.device STATE_OPERATIONAL 1800 (Some 0) Scenario.tinyPng
                [Scenario.answer 503; Scenario.answer 503; Scenario.answer 503;
                 Scenario.answer 200] in
  let s404 := Scenario.device STATE_OPERATIONAL 1800 (Some 0) Scenario.tinyPng
                [Scenario.answer 404; Scenario.answer 200] in
  let f503 := fresh [Scenario.answer 503; Scenario.answer 503; Scenario.answer 503;
                     Scenario.answer 200] in
  let f404 := fresh [Scenario.answer 404; Scenario.answer 200] in
  (fst (result (Client.callDisplayAPI Client.fresh_DisplayResponse) s503) = false
   /\ httpGets (trace (hw (run (Client.callDisplayAPI Client.fresh_DisplayResponse) s503)))
      = ["https://usetrmnl.com/api/display"; "https://usetrmnl.com/api/display";
         "https://usetrmnl.com/api/display"])
  /\ (fst (result (Client.callDisplayAPI Client.fresh_DisplayResponse) s404) = false
      /\ httpGets (trace (hw (run (Client.callDisplayAPI Client.fresh_DisplayResponse) s404)))
         = ["https://usetrmnl.com/api/display"])
  /\ (apiKey (client f503) = ""
      /\ fst (result (Client.callSetupAPI Client.fresh_SetupResponse) f503) = false
      /\ length (httpGets (trace (hw (run (Client.callSetupAPI Client.fresh_SetupResponse)
                                          f503)))) = 3%nat)
  /\ (fst (result (Client.callSetupAPI Client.fresh_SetupResponse) f404) = false
      /\ length (httpGets (trace (hw (run (Client.callSetupAPI Client.fresh_SetupResponse)
                                          f404)))) = 1%nat)
  /\ run (Client.callDisplayAPI Client.fresh_DisplayResponse) f503 = f503.
Proof.
  intros fresh s503 s404 f503 f404.
  assert (W5 : wifiConnected (hw s503) = true) by reflexivity.
  assert (N5 : nextCodes s503 = [503; 503; 503]) by reflexivity.
  assert (W4 : wifiConnected (hw s404) = true) by reflexivity.
  assert (N4 : nextCodes s404 = [404; 200; -1]) by reflexivity.
  assert (V5 : wifiConnected (hw f503) = true) by reflexivity.
  assert (M5 : nextCodes f503 = [503; 503; 503]) by reflexivity.
  assert (V4 : wifiConnected (hw f404) = true) by reflexivity.
  assert (M4 : nextCodes f404 = [404; 200; -1]) by reflexivity.
  destruct (C7_retry_policy s503 Client.fresh_SetupResponse Client.fresh_DisplayResponse
              503 503 503 W5 N5) as (_ & A & _).
  destruct (C7_retry_policy s404 Client.fresh_SetupResponse Client.fresh_DisplayResponse
              404 200 (-1) W4 N4) as (_ & B & _).
  destruct (C7_retry_policy f503 Client.fresh_SetupResponse Client.fresh_DisplayResponse
              503 503 503 V5 M5) as ((_ & _ & _ & C) & _ & E).
  destruct (C7_retry_policy f404 Client.fresh_SetupResponse Client.fresh_DisplayResponse
              404 200 (-1) V4 M4) as ((_ & _ & D & _) & _).
  destruct A as (_ & _ & _ & A); [reflexivity |].
  destruct A as (A3 & A4); [reflexivity | reflexivity | reflexivity |].
  destruct B as (_ & _ & B & _); [reflexivity |].
  destruct B as (B3 & B4); [lia |].
  destruct C as (C1 & C2); [reflexivity | reflexivity | reflexivity |].
  destruct D as (D1 & D2); [lia |].
  destruct E as (_ & E); [reflexivity |].
  split; [split; [exact A3 | rewrite A4; reflexivity] |].
  split; [split; [exact B3 | rewrite B4; reflexivity] |].
  split; [split; [reflexivity | split; [exact C1 | rewrite C2; reflexivity]] |].
  split; [split; [exact D1 | rewrite D2; reflexivity] |].
  exact E.
Defined.

(** ** Content update *)

Lemma http_GET_apiObs url headers : keeps apiObs (Client.http_GET url headers).
Proof.
  intros s. unfold Client.http_GET, apiObs, epdOps, fileWrites. msimpl.
  destruct (net (hw s)); msimpl; trace_simpl; reflexivity.
Qed.

Lemma displayAttempts_apiObs fuel attempt last url headers :
  keeps apiObs (Client.displayAttempts fuel attempt last url headers).
Proof.
  revert attempt last. induction fuel as [| k IH]; intros attempt last; simpl.
  - apply keeps_ret.
  - frame ltac:(first [ apply http_GET_apiObs | apply IH
                      | unfold apiObs, epdOps, fileWrites; untouched ]).
Qed.

Lemma callDisplayAPI_apiObs dr : keeps apiObs (Client.callDisplayAPI dr).
Proof.
  unfold Client.callDisplayAPI, Client.isWiFiConnected, Client.setRefreshRate,
    Client.clearDeviceRegistration, Hw.saveInt, Hw.saveString.
  frame ltac:(first [ apply displayAttempts_apiObs
                    | unfold apiObs, epdOps, fileWrites; untouched ]).
Qed.

Lemma http_GET_dlObs url headers : keeps dlObs (Client.http_GET url headers).
Proof.
  intros s. unfold Client.http_GET, dlObs, epdOps, fileWrites. msimpl.
  destruct (net (hw s)); msimpl; trace_simpl; reflexivity.
Qed.

Lemma readStream_dlObs polls maxSize buf : keeps dlObs (Client.readStream polls maxSize buf).
Proof.
  revert buf. induction polls as [| c rest IH]; intros buf; simpl.
  - apply keeps_ret.
  - frame ltac:(first [ apply IH | unfold dlObs, epdOps, fileWrites; untouched ]).
Qed.

Lemma readStream_liveBuffers polls maxSize buf :
  keeps (fun s => liveBuffers (hw s)) (Client.readStream polls maxSize buf).
Proof.
  revert buf. induction polls as [| c rest IH]; intros buf; simpl.
  - apply keeps_ret.
  - frame ltac:(first [ apply IH | untouched ]).
Qed.

Lemma downloadImageAutoAlloc_dlObs url out :
  keeps dlObs (Client.downloadImageAutoAlloc url out).
Proof.
  unfold Client.downloadImageAutoAlloc, Client.isWiFiConnected, Hw.getFreeHeap,
    Client.malloc, Client.free.
  frame ltac:(first [ apply http_GET_dlObs | apply readStream_dlObs
                    | unfold dlObs, epdOps, fileWrites; untouched ]).
Qed.

(** the buffer never holds more than the stream delivered *)
Lemma readStream_length polls maxSize buf s :
  (length (fst (Client.readStream polls maxSize buf s))
   <= length buf + length (concat polls))%nat.
Proof.
  revert buf s. induction polls as [| c rest IH]; intros buf s; simpl.
  - rewrite Nat.add_0_r. reflexivity.
  - rewrite length_app.
    destruct (Z.of_nat (length c) =? 0).
    + rewrite bind_run. cbv beta. etransitivity; [apply IH | lia].
    + destruct ((if maxSize <? Z.of_nat (length buf) + Z.of_nat (length c)
                 then maxSize - Z.of_nat (length buf) else Z.of_nat (length c)) =? 0);
        [simpl; lia |].
      match goal with
      | |- context [take ?n c] =>
          set (buf' := buf ++ take n c) in *;
          assert (Hb : (length buf' <= length buf + length c)%nat)
            by (unfold buf'; rewrite length_app, length_take; lia)
      end.
      destruct (_ <? Z.of_nat (length c)); [simpl; lia |].
      etransitivity; [apply IH | lia].
Qed.

Lemma callDisplayAPI_keeps dr s :
  let s1 := snd (Client.callDisplayAPI dr s) in
  consecutiveErrors (client s1) = consecutiveErrors (client s)
  /\ currentState (client s1) = currentState (client s)
  /\ wifiConnected (hw s1) = wifiConnected (hw s)
  /\ liveBuffers (hw s1) = liveBuffers (hw s)
  /\ sdFiles (hw s1) = sdFiles (hw s)
  /\ epdOps (trace (hw s1)) = epdOps (trace (hw s))
  /\ fileWrites (trace (hw s1)) = fileWrites (trace (hw s)).
Proof.
  intros s1. pose proof (callDisplayAPI_apiObs dr s) as H. fold s1 in H.
  clearbody s1. unfold apiObs in H. injection H as -> -> _ _ -> -> -> -> ->.
  repeat split.
Qed.

(** C10: when the display call succeeds but carries no image URL,
    [updateContent] returns false, records "no imageUrl" as the last
    error and adds one to the consecutive-error counter. *)
Theorem C10_no_image_url_is_failure (fl : FloatOps) (s s1 : Sys.t)
        (response : Client.DisplayResponse) :
  wifiConnected (hw s) = true ->
  Client.callDisplayAPI Client.fresh_DisplayResponse s = (true, response, s1) ->
  Client.imageUrl response = "" ->
  INT_MIN <= consecutiveErrors (client s) < INT_MAX ->
  let s' := run (Client.updateContent fl) s in
  result (Client.updateContent fl) s = false
  /\ lastError (client s') = "no imageUrl"
  /\ consecutiveErrors (client s') = consecutiveErrors (client s) + 1
  /\ epdOps (trace (hw s')) = epdOps (trace (hw s)).
Proof.
  intros Hwifi Hcall Hurl Herr.
  destruct (callDisplayAPI_keeps Client.fresh_DisplayResponse s) as (Ke & _ & _ & _ & _ & Kd & _).
  rewrite Hcall in Ke, Kd. cbn [snd] in Ke, Kd.
  cbv zeta. unfold run, result, Client.updateContent, Client.isWiFiConnected.
  rewrite bind_run. change (fst (getH wifiConnected s)) with (wifiConnected (hw s)).
  change (snd (getH wifiConnected s)) with s.
  rewrite Hwifi. cbn [negb].
  rewrite bind_run, Hcall. cbn [fst snd]. rewrite Hurl.
  change (nonempty "") with false. msimpl.
  rewrite Ke, Kd. rewrite to_int_id by (unfold is_int; lia).
  repeat split.
Qed.

Lemma C10_no_image_url_is_failure_witness :
  let s := Scenario.device STATE_OPERATIONAL 1800 (Some 0) Scenario.tinyPng
             [Scenario.jsonAnswer (Json.JObj [("filename", Json.JStr "empty")])] in
  let s' := run (Client.updateContent Scenario.ExactQ) s in
  result (Client.updateContent Scenario.ExactQ) s = false
  /\ lastError (client s') = "no imageUrl"
  /\ consecutiveErrors (client s') = 1.
Proof.
  intros s.
  destruct (C10_no_image_url_is_failure Scenario.ExactQ s
              (snd (Client.callDisplayAPI Client.fresh_DisplayResponse s))
              (snd (fst (Client.callDisplayAPI Client.fresh_DisplayResponse s))))
    as (A & B & C & _).
  - reflexivity.
  - vm_compute. reflexivity.
  - vm_compute. reflexivity.
  - vm_compute. split; [discriminate | reflexivity].
  - split; [exact A |]. split; [exact B | exact C].
Defined.

Lemma http_GET_liveBuffers url headers :
  keeps (fun s => liveBuffers (hw s)) (Client.http_GET url headers).
Proof.
  intros s. unfold Client.http_GET. msimpl. destruct (net (hw s)); reflexivity.
Qed.

Lemma http_GET_env url headers : keeps (fun s => env (hw s)) (Client.http_GET url headers).
Proof.
  intros s. unfold Client.http_GET. msimpl. destruct (net (hw s)); reflexivity.
Qed.

Lemma malloc_run n s :
  fst (Client.malloc n s) = (n <=? maxAlloc (env (hw s)))
  /\ liveBuffers (hw (snd (Client.malloc n s)))
     = (if n <=? maxAlloc (env (hw s)) then S (liveBuffers (hw s)) else liveBuffers (hw s)).
Proof.
  unfold Client.malloc. msimpl. destruct (n <=? maxAlloc (env (hw s))); split; reflexivity.
Qed.

Lemma free_run s :
  liveBuffers (hw (snd (Client.free s))) = pred (liveBuffers (hw s))
  /\ trace (hw (snd (Client.free s))) = trace (hw s) ++ [EvFree].
Proof. split; reflexivity. Qed.

(** A transfer that ends short of its declared length fails, and
    leaves no buffer behind. *)
Lemma download_truncated url s r rest :
  wifiConnected (hw s) = true ->
  nonempty url = true ->
  net (hw s) = r :: rest ->
  0 < size r <= INT_MAX ->
  received r < size r ->
  let dl := Client.downloadImageAutoAlloc url None s in
  fst dl = (false, None)
  /\ liveBuffers (hw (snd dl)) = liveBuffers (hw s)
  /\ (code r = 200 ->
      Alloc.allocSize (size r) (freeHeap (env (hw s))) <= maxAlloc (env (hw s)) ->
      last (trace (hw (snd dl))) = Some EvFree).
Proof.
  intros Hwifi Hurl Hnet Hsize Hshort. cbv zeta.
  apply nonempty_length in Hurl.
  unfold Client.downloadImageAutoAlloc, Client.isWiFiConnected, Hw.getFreeHeap.
  rewrite bind_run. change (fst (getH wifiConnected s)) with (wifiConnected (hw s)).
  change (snd (getH wifiConnected s)) with s.
  rewrite Hwifi, Hurl. cbn [negb orb].
  rewrite bind_run. change (snd (getC apiKey s)) with s.
  change (fst (getC apiKey s)) with (apiKey (client s)).
  rewrite bind_run.
  match goal with
  | |- context [Client.http_GET url ?h s] =>
      pose proof (http_GET_answer url h s) as Hr;
      pose proof (http_GET_liveBuffers url h s) as Hl;
      pose proof (http_GET_env url h s) as He;
      destruct (Client.http_GET url h s) as [r' g]
  end.
  cbn [fst snd] in *. rewrite Hnet in Hr. cbn [hd] in Hr. subst r'.
  destruct (Z.eqb_spec (code r) 200) as [H200 | Hn200]; cbn [negb].
  2:{ rewrite ret_run. cbn [fst snd]. split; [reflexivity |]. split; [exact Hl | intros; contradiction]. }
  assert (Hcl : to_int (size r) = size r)
    by (apply to_int_id; unfold is_int, INT_MIN, INT_MAX in *; lia).
  rewrite Hcl.
  rewrite bind_run. change (fst (getE freeHeap g)) with (freeHeap (env (hw g))).
  change (snd (getE freeHeap g)) with g. rewrite He.
  set (n := Alloc.allocSize (size r) (freeHeap (env (hw s)))).
  rewrite bind_run.
  destruct (malloc_run n g) as [Hok Hm]. rewrite He in Hok, Hm.
  destruct (Client.malloc n g) as [ok m]. cbn [fst snd] in *. subst ok.
  revert Hm.
  destruct (Z.leb_spec n (maxAlloc (env (hw s)))) as [Hfit | Hbig]; cbn [negb]; intros Hm.
  2:{ rewrite ret_run. cbn [fst snd]. split; [reflexivity |]. split; [congruence | intros; lia]. }
  rewrite bind_run.
  pose proof (readStream_length (chunks r) n [] m) as Hlen.
  pose proof (readStream_liveBuffers (chunks r) n [] m) as Hlive.
  destruct (Client.readStream (chunks r) n [] m) as [buffer m2].
  cbn [fst snd] in *. cbn [length Nat.add] in Hlen.
  unfold received in Hshort.
  assert (Hb : 0 <= Z.of_nat (length buffer) < size r) by lia.
  rewrite to_int_id by (unfold is_int, INT_MIN, INT_MAX in *; lia).
  destruct (Z.ltb_spec 0 (size r)); [| lia].
  destruct (Z.eqb_spec (Z.of_nat (length buffer)) (size r)); [lia |].
  destruct (Z.ltb_spec (Z.of_nat (length buffer)) (size r)); [| lia].
  cbn [negb andb]. rewrite bind_run, ret_run. cbn [fst snd].
  destruct (free_run m2) as [Fl Ft].
  split; [reflexivity |].
  split; [rewrite Fl, Hlive, Hm, Hl; reflexivity |].
  intros _ _. rewrite Ft. apply last_snoc.
Qed.

Lemma readStream_mallocs polls maxSize buf :
  keeps (fun s => mallocs (trace (hw s))) (Client.readStream polls maxSize buf).
Proof.
  revert buf. induction polls as [| c rest IH]; intros buf; simpl.
  - apply keeps_ret.
  - frame ltac:(first [ apply IH | unfold mallocs; untouched ]).
Qed.

(** C1, amended: after a 200 answer to the image request the download
    asks malloc exactly once, for the size n computed from the
    content-length L and the free heap.  The candidate is L when
    0 < L < MAX_IMAGE_SIZE and 64 KiB otherwise.  When the candidate
    plus the 32 KiB margin fits the free heap, n is the candidate.
    Otherwise n is free heap minus 32 KiB if more than 64 KiB are free,
    and half of the free heap if not; 64 KiB is an upper bound of n,
    never a floor.  In every case n is at most the free heap. *)
Theorem C1_allocSize (s : Sys.t) (url : string) (r : HttpResponse) (rest : list HttpResponse) :
  wifiConnected (hw s) = true ->
  nonempty url = true ->
  net (hw s) = r :: rest ->
  code r = 200 ->
  is_int (size r) ->
  is_size_t (freeHeap (env (hw s))) ->
  let contentLength := size r in
  let free := freeHeap (env (hw s)) in
  let candidate :=
    if (0 <? contentLength) && (contentLength <? MAX_IMAGE_SIZE)
    then contentLength else Alloc.FALLBACK in
  let n := Alloc.allocSize contentLength free in
  mallocs (trace (hw (run (Client.downloadImageAutoAlloc url None) s)))
    = mallocs (trace (hw s)) ++ [n]
  /\ (candidate + Alloc.MARGIN <= free -> n = candidate)
  /\ (free < candidate + Alloc.MARGIN -> 65536 < free -> n = free - Alloc.MARGIN)
  /\ (free < candidate + Alloc.MARGIN -> free <= 65536 -> n = free / 2)
  /\ 0 <= n <= free
  /\ n <= Alloc.FALLBACK.
Proof.
  intros Hwifi Hurl Hnet H200 Hint Hheap. cbv zeta.
  split; [| exact (allocSize_cases (size r) (freeHeap (env (hw s))) Hint Hheap)].
  apply nonempty_length in Hurl.
  unfold run, Client.downloadImageAutoAlloc, Client.isWiFiConnected, Hw.getFreeHeap.
  rewrite bind_run. change (fst (getH wifiConnected s)) with (wifiConnected (hw s)).
  change (snd (getH wifiConnected s)) with s.
  rewrite Hwifi, Hurl. cbn [negb orb].
  rewrite bind_run. change (snd (getC apiKey s)) with s.
  change (fst (getC apiKey s)) with (apiKey (client s)).
  rewrite bind_run.
  match goal with
  | |- context [Client.http_GET url ?h s] =>
      pose proof (http_GET_answer url h s) as Hr;
      pose proof (http_GET_trace url h s) as Ht;
      pose proof (http_GET_env url h s) as He;
      destruct (Client.http_GET url h s) as [r' g]
  end.
  cbn [fst snd] in *. rewrite Hnet in Hr. cbn [hd] in Hr. subst r'.
  rewrite H200. change (negb (200 =? 200)) with false. cbv iota.
  rewrite (to_int_id (size r) Hint).
  rewrite bind_run. change (fst (getE freeHeap g)) with (freeHeap (env (hw g))).
  change (snd (getE freeHeap g)) with g. rewrite He.
  set (n := Alloc.allocSize (size r) (freeHeap (env (hw s)))).
  rewrite bind_run.
  assert (Hm : mallocs (trace (hw (snd (Client.malloc n g)))) = mallocs (trace (hw s)) ++ [n]).
  { unfold Client.malloc. msimpl.
    destruct (n <=? maxAlloc (env (hw g))); msimpl; rewrite Ht; unfold mallocs;
      trace_simpl; reflexivity. }
  match goal with
  | |- context [snd (?k (snd (Client.malloc n g)))] =>
      assert (K : keeps (fun x => mallocs (trace (hw x))) k);
      [ unfold Client.free;
        frame ltac:(first [ apply readStream_mallocs | unfold mallocs; untouched ])
      | rewrite (K (snd (Client.malloc n g))) ]
  end.
  exact Hm.
Qed.

Lemma C1_allocSize_witness :
  let ample := Scenario.device STATE_OPERATIONAL 1800 (Some 0) Scenario.tinyPng
                 [Scenario.imageAnswer 40000 [[1; 2; 3]]] in
  let tight := Scenario.pressed 70000
                 [Scenario.imageAnswer 40000 [[1; 2; 3]]] in
  let low := Scenario.pressed 50000
               [Scenario.imageAnswer 40000 [[1; 2; 3]]] in
  mallocs (trace (hw (run (Client.downloadImageAutoAlloc "https://cdn.example/p.png" None) ample)))
    = [40000]
  /\ mallocs (trace (hw (run (Client.downloadImageAutoAlloc "https://cdn.example/p.png" None) tight)))
    = [70000 - 32768]
  /\ mallocs (trace (hw (run (Client.downloadImageAutoAlloc "https://cdn.example/p.png" None) low)))
    = [50000 / 2].
Proof.
  intros ample tight low.
  assert (Hi : is_int 40000) by (unfold is_int, INT_MIN, INT_MAX; lia).
  destruct (C1_allocSize ample "https://cdn.example/p.png"
              (Scenario.imageAnswer 40000 [[1; 2; 3]]) []) as (A & A' & _);
    [reflexivity | reflexivity | reflexivity | reflexivity | exact Hi
    | unfold is_size_t, UINT32_MOD; vm_compute; split; [discriminate | reflexivity] |].
  destruct (C1_allocSize tight "https://cdn.example/p.png"
              (Scenario.imageAnswer 40000 [[1; 2; 3]]) []) as (B & _ & B' & _);
    [reflexivity | reflexivity | reflexivity | reflexivity | exact Hi
    | unfold is_size_t, UINT32_MOD; vm_compute; split; [discriminate | reflexivity] |].
  destruct (C1_allocSize low "https://cdn.example/p.png"
              (Scenario.imageAnswer 40000 [[1; 2; 3]]) []) as (C & _ & _ & C' & _);
    [reflexivity | reflexivity | reflexivity | reflexivity | exact Hi
    | unfold is_size_t, UINT32_MOD; vm_compute; split; [discriminate | reflexivity] |].
  split; [rewrite A, A'; [reflexivity | vm_compute; discriminate] |].
  split; [rewrite B, B'; [reflexivity | vm_compute; reflexivity | vm_compute; reflexivity] |].
  rewrite C, C'; [reflexivity | vm_compute; reflexivity | vm_compute; discriminate].
Defined.

Lemma downloadImageAutoAlloc_keeps url out s :
  let s2 := snd (Client.downloadImageAutoAlloc url out s) in
  client s2 = client s
  /\ sdFiles (hw s2) = sdFiles (hw s)
  /\ epdOps (trace (hw s2)) = epdOps (trace (hw s))
  /\ fileWrites (trace (hw s2)) = fileWrites (trace (hw s)).
Proof.
  intros s2. pose proof (downloadImageAutoAlloc_dlObs url out s) as H. fold s2 in H.
  clearbody s2. unfold dlObs in H. injection H as -> _ _ -> _ -> ->.
  repeat split.
Qed.

(** C6: when the image answer declares a content length and the
    connection closes before that many bytes have arrived (1000
    declared, 800 received), the download reports failure and hands no
    buffer back; the buffer it had allocated is freed; [updateContent]
    returns false having sent nothing to the panel and written nothing
    to the cache. *)
Theorem C6_truncated_fetch (fl : FloatOps) (s s1 : Sys.t) (response : Client.DisplayResponse)
        (r : HttpResponse) (rest : list HttpResponse) :
  wifiConnected (hw s) = true ->
  Client.callDisplayAPI Client.fresh_DisplayResponse s = (true, response, s1) ->
  nonempty (Client.imageUrl response) = true ->
  net (hw s1) = r :: rest ->
  0 < size r <= INT_MAX ->
  received r < size r ->
  let dl := Client.downloadImageAutoAlloc (Client.imageUrl response) None s1 in
  let s' := run (Client.updateContent fl) s in
  fst dl = (false, None)
  /\ liveBuffers (hw (snd dl)) = liveBuffers (hw s1)
  /\ (code r = 200 ->
      Alloc.allocSize (size r) (freeHeap (env (hw s1))) <= maxAlloc (env (hw s1)) ->
      last (trace (hw (snd dl))) = Some EvFree)
  /\ result (Client.updateContent fl) s = false
  /\ epdOps (trace (hw s')) = epdOps (trace (hw s))
  /\ fileWrites (trace (hw s')) = fileWrites (trace (hw s))
  /\ sdFiles (hw s') = sdFiles (hw s)
  /\ liveBuffers (hw s') = liveBuffers (hw s)
  /\ lastError (client s') = "image download failed".
Proof.
  intros Hwifi Hcall Hurl Hnet Hsize Hshort.
  destruct (callDisplayAPI_keeps Client.fresh_DisplayResponse s)
    as (_ & _ & Kw & Kl & Ks & Kd & Kf).
  rewrite Hcall in Kw, Kl, Ks, Kd, Kf. cbn [snd] in Kw, Kl, Ks, Kd, Kf.
  assert (Hwifi1 : wifiConnected (hw s1) = true) by congruence.
  destruct (download_truncated (Client.imageUrl response) s1 r rest
              Hwifi1 Hurl Hnet Hsize Hshort) as (Dres & Dlive & Dfree).
  destruct (downloadImageAutoAlloc_keeps (Client.imageUrl response) None s1)
    as (Dc & Ds & Dd & Df).
  cbv zeta.
  split; [exact Dres |]. split; [exact Dlive |]. split; [exact Dfree |].
  unfold run, result, Client.updateContent, Client.isWiFiConnected.
  rewrite bind_run. change (fst (getH wifiConnected s)) with (wifiConnected (hw s)).
  change (snd (getH wifiConnected s)) with s.
  rewrite Hwifi. cbn [negb].
  rewrite bind_run, Hcall. cbn [fst snd]. rewrite Hurl.
  rewrite bind_run. rewrite bind_run.
  destruct (Client.downloadImageAutoAlloc (Client.imageUrl response) None s1) as [[got buf] s2].
  cbn [fst snd] in *. injection Dres as -> ->.
  msimpl.
  rewrite Dd, Df, Ds, Dlive, Kd, Kf, Ks, Kl.
  repeat split.
Qed.

Lemma C6_truncated_fetch_witness :
  let doc := Json.JObj [("image_url", Json.JStr "https://cdn.example/p.png");
                        ("filename", Json.JStr "p.png")] in
  let s := Scenario.device STATE_OPERATIONAL 1800 (Some 0) Scenario.tinyPng
             [Scenario.jsonAnswer doc;
              Scenario.imageAnswer 1000 [replicate 500 7; []; replicate 300 9]] in
  let s' := run (Client.updateContent Scenario.ExactQ) s in
  result (Client.updateContent Scenario.ExactQ) s = false
  /\ epdOps (trace (hw s')) = []
  /\ fileWrites (trace (hw s')) = []
  /\ sdFiles (hw s') = sdFiles (hw s)
  /\ liveBuffers (hw s') = 0%nat
  /\ lastError (client s') = "image download failed".
Proof.
  intros doc s.
  destruct (C6_truncated_fetch Scenario.ExactQ s
              (snd (Client.callDisplayAPI Client.fresh_DisplayResponse s))
              (snd (fst (Client.callDisplayAPI Client.fresh_DisplayResponse s)))
              (Scenario.imageAnswer 1000 [replicate 500 7; []; replicate 300 9]) [])
    as (_ & _ & _ & A & B & C & D & E & F).
  - reflexivity.
  - vm_compute. reflexivity.
  - vm_compute. reflexivity.
  - vm_compute. reflexivity.
  - vm_compute. split; [reflexivity | discriminate].
  - vm_compute. reflexivity.
  - split; [exact A |]. split; [exact B |]. split; [exact C |].
    split; [exact D |]. split; [exact E | exact F].
Defined.

(** ** Registration *)

Lemma connectToWiFi_quiet : keeps wifiObs Client.connectToWiFi.
Proof.
  unfold Client.connectToWiFi, Client.loadCredentials, Client.pollWiFi, Hw.loadString.
  frame ltac:(unfold wifiObs, httpGets; untouched).
Qed.

(** C3, as stated: a registered device moves to Operational whenever
    the registration step runs.  A registered device in DeviceSetup
    whose access point does not answer stays in DeviceSetup: the step
    fails on the WiFi connection before it looks at the registration. *)
Lemma C3_counterexample :
  let s := Scenario.device STATE_DEVICE_SETUP 1800 None Scenario.tinyPng [] in
  result Client.isDeviceRegistered s = true
  /\ result Client.registerDevice s = false
  /\ currentState (client (run Client.registerDevice s)) = STATE_DEVICE_SETUP
  /\ currentState (client (run Client.registerDevice s)) <> STATE_OPERATIONAL.
Proof.
  intros s.
  split; [vm_compute; reflexivity |].
  split; [vm_compute; reflexivity |].
  split; [vm_compute; reflexivity |].
  vm_compute. discriminate.
Qed.

(** C3, amended: for a device that holds a non-empty API key and
    friendly id, the registration step makes no HTTP request, whatever
    happens; it succeeds exactly when the WiFi connection does.  If the
    connection succeeds the state becomes Operational and the error
    counter zero; if not, the step returns false with the state
    unchanged and "WiFi connection failed" as the last error. *)
Theorem C3_registered_skips_setup (s : Sys.t) :
  nonempty (apiKey (client s)) = true ->
  nonempty (friendlyId (client s)) = true ->
  let joined := result Client.connectToWiFi s in
  let s' := run Client.registerDevice s in
  result Client.registerDevice s = joined
  /\ httpGets (trace (hw s')) = httpGets (trace (hw s))
  /\ net (hw s') = net (hw s)
  /\ apiKey (client s') = apiKey (client s)
  /\ friendlyId (client s') = friendlyId (client s)
  /\ (joined = true ->
      currentState (client s') = STATE_OPERATIONAL /\ consecutiveErrors (client s') = 0)
  /\ (joined = false ->
      currentState (client s') = currentState (client s)
      /\ lastError (client s') = "WiFi connection failed").
Proof.
  intros Hkey Hfid. cbv zeta. unfold run, result, Client.registerDevice.
  rewrite bind_run.
  pose proof (connectToWiFi_quiet s) as Hq. unfold wifiObs in Hq.
  destruct (Client.connectToWiFi s) as [joined s1]. cbn [fst snd] in *.
  injection Hq as Hc Hn Hg.
  destruct joined; cbn [negb].
  - unfold Client.isDeviceRegistered, Client.setState. msimpl.
    rewrite Hc, Hkey, Hfid. cbn [andb]. msimpl.
    rewrite Hc, Hn, Hg.
    repeat split; intros; discriminate.
  - msimpl. rewrite Hc, Hn, Hg.
    repeat split; intros; discriminate.
Qed.

Lemma C3_registered_skips_setup_witness :
  let s := Scenario.device STATE_DEVICE_SETUP 1800 (Some 1200) Scenario.tinyPng [] in
  let s' := run Client.registerDevice s in
  result Client.registerDevice s = true
  /\ httpGets (trace (hw s')) = []
  /\ currentState (client s') = STATE_OPERATIONAL
  /\ consecutiveErrors (client s') = 0.
Proof.
  intros s.
  destruct (C3_registered_skips_setup s) as (A & B & _ & _ & _ & C & _).
  - reflexivity.
  - reflexivity.
  - assert (J : result Client.connectToWiFi s = true) by (vm_compute; reflexivity).
    destruct (C J) as [C1 C2].
    split; [rewrite A; exact J |]. split; [exact B |]. split; [exact C1 | exact C2].
Defined.

(** ** The render path *)

Section Follows.
Context (R : Sys.t -> Sys.t -> Prop).
Hypothesis R_refl : forall s, R s s.
Hypothesis R_trans : forall a b c, R a b -> R b c -> R a c.

Lemma follows_ret {A} (a : A) : follows R (mret a : M A).
Proof. intros s. apply R_refl. Qed.

Lemma follows_bind {A B} (m : M A) (f : A -> M B) :
  follows R m -> (forall a, follows R (f a)) -> follows R (m ≫= f).
Proof.
  intros Hm Hf s. rewrite bind_run. eapply R_trans; [apply Hm | apply Hf].
Qed.

Lemma follows_getH {A} (f : Hardware -> A) : follows R (getH f).
Proof. intros s. apply R_refl. Qed.

Lemma follows_getE {A} (f : Env -> A) : follows R (getE f).
Proof. intros s. apply R_refl. Qed.

Lemma follows_pagedLoop extra (body : M bool) :
  follows R (epd NextPage) -> follows R body -> follows R (pagedLoop extra body).
Proof.
  intros Hn Hb. induction extra as [| k IH]; simpl.
  - apply follows_bind; [exact Hb |]. intros [|]; [| apply follows_ret].
    apply follows_bind; [exact Hn | intros _; apply follows_ret].
  - apply follows_bind; [exact Hb |]. intros [|]; [| apply follows_ret].
    apply follows_bind; [exact Hn | intros _; exact IH].
Qed.

End Follows.

Lemma grows_refl s : grows s s.
Proof. exists []. symmetry. apply app_nil_r. Qed.

Lemma grows_trans a b c : grows a b -> grows b c -> grows a c.
Proof.
  intros [x Hx] [y Hy]. exists (x ++ y). rewrite Hy, Hx. symmetry. apply app_assoc.
Qed.

Ltac grow_step prim :=
  lazymatch goal with
  | |- follows grows (mret _) => apply (follows_ret grows grows_refl)
  | |- follows grows (getH _) => apply (follows_getH grows grows_refl)
  | |- follows grows (getE _) => apply (follows_getE grows grows_refl)
  | |- follows grows (_ ≫= _) => apply (follows_bind grows grows_trans); [| intros ?]
  | |- follows grows (pagedLoop _ _) => apply (follows_pagedLoop grows grows_refl grows_trans)
  | |- follows grows (if ?b then _ else _) => destruct b
  | |- follows grows (match ?x with _ => _ end) => destruct x
  | |- follows grows _ => prim
  end.

Ltac grow prim := repeat (grow_step prim).

(** a primitive that appends one event, or none *)
Ltac appends :=
  let s := fresh "s" in
  intros s; first [ exists []; msimpl; symmetry; apply app_nil_r
                  | eexists; msimpl; reflexivity ].

Lemma printCmds_grows cs : follows grows (Hw.printCmds cs).
Proof.
  induction cs as [| c cs IH]; simpl.
  - apply (follows_ret grows grows_refl).
  - apply (follows_bind grows grows_trans); [| intros _; exact IH].
    unfold Hw.printCmd. grow appends.
Qed.

Lemma clearDisplay_grows : follows grows Hw.clearDisplay.
Proof. unfold Hw.clearDisplay. grow appends. Qed.

Lemma displayText_grows text x y size : follows grows (Hw.displayText text x y size).
Proof. unfold Hw.displayText. grow appends. Qed.

Lemma updateDisplay_grows : follows grows Hw.updateDisplay.
Proof. unfold Hw.updateDisplay. grow ltac:(first [apply printCmds_grows | appends]). Qed.

Lemma drawRows_grows bits dys : follows grows (Hw.drawRows bits dys).
Proof.
  induction dys as [| dy rest IH]; simpl.
  - apply (follows_ret grows grows_refl).
  - grow ltac:(first [apply IH | appends]).
Qed.

Lemma decodeLines_grows fl ctx iWidth y lines final :
  follows grows (Hw.decodeLines fl ctx iWidth y lines final).
Proof.
  revert y. induction lines as [| l rest IH]; intros y; simpl.
  - apply (follows_ret grows grows_refl).
  - unfold Hw.pngDrawToEPD.
    grow ltac:(first [apply IH | apply drawRows_grows | appends]).
Qed.

Lemma png_openRAM_run data s :
  Hw.png_openRAM data s
  = (open_rc (pngdec (env (hw s)) data),
     {| client := client s;
        hw := set_trace (trace (hw s) ++ [EvPngOpen (open_rc (pngdec (env (hw s)) data))]) (hw s) |}).
Proof. reflexivity. Qed.

(** the raw frame: every page is filled and gets the bitmap *)
Lemma rawPages_trace data extra s :
  trace (hw (snd (pagedLoop extra
                    (epd FillScreenWhite ;;
                     epd (DrawBitmap 0 0 data DISPLAY_WIDTH DISPLAY_HEIGHT) ;;
                     mret true) s)))
  = trace (hw s)
    ++ concat (replicate (S extra)
         [EvEpd FillScreenWhite;
          EvEpd (DrawBitmap 0 0 data DISPLAY_WIDTH DISPLAY_HEIGHT);
          EvEpd NextPage]).
Proof.
  revert s. induction extra as [| k IH]; intros s.
  - simpl. msimpl. rewrite <- !app_assoc. reflexivity.
  - change (pagedLoop (S k) ?b) with
      (continue ← b; if continue : bool then epd NextPage ;; pagedLoop k b else mret tt).
    rewrite bind_run. cbn [fst snd]. msimpl.
    rewrite IH. msimpl. rewrite <- !app_assoc. reflexivity.
Qed.


Lemma drawRows_textObs bits dys : keeps textObs (Hw.drawRows bits dys).
Proof.
  induction dys as [| dy rest IH]; simpl.
  - apply keeps_ret.
  - frame ltac:(first [apply IH | unfold textObs, printed; untouched]).
Qed.

Lemma decodeLines_textObs fl ctx iWidth y lines final :
  keeps textObs (Hw.decodeLines fl ctx iWidth y lines final).
Proof.
  revert y. induction lines as [| l rest IH]; intros y; simpl.
  - apply keeps_ret.
  - unfold Hw.pngDrawToEPD.
    frame ltac:(first [apply IH | apply drawRows_textObs | unfold textObs, printed; untouched]).
Qed.

Lemma pagedLoop_unfold extra (body : M bool) :
  pagedLoop extra body
  = (continue ← body;
     if continue : bool then
       epd NextPage ;;
       match extra with
       | O => mret tt
       | S k => pagedLoop k body
       end
     else mret tt).
Proof. destruct extra; reflexivity. Qed.

(** one page of a PNG whose lines are too wide for the line buffer *)
Lemma pngPage_too_wide fl (ctx : Hw.PngDrawContext fl) data s :
  open_rc (pngdec (env (hw s)) data) = Hw.PNG_SUCCESS ->
  1024 < width (pngdec (env (hw s)) data) ->
  scanlines (pngdec (env (hw s)) data) <> [] ->
  (epd FillScreenWhite ;;
   orc ← Hw.png_openRAM data;
   if negb (orc =? Hw.PNG_SUCCESS) then mret false else
   dec ← Hw.png_decode fl ctx data;
   if negb (dec =? Hw.PNG_SUCCESS) then mret false else
   mret true) s
  = (false,
     {| client := client s;
        hw := set_trace (trace (hw s) ++ [EvEpd FillScreenWhite; EvPngOpen 0;
                                            EvPngDecode Hw.PNG_QUIT_EARLY]) (hw s) |}).
Proof.
  intros Hopen Hwide Hlines.
  unfold Hw.png_openRAM, Hw.png_decode.
  destruct (scanlines (pngdec (env (hw s)) data)) as [| l rest] eqn:El; [contradiction |].
  msimpl. rewrite Hopen.
  change (negb (Hw.PNG_SUCCESS =? Hw.PNG_SUCCESS)) with false. cbv beta iota.
  msimpl. rewrite El. cbn [Hw.decodeLines].
  unfold Hw.pngDrawToEPD.
  destruct (Z.ltb_spec 1024 (width (pngdec (env (hw s)) data))); [| lia].
  msimpl. change (0 =? 0) with true. cbv iota. msimpl.
  change (negb (Hw.PNG_QUIT_EARLY =? Hw.PNG_SUCCESS)) with true. cbv iota.
  rewrite <- !app_assoc. reflexivity.
Qed.

(** C4, on the code: once PNGdec has opened the buffer, no failure of
    the decode brings up the placeholder.  Whatever happens in the page
    loop, nothing is printed and no text is queued; when a scanline is
    wider than 1024 samples the callback stops the decode on the first
    line, the loop is left by [break], and the frame is never flushed
    (no NextPage). *)
Theorem C4_decode_failure_no_placeholder (fl : FloatOps) (data : list Z) (s : Sys.t) :
  let img := pngdec (env (hw s)) data in
  let s' := run (Hw.displayImage fl (Some data)) s in
  Z.of_nat (length data) <> 0 ->
  Z.of_nat (length data) <> 15000 ->
  open_rc img = Hw.PNG_SUCCESS ->
  printed (trace (hw s')) = printed (trace (hw s))
  /\ text_cmds (hw s') = text_cmds (hw s)
  /\ (1024 < width img -> scanlines img <> [] ->
      trace (hw s') = trace (hw s) ++
        [EvPngOpen 0; EvEpd SetFullWindow; EvEpd FirstPage; EvEpd FillScreenWhite;
         EvPngOpen 0; EvPngDecode Hw.PNG_QUIT_EARLY]).
Proof.
  cbv zeta. intros Hnz Hnraw Hopen. unfold run, Hw.displayImage.
  destruct (Z.eqb_spec (Z.of_nat (length data)) 0); [contradiction |].
  rewrite bind_run. change (snd (getE extraPages s)) with s.
  change (fst (getE extraPages s)) with (extraPages (env (hw s))).
  change (DISPLAY_WIDTH * DISPLAY_HEIGHT / 8) with 15000.
  destruct (Z.eqb_spec (Z.of_nat (length data)) 15000); [contradiction |].
  rewrite bind_run. rewrite png_openRAM_run. cbn [fst snd].
  rewrite Hopen. change (negb (Hw.PNG_SUCCESS =? Hw.PNG_SUCCESS)) with false. cbv iota.
  match goal with
  | |- context [snd (?k ?s1)] =>
      assert (K : keeps textObs k);
      [ unfold Hw.png_openRAM, Hw.png_decode;
        frame ltac:(first [ apply decodeLines_textObs | unfold textObs, printed; untouched ])
      | pose proof (K s1) as Kobs ]
  end.
  unfold textObs in Kobs. injection Kobs as Kp Kt.
  cbn [hw trace text_cmds set_trace] in Kp, Kt.
  split; [rewrite Kp; unfold printed; rewrite omap_snoc_none by reflexivity; reflexivity |].
  split; [exact Kt |].
  intros Hwide Hlines. clear Kp Kt K.
  rewrite bind_run. change (snd (getE pngdec ?x)) with x.
  change (fst (getE pngdec ?x)) with (pngdec (env (hw x))).
  cbv zeta.
  rewrite bind_run. change (snd (getH invertDisplayFlag ?x)) with x.
  rewrite bind_run, bind_run.
  rewrite pagedLoop_unfold. rewrite bind_run.
  rewrite pngPage_too_wide; [| exact Hopen | exact Hwide | exact Hlines].
  cbn [fst snd]. rewrite ret_run. cbn [fst snd]. msimpl.
  rewrite <- !app_assoc. reflexivity.
Qed.

Lemma C4_decode_failure_no_placeholder_witness :
  let data := [137; 80; 78; 71] in
  let wide := Scenario.device STATE_OPERATIONAL 1800 (Some 0) Scenario.widePng [] in
  let broken := Scenario.device STATE_OPERATIONAL 1800 (Some 0) Scenario.brokenPng [] in
  let unreadable := Scenario.device STATE_OPERATIONAL 1800 (Some 0) Scenario.notPng [] in
  (* too wide: decode aborted, nothing printed, frame not flushed *)
  trace (hw (run (Hw.displayImage Scenario.ExactQ (Some data)) wide))
    = [EvPngOpen 0; EvEpd SetFullWindow; EvEpd FirstPage; EvEpd FillScreenWhite;
       EvPngOpen 0; EvPngDecode 8]
  (* error in the middle of the decode: nothing printed either *)
  /\ printed (trace (hw (run (Hw.displayImage Scenario.ExactQ (Some data)) broken))) = []
  (* the sibling path, open failure, does show the placeholder *)
  /\ printed (trace (hw (run (Hw.displayImage Scenario.ExactQ (Some data)) unreadable)))
     = ["PNG decode failed"].
Proof.
  intros data wide broken unreadable.
  destruct (C4_decode_failure_no_placeholder Scenario.ExactQ data wide) as (_ & _ & A);
    [vm_compute; discriminate | vm_compute; discriminate | reflexivity |].
  destruct (C4_decode_failure_no_placeholder Scenario.ExactQ data broken) as (B & _ & _);
    [vm_compute; discriminate | vm_compute; discriminate | reflexivity |].
  split; [apply A; [vm_compute; reflexivity | vm_compute; discriminate] |].
  split; [exact B | vm_compute; reflexivity].
Defined.

(** * Further properties of the code *)

(** ** The read loops: the buffer is a prefix of the stream *)

Lemma readStream_prefix polls maxSize buf s :
  Z.of_nat (length buf) <= maxSize ->
  fst (Client.readStream polls maxSize buf s)
  = buf ++ take (Z.to_nat (maxSize - Z.of_nat (length buf))) (concat polls).
Proof.
  revert buf s. induction polls as [| c rest IH]; intros buf s Hle; simpl.
  - rewrite take_nil, app_nil_r. reflexivity.
  - destruct (Z.eqb_spec (Z.of_nat (length c)) 0) as [Hempty | Hdata].
    + rewrite bind_run. cbv beta. rewrite IH by exact Hle.
      assert (c = []) as -> by (destruct c; [reflexivity | simpl in Hempty; lia]).
      reflexivity.
    + destruct (Z.ltb_spec maxSize (Z.of_nat (length buf) + Z.of_nat (length c))) as [Hfull | Hfits].
      * destruct (Z.eqb_spec (maxSize - Z.of_nat (length buf)) 0) as [Hz | Hnz].
        -- rewrite Hz. simpl. rewrite app_nil_r. reflexivity.
        -- destruct (Z.ltb_spec (maxSize - Z.of_nat (length buf)) (Z.of_nat (length c))); [| lia].
           simpl. rewrite take_app_le by lia. reflexivity.
      * destruct (Z.eqb_spec (Z.of_nat (length c)) 0); [contradiction |].
        destruct (Z.ltb_spec (Z.of_nat (length c)) (Z.of_nat (length c))); [lia |].
        rewrite Nat2Z.id, firstn_all.
        rewrite IH by (rewrite length_app; lia).
        rewrite length_app, <- app_assoc. f_equal.
        rewrite take_app_ge by lia. f_equal. f_equal. lia.
Qed.

Lemma readFixed_prefix polls maxSize buf s :
  Z.of_nat (length buf) <= maxSize ->
  fst (Cache.readFixed polls maxSize buf s)
  = buf ++ take (Z.to_nat (maxSize - Z.of_nat (length buf))) (concat polls).
Proof.
  revert buf s. induction polls as [| c rest IH]; intros buf s Hle; simpl.
  - rewrite take_nil, app_nil_r. reflexivity.
  - destruct (Z.ltb_spec (Z.of_nat (length buf)) maxSize) as [Hroom | Hfull]; cbn [negb].
    2:{ assert (maxSize - Z.of_nat (length buf) = 0) as -> by lia.
        simpl. rewrite app_nil_r. reflexivity. }
    destruct (Z.eqb_spec (Z.of_nat (length c)) 0) as [Hempty | Hdata].
    + rewrite bind_run. cbv beta. rewrite IH by exact Hle.
      assert (c = []) as -> by (destruct c; [reflexivity | simpl in Hempty; lia]).
      reflexivity.
    + destruct (Z.ltb_spec (Z.min (Z.of_nat (length c)) (maxSize - Z.of_nat (length buf)))
                           (Z.of_nat (length c))) as [Hpart | Hall].
      * simpl. rewrite Z.min_r by lia. rewrite take_app_le by lia. reflexivity.
      * rewrite Z.min_l by lia. rewrite Nat2Z.id, firstn_all.
        rewrite IH by (rewrite length_app; lia).
        rewrite length_app, <- app_assoc. f_equal.
        rewrite take_app_ge by lia. f_equal. f_equal. lia.
Qed.

(** X1: the read loop of the adaptive download fills the buffer with
    exactly the first [maxSize] bytes of what the stream delivers, in
    order; what arrives beyond the buffer is dropped, empty polls
    change nothing.  The loop of [downloadImage] reads the same bytes. *)
Theorem X1_read_loops_take_prefix (polls : list (list Z)) (maxSize : Z) (s : Sys.t) :
  0 <= maxSize ->
  result (Client.readStream polls maxSize []) s = take (Z.to_nat maxSize) (concat polls)
  /\ result (Cache.readFixed polls maxSize []) s = take (Z.to_nat maxSize) (concat polls)
  /\ Z.of_nat (length (result (Client.readStream polls maxSize []) s)) <= maxSize.
Proof.
  intros Hpos. unfold result.
  rewrite readStream_prefix, readFixed_prefix by (simpl; lia).
  simpl. rewrite Z.sub_0_r.
  split; [reflexivity |]. split; [reflexivity |].
  rewrite length_take. lia.
Qed.

Lemma X1_read_loops_take_prefix_witness :
  let s := Scenario.device STATE_OPERATIONAL 1800 (Some 0) Scenario.tinyPng [] in
  result (Client.readStream [[1; 2]; []; [3; 4; 5]; [6]] 4 []) s = [1; 2; 3; 4]
  /\ result (Cache.readFixed [[1; 2]; []; [3; 4; 5]; [6]] 4 []) s = [1; 2; 3; 4].
Proof.
  intros s.
  destruct (X1_read_loops_take_prefix [[1; 2]; []; [3; 4; 5]; [6]] 4 s) as (A & B & _);
    [lia |].
  split; [exact A | exact B].
Defined.

(** ** The adaptive download: who owns the buffer, and when it succeeds *)

Lemma download_ownership url s :
  let res := Client.downloadImageAutoAlloc url None s in
  (fst (fst res) = true ->
     (exists b, snd (fst res) = Some b /\ b <> [])
     /\ liveBuffers (hw (snd res)) = S (liveBuffers (hw s)))
  /\ (fst (fst res) = false ->
     snd (fst res) = None /\ liveBuffers (hw (snd res)) = liveBuffers (hw s)).
Proof.
  cbv zeta.
  unfold Client.downloadImageAutoAlloc, Client.isWiFiConnected, Hw.getFreeHeap.
  rewrite bind_run. change (fst (getH wifiConnected s)) with (wifiConnected (hw s)).
  change (snd (getH wifiConnected s)) with s.
  destruct (negb (wifiConnected (hw s)) || (String.length url =? 0)%nat).
  { rewrite ret_run. cbn [fst snd]. split; [discriminate | intros _; split; reflexivity]. }
  rewrite bind_run. change (snd (getC apiKey s)) with s.
  change (fst (getC apiKey s)) with (apiKey (client s)).
  rewrite bind_run.
  match goal with
  | |- context [Client.http_GET url ?h s] =>
      pose proof (http_GET_liveBuffers url h s) as Hl;
      destruct (Client.http_GET url h s) as [r g]
  end.
  cbn [fst snd] in *.
  destruct (negb (code r =? 200)).
  { rewrite ret_run. cbn [fst snd]. split; [discriminate | intros _; split; [reflexivity | exact Hl]]. }
  rewrite bind_run. change (fst (getE freeHeap g)) with (freeHeap (env (hw g))).
  change (snd (getE freeHeap g)) with g.
  set (n := Alloc.allocSize _ _).
  rewrite bind_run.
  destruct (malloc_run n g) as [Hok Hm].
  destruct (Client.malloc n g) as [ok m]. cbn [fst snd] in *. subst ok.
  revert Hm. destruct (n <=? maxAlloc (env (hw g))); cbn [negb]; intros Hm.
  2:{ rewrite ret_run. cbn [fst snd]. split; [discriminate | intros _; split; [reflexivity | congruence]]. }
  rewrite bind_run.
  pose proof (readStream_liveBuffers (chunks r) n [] m) as Hlive.
  destruct (Client.readStream (chunks r) n [] m) as [buffer m2].
  cbn [fst snd] in *.
  destruct ((0 <? to_int (size r)) && negb (to_int (Z.of_nat (length buffer)) =? to_int (size r))
            && (to_int (Z.of_nat (length buffer)) <? to_int (size r))).
  { rewrite bind_run, ret_run. cbn [fst snd]. destruct (free_run m2) as [Fl _].
    split; [discriminate | intros _; split; [reflexivity |]].
    rewrite Fl, Hlive, Hm, Hl. reflexivity. }
  destruct (Z.eqb_spec (Z.of_nat (length buffer)) 0) as [Hz | Hnz].
  { rewrite bind_run, ret_run. cbn [fst snd]. destruct (free_run m2) as [Fl _].
    split; [discriminate | intros _; split; [reflexivity |]].
    rewrite Fl, Hlive, Hm, Hl. reflexivity. }
  rewrite ret_run. cbn [fst snd]. split; [| discriminate].
  intros _. split.
  - exists buffer. split; [reflexivity |]. intros ->. simpl in Hnz. lia.
  - rewrite Hlive, Hm, Hl. reflexivity.
Qed.

(** X2: after a 200 answer to the image request, the adaptive download
    succeeds exactly when malloc serves the computed size n, at least
    one byte arrived, and - if a content length L > 0 was declared -
    at least L bytes fit and arrived.  The buffer handed back is then
    the first n bytes of the body and is the one live allocation the
    call leaves; otherwise no buffer is handed back and none stays
    allocated.  A declared length above 64 KiB can never succeed. *)
Theorem X2_download_outcome (s : Sys.t) (url : string) (r : HttpResponse)
        (rest : list HttpResponse) :
  wifiConnected (hw s) = true ->
  nonempty url = true ->
  net (hw s) = r :: rest ->
  code r = 200 ->
  is_int (size r) ->
  is_size_t (freeHeap (env (hw s))) ->
  let L := size r in
  let n := Alloc.allocSize L (freeHeap (env (hw s))) in
  let body := take (Z.to_nat n) (concat (chunks r)) in
  let got := Z.of_nat (length body) in
  let accepted := (n <=? maxAlloc (env (hw s))) && (0 <? got) && ((L <=? 0) || (L <=? got)) in
  result (Client.downloadImageAutoAlloc url None) s
    = (accepted, if accepted then Some body else None)
  /\ liveBuffers (hw (run (Client.downloadImageAutoAlloc url None) s))
     = (if accepted then S (liveBuffers (hw s)) else liveBuffers (hw s))
  /\ (65536 < L -> accepted = false).
Proof.
  intros Hwifi Hurl Hnet H200 Hint Hheap. cbv zeta.
  destruct (allocSize_cases (size r) (freeHeap (env (hw s))) Hint Hheap)
    as (_ & _ & _ & Hn & Hcap).
  set (n := Alloc.allocSize (size r) (freeHeap (env (hw s)))) in *.
  set (body := take (Z.to_nat n) (concat (chunks r))).
  assert (Hgot : 0 <= Z.of_nat (length body) <= n)
    by (unfold body; rewrite length_take; lia).
  unfold Alloc.FALLBACK in Hcap.
  assert (Hbig : 65536 < size r ->
                 (n <=? maxAlloc (env (hw s))) && (0 <? Z.of_nat (length body))
                 && ((size r <=? 0) || (size r <=? Z.of_nat (length body))) = false).
  { intros HL. destruct (Z.leb_spec (size r) 0); [lia |].
    destruct (Z.leb_spec (size r) (Z.of_nat (length body))); [lia |].
    cbn [orb]. apply andb_false_r. }
  apply nonempty_length in Hurl.
  cut (let res := Client.downloadImageAutoAlloc url None s in
       let accepted := (n <=? maxAlloc (env (hw s))) && (0 <? Z.of_nat (length body))
                       && ((size r <=? 0) || (size r <=? Z.of_nat (length body))) in
       fst res = (accepted, if accepted then Some body else None)
       /\ liveBuffers (hw (snd res))
          = (if accepted then S (liveBuffers (hw s)) else liveBuffers (hw s))).
  { cbv zeta. intros [A B]. split; [exact A | split; [exact B | exact Hbig]]. }
  cbv zeta.
  unfold Client.downloadImageAutoAlloc, Client.isWiFiConnected, Hw.getFreeHeap.
  rewrite bind_run. change (fst (getH wifiConnected s)) with (wifiConnected (hw s)).
  change (snd (getH wifiConnected s)) with s.
  rewrite Hwifi, Hurl. cbn [negb orb].
  rewrite bind_run. change (snd (getC apiKey s)) with s.
  change (fst (getC apiKey s)) with (apiKey (client s)).
  rewrite bind_run.
  match goal with
  | |- context [Client.http_GET url ?h s] =>
      pose proof (http_GET_answer url h s) as Hr;
      pose proof (http_GET_liveBuffers url h s) as Hl;
      pose proof (http_GET_env url h s) as He;
      destruct (Client.http_GET url h s) as [r' g]
  end.
  cbn [fst snd] in *. rewrite Hnet in Hr. cbn [hd] in Hr. subst r'.
  rewrite H200. change (negb (200 =? 200)) with false. cbv iota.
  rewrite (to_int_id (size r) Hint).
  rewrite bind_run. change (fst (getE freeHeap g)) with (freeHeap (env (hw g))).
  change (snd (getE freeHeap g)) with g. rewrite He. fold n.
  rewrite bind_run.
  destruct (malloc_run n g) as [Hok Hm]. rewrite He in Hok, Hm.
  destruct (Client.malloc n g) as [ok m]. cbn [fst snd] in *. subst ok.
  revert Hm. destruct (Z.leb_spec n (maxAlloc (env (hw s)))); cbn [negb andb]; intros Hm.
  2:{ rewrite ret_run. cbn [fst snd]. split; congruence. }
  rewrite bind_run.
  pose proof (readStream_prefix (chunks r) n [] m) as Hbuf.
  pose proof (readStream_liveBuffers (chunks r) n [] m) as Hlive.
  destruct (Client.readStream (chunks r) n [] m) as [buffer m2].
  cbn [fst snd] in *.
  assert (Hb : buffer = body).
  { rewrite Hbuf by (simpl; lia). simpl length. rewrite Z.sub_0_r. reflexivity. }
  clear Hbuf. subst buffer.
  rewrite to_int_id by (unfold is_int, INT_MIN, INT_MAX; lia).
  assert (Hfree : liveBuffers (hw (snd (Client.free m2))) = liveBuffers (hw s)).
  { destruct (free_run m2) as [Fl _]. rewrite Fl, Hlive, Hm, Hl. reflexivity. }
  assert (Hkeep : liveBuffers (hw m2) = S (liveBuffers (hw s))).
  { rewrite Hlive, Hm, Hl. reflexivity. }
  destruct (Z.ltb_spec 0 (size r)) as [HLpos | HLnone];
    destruct (Z.leb_spec (size r) 0); try lia; cbn [andb orb];
    destruct (Z.eqb_spec (Z.of_nat (length body)) (size r)) as [Heq | Hne]; cbn [negb andb];
    destruct (Z.ltb_spec (Z.of_nat (length body)) (size r));
    destruct (Z.leb_spec (size r) (Z.of_nat (length body))); try lia;
    destruct (Z.eqb_spec (Z.of_nat (length body)) 0);
    destruct (Z.ltb_spec 0 (Z.of_nat (length body))); try lia; cbn [andb orb];
    rewrite ?bind_run, ?ret_run; cbn [fst snd]; split; solve [reflexivity | exact Hfree | exact Hkeep].
Qed.

Lemma X2_download_outcome_witness :
  let url := "https://cdn.example/p.png" in
  let whole := Scenario.device STATE_OPERATIONAL 1800 (Some 0) Scenario.tinyPng
                 [Scenario.imageAnswer 5 [[1; 2]; [3; 4; 5]]] in
  let huge := Scenario.device STATE_OPERATIONAL 1800 (Some 0) Scenario.tinyPng
                 [Scenario.imageAnswer 70000 [replicate (Z.to_nat 70000) 1]] in
  result (Client.downloadImageAutoAlloc url None) whole = (true, Some [1; 2; 3; 4; 5])
  /\ liveBuffers (hw (run (Client.downloadImageAutoAlloc url None) whole)) = 1%nat
  /\ fst (result (Client.downloadImageAutoAlloc url None) huge) = false.
Proof.
  intros url whole huge.
  assert (Hs : is_size_t 200000) by (unfold is_size_t, UINT32_MOD; lia).
  destruct (X2_download_outcome whole url (Scenario.imageAnswer 5 [[1; 2]; [3; 4; 5]]) [])
    as (A & B & _);
    [reflexivity | reflexivity | reflexivity | reflexivity
    | unfold is_int, INT_MIN, INT_MAX; simpl; lia | exact Hs |].
  destruct (X2_download_outcome huge url
              (Scenario.imageAnswer 70000 [replicate (Z.to_nat 70000) 1]) [])
    as (C & _ & D);
    [reflexivity | reflexivity | reflexivity | reflexivity
    | unfold is_int, INT_MIN, INT_MAX; simpl; lia | exact Hs |].
  split; [exact A |]. split; [exact B |].
  rewrite C. rewrite D by (simpl; lia). reflexivity.
Defined.

(** ** The panel code touches the panel only *)

Ltac panel_prim :=
  unfold View.panelFrame, httpGets, fileWrites, mallocs, Main.sleeps; untouched.

Lemma printCmds_panel cs : keeps View.panelFrame (Hw.printCmds cs).
Proof.
  induction cs as [| c cs IH]; simpl.
  - apply keeps_ret.
  - apply keeps_bind; [| intros _; exact IH].
    unfold Hw.printCmd. frame panel_prim.
Qed.

Lemma clearDisplay_panel : keeps View.panelFrame Hw.clearDisplay.
Proof. unfold Hw.clearDisplay. frame panel_prim. Qed.

Lemma displayText_panel text x y size : keeps View.panelFrame (Hw.displayText text x y size).
Proof. unfold Hw.displayText. frame panel_prim. Qed.

Lemma updateDisplay_panel : keeps View.panelFrame Hw.updateDisplay.
Proof.
  unfold Hw.updateDisplay.
  frame ltac:(first [ apply printCmds_panel | panel_prim ]).
Qed.

Lemma drawRows_panel bits dys : keeps View.panelFrame (Hw.drawRows bits dys).
Proof.
  induction dys as [| dy rest IH]; simpl.
  - apply keeps_ret.
  - frame ltac:(first [apply IH | panel_prim]).
Qed.

Lemma decodeLines_panel fl ctx iWidth y lines final :
  keeps View.panelFrame (Hw.decodeLines fl ctx iWidth y lines final).
Proof.
  revert y. induction lines as [| l rest IH]; intros y; simpl.
  - apply keeps_ret.
  - unfold Hw.pngDrawToEPD.
    frame ltac:(first [apply IH | apply drawRows_panel | panel_prim]).
Qed.

Lemma displayImage_panel fl img : keeps View.panelFrame (Hw.displayImage fl img).
Proof.
  unfold Hw.displayImage.
  destruct img as [data |]; [| apply keeps_ret].
  destruct (Z.of_nat (length data) =? 0); [apply keeps_ret |].
  unfold Hw.png_openRAM, Hw.png_decode.
  frame ltac:(first [ apply clearDisplay_panel | apply displayText_panel
                    | apply updateDisplay_panel | apply decodeLines_panel
                    | panel_prim ]).
Qed.

(** X3: drawing an image, a text screen or a blank screen leaves the
    client, the stored settings, the SD card, the network, the heap
    and the record of requests, file writes, allocations and sleeps
    as they were.  What it changes is the panel and the queue of
    pending text; nothing is said about the time it takes. *)
Theorem X3_panel_code_touches_panel_only (fl : FloatOps) (img : option (list Z))
        (text : string) (x y size : Z) :
  keeps View.panelFrame (Hw.displayImage fl img)
  /\ keeps View.panelFrame Hw.updateDisplay
  /\ keeps View.panelFrame Hw.clearDisplay
  /\ keeps View.panelFrame (Hw.displayText text x y size).
Proof.
  split; [apply displayImage_panel |].
  split; [apply updateDisplay_panel |].
  split; [apply clearDisplay_panel | apply displayText_panel].
Qed.

(** ** One refresh: the heap and the error counter *)

Lemma cacheImage_heap filename data :
  keeps (fun s => (client s, liveBuffers (hw s))) (Client.cacheImage filename data).
Proof.
  unfold Client.cacheImage, Hw.isSDCardAvailable, Hw.writeFile.
  frame untouched.
Qed.

Lemma updateContent_offline fl s :
  wifiConnected (hw s) = false ->
  Client.updateContent fl s
  = (false, {| client := set_currentState STATE_OFFLINE (client s); hw := hw s |}).
Proof.
  intros Hw. unfold Client.updateContent, Client.isWiFiConnected.
  rewrite bind_run. change (fst (getH wifiConnected s)) with (wifiConnected (hw s)).
  change (snd (getH wifiConnected s)) with s. rewrite Hw. reflexivity.
Qed.

Lemma updateContent_online fl s :
  wifiConnected (hw s) = true ->
  let res := Client.updateContent fl s in
  liveBuffers (hw (snd res)) = liveBuffers (hw s)
  /\ consecutiveErrors (client (snd res))
     = (if fst res then 0 else to_int (consecutiveErrors (client s) + 1)).
Proof.
  intros Hw. cbv zeta. unfold Client.updateContent, Client.isWiFiConnected.
  rewrite bind_run. change (fst (getH wifiConnected s)) with (wifiConnected (hw s)).
  change (snd (getH wifiConnected s)) with s. rewrite Hw. cbn [negb].
  rewrite bind_run.
  pose proof (callDisplayAPI_apiObs Client.fresh_DisplayResponse s) as Hapi.
  destruct (Client.callDisplayAPI Client.fresh_DisplayResponse s) as [[ok response] s1].
  cbn [fst snd] in *. unfold apiObs in Hapi.
  assert (Hc1 : consecutiveErrors (client s1) = consecutiveErrors (client s)) by congruence.
  assert (Hl1 : liveBuffers (hw s1) = liveBuffers (hw s)) by congruence.
  clear Hapi. rewrite <- Hc1, <- Hl1. clear Hc1 Hl1 Hw s.
  rewrite bind_run.
  destruct ok; [| split; reflexivity].
  destruct (nonempty (Client.imageUrl response)) eqn:Hurl; [| split; reflexivity].
  rewrite bind_run.
  pose proof (download_ownership (Client.imageUrl response) s1) as Hown.
  pose proof (downloadImageAutoAlloc_dlObs (Client.imageUrl response) None s1) as Hdl.
  cbv zeta in Hown.
  destruct (Client.downloadImageAutoAlloc (Client.imageUrl response) None s1)
    as [[got imageBuffer] s2].
  cbn [fst snd] in *.
  assert (Hc2 : client s2 = client s1) by (unfold dlObs in Hdl; congruence).
  clear Hdl. destruct Hown as [Hyes Hno].
  destruct got.
  - destruct (Hyes eq_refl) as [_ Hlive]. clear Hyes Hno.
    rewrite bind_run.
    pose proof (displayImage_panel fl imageBuffer s2) as Hp.
    destruct (Hw.displayImage fl imageBuffer s2) as [[] s3]. cbn [fst snd] in *.
    assert (Hl3 : liveBuffers (hw s3) = S (liveBuffers (hw s1)))
      by (unfold View.panelFrame in Hp; congruence).
    clear Hp Hlive Hc2 s2.
    rewrite bind_run.
    assert (Hl4 : forall m : M unit,
              keeps (fun s => (client s, liveBuffers (hw s))) m ->
              liveBuffers (hw (snd (m s3))) = S (liveBuffers (hw s1))).
    { intros m Hm. specialize (Hm s3). cbn beta in Hm. congruence. }
    match goal with
    | |- context [snd (?m s3)] => specialize (Hl4 m)
    end.
    match type of Hl4 with
    | ?P -> _ => assert (Hk : P)
    end.
    { destruct (CACHE_ENABLED && nonempty (Client.filename response)).
      - apply keeps_bind; [apply cacheImage_heap | intros ?; apply keeps_ret].
      - apply keeps_ret. }
    specialize (Hl4 Hk). clear Hk.
    match goal with
    | |- context [snd (?m s3)] => destruct (m s3) as [[] s4]
    end.
    cbn [fst snd] in *. unfold Client.free. msimpl. rewrite Hl4. split; reflexivity.
  - destruct (Hno eq_refl) as [Hnone Hlive]. subst imageBuffer. clear Hyes Hno.
    msimpl. rewrite Hlive, Hc2. split; reflexivity.
Qed.

(** X4: a content refresh never leaks its download buffer: whatever
    the server answers and whatever the decoder does, as many buffers
    are allocated after [updateContent] as before.  With WiFi up the
    error counter is 0 after a successful refresh and goes up by one
    (as an int) after a failed one; with WiFi down the refresh fails
    at once, only marks the device offline, and counts no error. *)
Theorem X4_updateContent_accounting (fl : FloatOps) (s : Sys.t) :
  let ok := result (Client.updateContent fl) s in
  let s' := run (Client.updateContent fl) s in
  liveBuffers (hw s') = liveBuffers (hw s)
  /\ (if wifiConnected (hw s)
      then consecutiveErrors (client s')
           = (if ok then 0 else to_int (consecutiveErrors (client s) + 1))
      else ok = false
           /\ client s' = set_currentState STATE_OFFLINE (client s)
           /\ hw s' = hw s).
Proof.
  cbv zeta. unfold result, run.
  destruct (wifiConnected (hw s)) eqn:Hw.
  - apply (updateContent_online fl s Hw).
  - rewrite (updateContent_offline fl s Hw). cbn [fst snd].
    repeat split; reflexivity.
Qed.

(** ** What the preferences keep across a restart

    A restart keeps the hardware's stores and starts with whatever the
    client object holds; [TRMNLClient::begin] then loads the device
    record. *)

Ltac prefs :=
  repeat first [ rewrite lookup_insert_eq
               | rewrite lookup_insert_ne by discriminate ].

(** X5: the device record written by [saveDeviceInfo] is what
    [loadDeviceInfo] finds after a restart: the refresh rate always,
    the API key and the friendly id unless the build predefines them,
    in which case the predefined value wins.  The result tells whether
    both loaded ids are non-empty. *)
Theorem X5_device_info_survives_restart (s : Sys.t) (c : Client) :
  let b := build (env (hw s)) in
  let boot := {| client := c; hw := hw (run Client.saveDeviceInfo s) |} in
  let s' := run Client.loadDeviceInfo boot in
  apiKey (client s') = default (apiKey (client s)) (TRMNL_API_KEY b)
  /\ friendlyId (client s') = default (friendlyId (client s)) (CUSTOM_FRIENDLY_ID b)
  /\ refreshRate (client s') = refreshRate (client s)
  /\ result Client.loadDeviceInfo boot
     = nonempty (apiKey (client s')) && nonempty (friendlyId (client s')).
Proof.
  cbv zeta. unfold result, run, Client.loadDeviceInfo, Client.saveDeviceInfo,
    Client.isDeviceRegistered, Hw.saveString, Hw.saveInt, Hw.loadString, Hw.loadInt.
  msimpl.
  destruct (TRMNL_API_KEY (build (env (hw s)))) as [k |];
    destruct (CUSTOM_FRIENDLY_ID (build (env (hw s)))) as [f |];
    msimpl; prefs; repeat split; reflexivity.
Qed.

(** X6: once the registration is cleared, a restart finds the device
    unregistered unless the build predefines both ids; the stored
    refresh rate is not touched by the clearing. *)
Theorem X6_cleared_registration_after_restart (s : Sys.t) (c : Client) :
  let b := build (env (hw s)) in
  let boot := {| client := c; hw := hw (run Client.clearDeviceRegistration s) |} in
  let s' := run Client.loadDeviceInfo boot in
  result Client.loadDeviceInfo boot
    = nonempty (default "" (TRMNL_API_KEY b)) && nonempty (default "" (CUSTOM_FRIENDLY_ID b))
  /\ apiKey (client s') = default "" (TRMNL_API_KEY b)
  /\ friendlyId (client s') = default "" (CUSTOM_FRIENDLY_ID b)
  /\ refreshRate (client s') = fst (Hw.loadInt "refresh_rate" DEEP_SLEEP_DURATION_SECONDS s).
Proof.
  cbv zeta. unfold result, run, Client.loadDeviceInfo, Client.clearDeviceRegistration,
    Client.isDeviceRegistered, Hw.saveString, Hw.saveInt, Hw.loadString, Hw.loadInt.
  msimpl.
  destruct (TRMNL_API_KEY (build (env (hw s)))) as [k |];
    destruct (CUSTOM_FRIENDLY_ID (build (env (hw s)))) as [f |];
    msimpl; prefs; repeat split; reflexivity.
Qed.

(** X7: WiFi credentials.  Without credentials in the build, what
    [saveCredentials] stored is what [loadCredentials] returns, found
    exactly when the SSID is non-empty, and after
    [clearWiFiCredentials] there are none.  With an SSID in the build,
    that one is returned whatever is stored or cleared. *)
Theorem X7_wifi_credentials (s : Sys.t) (ssid password : string) :
  let b := build (env (hw s)) in
  let saved := run (Cache.saveCredentials ssid password) s in
  let cleared := run Cache.clearWiFiCredentials s in
  result Client.loadCredentials saved
    = match WIFI_SSID b with
      | Some fixed => (true, (fixed, default "" (WIFI_PASSWORD b)))
      | None => (nonempty ssid, (ssid, password))
      end
  /\ result Cache.hasWiFiCredentials cleared = bool_decide (is_Some (WIFI_SSID b))
  /\ client saved = client s /\ client cleared = client s.
Proof.
  cbv zeta. unfold result, run, Cache.hasWiFiCredentials, Client.loadCredentials,
    Cache.saveCredentials, Cache.clearWiFiCredentials, Hw.saveString, Hw.loadString.
  msimpl.
  destruct (WIFI_SSID (build (env (hw s)))) as [fixed |];
    [destruct (WIFI_PASSWORD (build (env (hw s)))) |];
    msimpl; prefs; repeat split; reflexivity.
Qed.

(** ** Registration through the setup API *)




Lemma setupAnswer_around s : aroundNet (snd (setupAnswer s)) = aroundNet (withMac s).
Proof.
  unfold setupAnswer. rewrite setupAttempts_displayAttempts. apply displayAttempts_around.
Qed.




(** X9: a client without an API key asks the server nothing: the
    display call is refused by its own guard, so a refresh with WiFi
    up fails with "display API error" and one more counted error,
    without a request, a panel command or an allocation.  This is where
    a device ends up whose registration succeeded on the status alone. *)
Theorem X9_no_api_key_no_request (fl : FloatOps) (s : Sys.t) :
  wifiConnected (hw s) = true ->
  nonempty (apiKey (client s)) = false ->
  let s' := run (Client.updateContent fl) s in
  result (Client.updateContent fl) s = false
  /\ hw s' = hw s
  /\ lastError (client s') = "display API error"
  /\ consecutiveErrors (client s') = to_int (consecutiveErrors (client s) + 1)
  /\ currentState (client s') = currentState (client s).
Proof.
  intros Hwifi Hkey. cbv zeta. unfold result, run, Client.updateContent, Client.isWiFiConnected.
  rewrite bind_run. change (fst (getH wifiConnected s)) with (wifiConnected (hw s)).
  change (snd (getH wifiConnected s)) with s. rewrite Hwifi. cbn [negb].
  assert (Hcall : Client.callDisplayAPI Client.fresh_DisplayResponse s
                  = ((false, Client.fresh_DisplayResponse), s)).
  { unfold Client.callDisplayAPI, Client.isWiFiConnected.
    rewrite bind_run. change (fst (getH wifiConnected s)) with (wifiConnected (hw s)).
    change (snd (getH wifiConnected s)) with s. rewrite Hwifi. cbn [negb].
    rewrite bind_run. change (fst (getC apiKey s)) with (apiKey (client s)).
    change (snd (getC apiKey s)) with s.
    apply Nat.ltb_ge in Hkey.
    replace (String.length (apiKey (client s)) =? 0)%nat with true
      by (symmetry; apply Nat.eqb_eq; lia).
    reflexivity. }
  rewrite bind_run, Hcall. cbn [fst snd]. msimpl.
  repeat split; reflexivity.
Qed.

Lemma X9_no_api_key_no_request_witness :
  let flag := Json.JObj [("success", Json.JBool true)] in
  let s := run Client.registerDevice (Bench.unregistered [Scenario.jsonAnswer flag]) in
  result (Client.updateContent Scenario.ExactQ) s = false
  /\ lastError (client (run (Client.updateContent Scenario.ExactQ) s)) = "display API error".
Proof.
  intros flag s.
  destruct (X9_no_api_key_no_request Scenario.ExactQ s) as (A & _ & B & _);
    [vm_compute; reflexivity | vm_compute; reflexivity |].
  split; [exact A | exact B].
Defined.

(** ** The SD card and the image cache *)

Lemma take_min_length {A} (l : list A) (n : Z) :
  take (Z.to_nat (Z.min (Z.of_nat (length l)) n)) l = take (Z.to_nat n) l.
Proof.
  destruct (Z.le_ge_cases (Z.of_nat (length l)) n) as [H | H].
  - rewrite Z.min_l by exact H. rewrite Nat2Z.id.
    rewrite firstn_all. symmetry. apply take_ge. lia.
  - rewrite Z.min_r by lia. reflexivity.
Qed.


Lemma readFile_run path maxSize s :
  Storage.readFile path maxSize s
  = (if sdCardAvailable (hw s)
     then match sdFiles (hw s) !! path with
          | Some content =>
              (0 <? Z.of_nat (length (take (Z.to_nat maxSize) content)),
               Some (take (Z.to_nat maxSize) content))
          | None => (false, None)
          end
     else (false, None), s).
Proof.
  unfold Storage.readFile. msimpl.
  destruct (sdCardAvailable (hw s)); cbn [negb]; [| reflexivity].
  msimpl. destruct (sdFiles (hw s) !! path) as [content |]; [| reflexivity].
  msimpl. rewrite take_min_length. reflexivity.
Qed.



(** X11: without an SD card every file operation fails and changes
    nothing: writing, reading, deleting and caching return false, a
    file neither exists nor has a size, and the cache holds no content
    to show. *)
Theorem X11_no_sd_card (fl : FloatOps) (s : Sys.t) (path : string) (data : list Z)
        (maxSize : Z) :
  sdCardAvailable (hw s) = false ->
  Hw.writeFile path data s = (false, s)
  /\ Storage.readFile path maxSize s = (false, None, s)
  /\ Storage.fileExists path s = (false, s)
  /\ Storage.getFileSize path s = (0, s)
  /\ Storage.deleteFile path s = (false, s)
  /\ Client.cacheImage path data s = (false, s)
  /\ Cache.loadCachedImage path maxSize s = (false, None, s)
  /\ Cache.hasCachedContent s = (false, s)
  /\ Cache.displayCachedContent fl s = (false, s).
Proof.
  intros Hsd.
  unfold Hw.writeFile, Storage.readFile, Storage.fileExists, Storage.getFileSize,
    Storage.deleteFile, Client.cacheImage, Cache.loadCachedImage, Cache.hasCachedContent,
    Cache.displayCachedContent, Hw.isSDCardAvailable.
  msimpl. rewrite Hsd. cbn [negb orb]. repeat split; reflexivity.
Qed.

Lemma X11_no_sd_card_witness :
  let s := {| client := client (Bench.offline "a.png" ∅);
              hw := set_sdFiles {[ "/cache/a.png" := [1; 2; 3] ]}
                      (Bench.board (Scenario.env_with Scenario.tinyPng None) ∅ ∅ []) |} in
  let bare := {| client := client s;
                 hw := {| env := env (hw s); preferences := preferences (hw s);
                          sdCardAvailable := false; sdFiles := sdFiles (hw s);
                          invertDisplayFlag := false; text_cmds := [];
                          wifiConnected := false; net := []; millis := 0;
                          liveBuffers := 0; trace := [] |} |} in
  result Cache.hasCachedContent s = true
  /\ Cache.hasCachedContent bare = (false, bare)
  /\ Cache.displayCachedContent Scenario.ExactQ bare = (false, bare).
Proof.
  intros s bare.
  destruct (X11_no_sd_card Scenario.ExactQ bare "/cache/a.png" [] 10) as
    (_ & _ & _ & _ & _ & _ & _ & A & B); [reflexivity |].
  split; [vm_compute; reflexivity |]. split; [exact A | exact B].
Defined.

(** ** Showing the cached image *)

(** X12: [displayCachedContent], with an SD card and a last image
    name.  It allocates MAX_IMAGE_SIZE bytes, and when the cache file
    exists and is not empty it draws the first MAX_IMAGE_SIZE bytes of
    the file - a longer file is shown cut off - frees the buffer and
    returns true.  When the allocation fails, the file is missing or
    it is empty, it returns false and nothing goes to the panel.  In
    every case the client is unchanged and no buffer stays allocated. *)
Theorem X12_cached_replay (fl : FloatOps) (s : Sys.t) :
  sdCardAvailable (hw s) = true ->
  nonempty (lastImageFilename (client s)) = true ->
  let file := View.cached (lastImageFilename (client s)) s in
  let shown := take (Z.to_nat MAX_IMAGE_SIZE) (default [] file) in
  let ok := (MAX_IMAGE_SIZE <=? maxAlloc (env (hw s))) && (0 <? Z.of_nat (length shown)) in
  let s' := run (Cache.displayCachedContent fl) s in
  result (Cache.displayCachedContent fl) s = ok
  /\ (ok = true ->
      Cache.displayCachedContent fl s
      = (Client.malloc MAX_IMAGE_SIZE ;; Hw.displayImage fl (Some shown) ;;
         Client.free ;; mret true) s)
  /\ (ok = false -> epdOps (trace (hw s')) = epdOps (trace (hw s)))
  /\ client s' = client s
  /\ sdFiles (hw s') = sdFiles (hw s)
  /\ liveBuffers (hw s') = liveBuffers (hw s).
Proof.
  intros Hsd Hlast. cbv zeta. apply nonempty_length in Hlast.
  unfold result, run, Cache.displayCachedContent, Hw.isSDCardAvailable.
  rewrite bind_run. change (fst (getH sdCardAvailable s)) with (sdCardAvailable (hw s)).
  change (snd (getH sdCardAvailable s)) with s.
  rewrite bind_run. change (fst (getC lastImageFilename s)) with (lastImageFilename (client s)).
  change (snd (getC lastImageFilename s)) with s.
  rewrite Hsd, Hlast. cbn [negb orb].
  rewrite !bind_run.
  destruct (malloc_run MAX_IMAGE_SIZE s) as [Hok Hlive].
  assert (Hm : client (snd (Client.malloc MAX_IMAGE_SIZE s)) = client s
               /\ sdFiles (hw (snd (Client.malloc MAX_IMAGE_SIZE s))) = sdFiles (hw s)
               /\ sdCardAvailable (hw (snd (Client.malloc MAX_IMAGE_SIZE s))) = true
               /\ epdOps (trace (hw (snd (Client.malloc MAX_IMAGE_SIZE s))))
                  = epdOps (trace (hw s))).
  { unfold Client.malloc, epdOps. msimpl.
    destruct (MAX_IMAGE_SIZE <=? maxAlloc (env (hw s))); msimpl; trace_simpl;
      repeat split; assumption || reflexivity. }
  destruct (Client.malloc MAX_IMAGE_SIZE s) as [got m]. cbn [fst snd] in *.
  destruct Hm as (Hc & Hf & Hsd1 & He). subst got.
  destruct (MAX_IMAGE_SIZE <=? maxAlloc (env (hw s))); cbn [andb].
  2:{ rewrite ret_run. cbn [fst snd].
      split; [reflexivity |]. split; [discriminate |]. split; [intros _; exact He |].
      split; [exact Hc |]. split; [exact Hf | exact Hlive]. }
  rewrite bind_run. unfold Cache.loadCachedImage, Hw.isSDCardAvailable.
  rewrite bind_run. change (fst (getH sdCardAvailable m)) with (sdCardAvailable (hw m)).
  change (snd (getH sdCardAvailable m)) with m. rewrite Hsd1. cbn [negb].
  rewrite readFile_run. cbn [fst snd]. rewrite Hsd1, Hf.
  unfold View.cached.
  destruct (sdFiles (hw s) !! ("/cache/" +:+ lastImageFilename (client s))) as [content |];
    [change (default [] (Some content)) with content
    | change (default [] None) with (@nil Z)].
  2:{ rewrite take_nil. simpl length. change (0 <? Z.of_nat 0) with false.
      rewrite bind_run, ret_run. cbn [fst snd]. unfold Client.free, epdOps. msimpl.
      trace_simpl. fold (epdOps (trace (hw m))).
      rewrite Hlive.
      split; [reflexivity |]. split; [discriminate |]. split; [intros _; exact He |].
      split; [exact Hc |]. split; [exact Hf | reflexivity]. }
  destruct (0 <? Z.of_nat (length (take (Z.to_nat MAX_IMAGE_SIZE) content))).
  - rewrite !bind_run.
    pose proof (displayImage_panel fl (Some (take (Z.to_nat MAX_IMAGE_SIZE) content)) m) as Hp.
    remember (snd (Hw.displayImage fl (Some (take (Z.to_nat MAX_IMAGE_SIZE) content)) m))
      as m2 eqn:E. clear E.
    unfold View.panelFrame in Hp.
    assert (Hc2 : client m2 = client m) by congruence.
    assert (Hf2 : sdFiles (hw m2) = sdFiles (hw m)) by congruence.
    assert (Hl2 : liveBuffers (hw m2) = liveBuffers (hw m)) by congruence.
    clear Hp. rewrite ret_run. cbn [fst snd]. unfold Client.free. msimpl.
    rewrite Hc2, Hf2, Hl2, Hlive.
    split; [reflexivity |]. split; [intros _; reflexivity |]. split; [discriminate |].
    split; [exact Hc |]. split; [exact Hf | reflexivity].
  - rewrite bind_run, ret_run. cbn [fst snd]. unfold Client.free, epdOps. msimpl.
    trace_simpl. fold (epdOps (trace (hw m))).
    rewrite Hlive.
    split; [reflexivity |]. split; [discriminate |]. split; [intros _; exact He |].
    split; [exact Hc |]. split; [exact Hf | reflexivity].
Qed.

Lemma X12_cached_replay_witness :
  let raw := replicate (Z.to_nat 15000) 170 in
  let s := Bench.offline "a.bin" {[ "/cache/a.bin" := raw ]} in
  let lost := Bench.offline "b.bin" {[ "/cache/a.bin" := raw ]} in
  (result (Cache.displayCachedContent Scenario.ExactQ) s = true
   /\ liveBuffers (hw (run (Cache.displayCachedContent Scenario.ExactQ) s)) = 0%nat)
  /\ (result (Cache.displayCachedContent Scenario.ExactQ) lost = false
      /\ epdOps (trace (hw (run (Cache.displayCachedContent Scenario.ExactQ) lost))) = []).
Proof.
  intros raw s lost.
  destruct (X12_cached_replay Scenario.ExactQ s) as (A & _ & _ & _ & _ & L);
    [reflexivity | reflexivity |].
  destruct (X12_cached_replay Scenario.ExactQ lost) as (B & _ & E & _);
    [reflexivity | reflexivity |].
  split; split.
  - rewrite A. vm_compute. reflexivity.
  - rewrite L. reflexivity.
  - rewrite B. vm_compute. reflexivity.
  - rewrite E by (vm_compute; reflexivity). reflexivity.
Defined.

(** ** A successful refresh shows the image and caches it *)


Lemma hasCachedContent_run s :
  Cache.hasCachedContent s
  = (sdCardAvailable (hw s) && nonempty (lastImageFilename (client s))
     && bool_decide (is_Some (View.cached (lastImageFilename (client s)) s)), s).
Proof.
  unfold Cache.hasCachedContent, Cache.isCacheValid, Storage.fileExists, Hw.isSDCardAvailable,
    View.cached.
  rewrite bind_run. change (fst (getH sdCardAvailable s)) with (sdCardAvailable (hw s)).
  change (snd (getH sdCardAvailable s)) with s.
  destruct (sdCardAvailable (hw s)) eqn:Hsd; cbn [negb andb]; [| reflexivity].
  rewrite bind_run. change (fst (getC lastImageFilename s)) with (lastImageFilename (client s)).
  change (snd (getC lastImageFilename s)) with s.
  destruct (nonempty (lastImageFilename (client s))); cbn [negb andb]; [| reflexivity].
  msimpl. rewrite Hsd. cbn [negb]. rewrite Hsd. reflexivity.
Qed.




(** ** Text screens *)

Lemma printCmds_run cs s :
  Hw.printCmds cs s
  = (tt, {| client := client s;
            hw := set_trace (trace (hw s) ++ View.textEvents cs) (hw s) |}).
Proof.
  revert s. induction cs as [| c cs IH]; intros s.
  - simpl. unfold View.textEvents. simpl. rewrite app_nil_r.
    destruct s as [c h]; destruct h; reflexivity.
  - cbn [Hw.printCmds]. rewrite bind_run. unfold Hw.printCmd. msimpl.
    rewrite IH. msimpl. unfold View.textEvents. cbn [map concat].
    rewrite <- !app_assoc. reflexivity.
Qed.

Lemma textPages_run cs extra s :
  text_cmds (hw s) = cs ->
  pagedLoop extra (epd FillScreenWhite ;;
                   cs ← getH text_cmds;
                   Hw.printCmds cs ;;
                   mret true) s
  = (tt, {| client := client s;
            hw := set_trace (trace (hw s)
                             ++ concat (replicate (S extra)
                                  (EvEpd FillScreenWhite :: View.textEvents cs
                                   ++ [EvEpd NextPage]))) (hw s) |}).
Proof.
  revert s. induction extra as [| k IH]; intros s Hq.
  - cbn [pagedLoop]. rewrite bind_run. rewrite bind_run. msimpl.
    rewrite printCmds_run. msimpl. rewrite Hq. cbn [replicate concat].
    rewrite app_nil_r. repeat (rewrite <- ?app_assoc; cbn [app]). reflexivity.
  - change (pagedLoop (S k) ?b) with
      (continue ← b; if continue : bool then epd NextPage ;; pagedLoop k b else mret tt).
    rewrite bind_run. rewrite bind_run. msimpl.
    rewrite printCmds_run. msimpl. rewrite Hq.
    rewrite IH by exact Hq. msimpl.
    change (replicate (S (S k)) ?x) with (x :: replicate (S k) x).
    cbn [concat]. repeat (rewrite <- ?app_assoc; cbn [app]). reflexivity.
Qed.

Lemma updateDisplay_run s :
  Hw.updateDisplay s
  = (tt, {| client := client s;
            hw := set_text_cmds []
                    (set_trace (trace (hw s)
                                ++ View.textFrame (text_cmds (hw s)) (extraPages (env (hw s))))
                               (hw s)) |}).
Proof.
  unfold Hw.updateDisplay. rewrite !bind_run.
  rewrite (textPages_run (text_cmds (hw s))) by reflexivity. msimpl.
  unfold View.textFrame. repeat (rewrite <- ?app_assoc; cbn [app]). reflexivity.
Qed.

Lemma displayText_run text x y size s :
  Hw.displayText text x y size s
  = (tt, if Z.of_nat (length (text_cmds (hw s))) <? 16
         then {| client := client s;
                 hw := set_text_cmds
                         (text_cmds (hw s)
                          ++ [ {| tc_text := text; tc_x := x; tc_y := y; tc_size := size |} ])
                         (hw s) |}
         else s).
Proof.
  unfold Hw.displayText. msimpl.
  destruct (Z.of_nat (length (text_cmds (hw s))) <? 16); reflexivity.
Qed.

(** X14: [updateDisplay] draws the queued texts, in the order they
    were queued, once on every page of the panel - cursor, size, text
    for each - between a white fill and the page turn, and leaves the
    queue empty.  [displayText] on a queue of 16 entries changes
    nothing: the text is dropped. *)
Theorem X14_text_screen (s : Sys.t) (text : string) (x y size : Z) :
  let s' := run Hw.updateDisplay s in
  trace (hw s')
    = trace (hw s) ++ View.textFrame (text_cmds (hw s)) (extraPages (env (hw s)))
  /\ text_cmds (hw s') = []
  /\ (length (text_cmds (hw s)) = 16%nat -> Hw.displayText text x y size s = (tt, s))
  /\ ((length (text_cmds (hw s)) < 16)%nat ->
      text_cmds (hw (run (Hw.displayText text x y size) s))
      = text_cmds (hw s) ++ [ {| tc_text := text; tc_x := x; tc_y := y; tc_size := size |} ]).
Proof.
  cbv zeta. unfold run. rewrite updateDisplay_run, displayText_run. cbn [fst snd].
  split; [reflexivity |]. split; [reflexivity |]. split.
  - intros Hfull. rewrite Hfull. reflexivity.
  - intros Hroom.
    destruct (Z.ltb_spec (Z.of_nat (length (text_cmds (hw s)))) 16); [reflexivity | lia].
Qed.

Lemma X14_text_screen_witness :
  let full := {| client := client Bench.factory;
                 hw := set_text_cmds
                         (replicate 16 {| tc_text := "x"; tc_x := 0; tc_y := 0; tc_size := 1 |})
                         (hw Bench.factory) |} in
  Hw.displayText "late" 0 0 1 full = (tt, full)
  /\ text_cmds (hw (run (Hw.displayText "first" 0 0 1) Bench.factory))
     = [ {| tc_text := "first"; tc_x := 0; tc_y := 0; tc_size := 1 |} ].
Proof.
  intros full.
  destruct (X14_text_screen full "late" 0 0 1) as (_ & _ & A & _).
  destruct (X14_text_screen Bench.factory "first" 0 0 1) as (_ & _ & _ & B).
  split; [apply A; reflexivity | apply B; simpl; lia].
Defined.

(** ** Start-up *)

Lemma printed_textEvents cs : printed (View.textEvents cs) = map tc_text cs.
Proof.
  induction cs as [| c cs IH]; [reflexivity |].
  unfold View.textEvents in *. cbn [map concat]. unfold printed in *.
  rewrite omap_app, IH. reflexivity.
Qed.

Lemma printed_textFrame cs extra :
  printed (View.textFrame cs extra) = concat (replicate (S extra) (map tc_text cs)).
Proof.
  unfold View.textFrame.
  change (printed (EvEpd FirstPage :: ?l)) with (printed l).
  induction extra as [| k IH].
  - cbn [replicate concat]. rewrite !app_nil_r.
    change (printed (EvEpd FillScreenWhite :: ?l)) with (printed l).
    unfold printed. rewrite omap_app. fold (printed (View.textEvents cs)).
    rewrite printed_textEvents. cbn. apply app_nil_r.
  - change (replicate (S (S k)) ?x) with (x :: replicate (S k) x).
    cbn [concat]. unfold printed in *. rewrite omap_app, IH.
    f_equal.
    change (omap ?f (EvEpd FillScreenWhite :: ?l)) with (omap f l).
    rewrite omap_app. fold (printed (View.textEvents cs)).
    rewrite printed_textEvents. cbn. apply app_nil_r.
Qed.

Lemma httpGets_textFrame cs extra : httpGets (View.textFrame cs extra) = [].
Proof.
  assert (Hev : httpGets (View.textEvents cs) = []).
  { induction cs as [| c cs IH]; [reflexivity |].
    unfold View.textEvents in *. cbn [map concat]. unfold httpGets in *.
    rewrite omap_app, IH. reflexivity. }
  unfold View.textFrame.
  change (httpGets (EvEpd FirstPage :: ?l)) with (httpGets l).
  induction extra as [| k IH].
  - cbn [replicate concat]. rewrite !app_nil_r.
    change (httpGets (EvEpd FillScreenWhite :: ?l)) with (httpGets l).
    unfold httpGets in *. rewrite omap_app, Hev. reflexivity.
  - change (replicate (S (S k)) ?x) with (x :: replicate (S k) x).
    cbn [concat]. unfold httpGets in *. rewrite omap_app, IH.
    change (omap ?f (EvEpd FillScreenWhite :: ?l)) with (omap f l).
    rewrite omap_app, Hev. reflexivity.
Qed.

Lemma loadDeviceInfo_hw s : hw (snd (Client.loadDeviceInfo s)) = hw s.
Proof.
  unfold Client.loadDeviceInfo, Client.isDeviceRegistered, Hw.loadString, Hw.loadInt.
  msimpl.
  destruct (TRMNL_API_KEY (build (env (hw s))));
    destruct (CUSTOM_FRIENDLY_ID (build (env (hw s)))); reflexivity.
Qed.

Lemma loadDeviceInfo_registered s :
  fst (Client.loadDeviceInfo s)
  = nonempty (apiKey (client (snd (Client.loadDeviceInfo s))))
    && nonempty (friendlyId (client (snd (Client.loadDeviceInfo s)))).
Proof.
  unfold Client.loadDeviceInfo, Client.isDeviceRegistered, Hw.loadString, Hw.loadInt.
  msimpl.
  destruct (TRMNL_API_KEY (build (env (hw s))));
    destruct (CUSTOM_FRIENDLY_ID (build (env (hw s)))); reflexivity.
Qed.

Lemma hasWiFiCredentials_run s :
  Cache.hasWiFiCredentials s = (fst (Cache.hasWiFiCredentials s), s).
Proof.
  unfold Cache.hasWiFiCredentials, Client.loadCredentials, Hw.loadString. msimpl.
  destruct (WIFI_SSID (build (env (hw s)))); reflexivity.
Qed.

Lemma displayText_room text x y size s :
  (length (text_cmds (hw s)) < 16)%nat ->
  Hw.displayText text x y size s
  = (tt, {| client := client s;
            hw := set_text_cmds
                    (text_cmds (hw s)
                     ++ [ {| tc_text := text; tc_x := x; tc_y := y; tc_size := size |} ])
                    (hw s) |}).
Proof.
  intros Hroom. rewrite displayText_run.
  destruct (Z.ltb_spec (Z.of_nat (length (text_cmds (hw s)))) 16); [reflexivity | lia].
Qed.

Ltac queue_text E Hhw Hq :=
  rewrite bind_run in E;
  rewrite displayText_room in E by (msimpl; rewrite Hhw, Hq; simpl; lia);
  cbn [fst snd] in E.

Ltac draw_screen E :=
  rewrite updateDisplay_run in E; cbn [fst snd] in E.

Ltac read_screen Hhw Hq :=
  msimpl; rewrite Hhw, Hq; cbn [app];
  unfold printed, httpGets; rewrite !omap_app;
  match goal with
  | |- context [View.textFrame ?cs ?e] =>
      fold (printed (View.textFrame cs e)); fold (httpGets (View.textFrame cs e));
      rewrite (printed_textFrame cs e), (httpGets_textFrame cs e)
  end;
  cbn [omap app]; rewrite ?app_nil_r;
  repeat split; reflexivity.

(** X15: start-up.  After [begin] has loaded the device record, the
    start-up sequence leaves the device in WiFi set-up when no SSID is
    known, in device set-up when an SSID is known but the record lacks
    an id, and operational otherwise; it shows the matching screen on
    every page of the panel, makes no HTTP request, and leaves the text
    queue empty. *)
Theorem X15_startup_classification (s : Sys.t) :
  text_cmds (hw s) = [] ->
  let s' := run (Cache.begin ;; Boot.performStartupSequence) s in
  let creds := result Cache.hasWiFiCredentials s in
  let reg := result Client.loadDeviceInfo s in
  let screen :=
    if negb creds then
      (STATE_WIFI_SETUP,
       ["WiFi Setup Required"; "Connect to paperdink-setup"; "to configure WiFi"])
    else if negb reg then (STATE_DEVICE_SETUP, ["Device Setup"; "Registering with TRMNL..."])
    else (STATE_OPERATIONAL, ["Ready"; "paperd.ink TRMNL"]) in
  currentState (client s') = fst screen
  /\ printed (trace (hw s'))
     = printed (trace (hw s)) ++ concat (replicate (S (extraPages (env (hw s)))) (snd screen))
  /\ httpGets (trace (hw s')) = httpGets (trace (hw s))
  /\ text_cmds (hw s') = [].
Proof.
  intros Hq. cbv zeta. unfold run, result.
  remember (snd ((Cache.begin ;; Boot.performStartupSequence) s)) as s' eqn:E.
  rewrite bind_run in E. unfold Cache.begin in E.
  rewrite !bind_run in E.
  pose proof (loadDeviceInfo_hw s) as Hhw.
  pose proof (loadDeviceInfo_registered s) as Hreg.
  destruct (Client.loadDeviceInfo s) as [reg s0]. cbn [fst snd] in *.
  unfold Client.setState in E at 1. rewrite !ret_run in E. cbn [fst snd] in E.
  change (snd (modC (set_currentState STATE_UNINITIALIZED) s0))
    with {| client := set_currentState STATE_UNINITIALIZED (client s0); hw := hw s0 |} in E.
  remember {| client := set_currentState STATE_UNINITIALIZED (client s0); hw := hw s0 |}
    as s1 eqn:Es1.
  assert (Hhw1 : hw s1 = hw s) by (subst s1; exact Hhw).
  assert (Hk1 : apiKey (client s1) = apiKey (client s0)) by (subst s1; reflexivity).
  assert (Hf1 : friendlyId (client s1) = friendlyId (client s0)) by (subst s1; reflexivity).
  clear Es1 Hhw.
  assert (Hcred : fst (Cache.hasWiFiCredentials s1) = fst (Cache.hasWiFiCredentials s)).
  { destruct s1 as [c1 h1], s as [c h]. cbn [hw] in Hhw1. subst h1.
    unfold Cache.hasWiFiCredentials, Client.loadCredentials, Hw.loadString. msimpl.
    destruct (WIFI_SSID (build (env h))); reflexivity. }
  unfold Boot.performStartupSequence in E.
  rewrite bind_run in E. rewrite (hasWiFiCredentials_run s1) in E. cbn [fst snd] in E.
  rewrite Hcred in E.
  destruct (fst (Cache.hasWiFiCredentials s)); cbn [negb] in *.
  - rewrite bind_run in E.
    assert (Hr : Client.isDeviceRegistered s1 = (reg, s1)).
    { unfold Client.isDeviceRegistered. msimpl. rewrite Hreg, Hk1, Hf1. reflexivity. }
    rewrite Hr in E. cbn [fst snd] in E. clear Hr.
    destruct reg; cbn [negb fst snd] in *.
    + unfold Client.setState in E. rewrite bind_run in E.
      cbv beta delta [modC] in E. cbn [fst snd] in E.
      queue_text E Hhw1 Hq. queue_text E Hhw1 Hq.
      rewrite bind_run in E. draw_screen E.
      subst s'. read_screen Hhw1 Hq.
    + unfold Client.setState in E. rewrite bind_run in E.
      cbv beta delta [modC] in E. cbn [fst snd] in E.
      queue_text E Hhw1 Hq. queue_text E Hhw1 Hq.
      draw_screen E.
      subst s'. read_screen Hhw1 Hq.
  - unfold Client.setState in E. rewrite bind_run in E.
    cbv beta delta [modC] in E. cbn [fst snd] in E.
    queue_text E Hhw1 Hq. queue_text E Hhw1 Hq. queue_text E Hhw1 Hq.
    draw_screen E.
    subst s'. read_screen Hhw1 Hq.
Qed.


Lemma X15_startup_classification_witness :
  let boot := Cache.begin ;; Boot.performStartupSequence in
  currentState (client (run boot Bench.factory)) = STATE_WIFI_SETUP
  /\ currentState (client (run boot (Bench.unregistered []))) = STATE_DEVICE_SETUP
  /\ currentState (client (run boot (Bench.offline "a.png" ∅))) = STATE_OPERATIONAL
  /\ printed (trace (hw (run boot (Bench.offline "a.png" ∅)))) = ["Ready"; "paperd.ink TRMNL"].
Proof.
  intros boot. subst boot.
  destruct (X15_startup_classification Bench.factory) as (A & _); [reflexivity |].
  destruct (X15_startup_classification (Bench.unregistered [])) as (B & _); [reflexivity |].
  destruct (X15_startup_classification (Bench.offline "a.png" ∅)) as (C & D & _);
    [reflexivity |].
  split; [rewrite A; vm_compute; reflexivity |].
  split; [rewrite B; vm_compute; reflexivity |].
  split; [rewrite C; vm_compute; reflexivity |].
  rewrite D. vm_compute. reflexivity.
Defined.

(** ** The 1-bit line built for a decoded scanline *)

Lemma nth_alter_eq {A} (f : A -> A) (l : list A) (i : nat) (d : A) :
  (i < length l)%nat -> nth i (alter f i l) d = f (nth i l d).
Proof.
  intros Hi. rewrite !nth_lookup, list_lookup_alter_eq.
  destruct (lookup_lt_is_Some_2 l i Hi) as [a ->]. reflexivity.
Qed.

Lemma nth_alter_ne {A} (f : A -> A) (l : list A) (i j : nat) (d : A) :
  i <> j -> nth j (alter f i l) d = nth j l d.
Proof.
  intros Hne. rewrite !nth_lookup, list_lookup_alter_ne by exact Hne. reflexivity.
Qed.

(** the mask of column [d] has every bit of its byte set but [d]'s *)
Lemma mask_bit (d j : Z) :
  0 <= d -> 0 <= j < 8 ->
  Z.testbit (to_uint8 (Z.lnot (Z.shiftr 128 (Z.land d 7)))) j = negb (j + d mod 8 =? 7).
Proof.
  intros Hd Hj. unfold to_uint8.
  change 256 with (2 ^ 8). rewrite Z.mod_pow2_bits_low by lia.
  rewrite Z.lnot_spec by lia. f_equal.
  change 7 with (Z.ones 3) at 1. rewrite Z.land_ones by lia. change (2 ^ 3) with 8.
  assert (0 <= d mod 8 < 8) by (apply Z.mod_pos_bound; lia).
  rewrite Z.shiftr_spec by lia.
  change 128 with (2 ^ 7). rewrite Z.pow2_bits_eqb by lia.
  apply Z.eqb_sym.
Qed.

Lemma clear_pixel (bits : list Z) (d x : Z) :
  0 <= d -> 0 <= x ->
  (Z.to_nat (d / 8) < length bits)%nat ->
  View.pixel (alter (fun b => Z.land b (to_uint8 (Z.lnot (Z.shiftr 128 (Z.land d 7)))))
                    (Z.to_nat (Z.shiftr d 3)) bits) x
  = if x =? d then false else View.pixel bits x.
Proof.
  intros Hd Hx Hlen. unfold View.pixel.
  rewrite (Z.shiftr_div_pow2 d 3) by lia. change (2 ^ 3) with 8.
  assert (Hxm : 0 <= x mod 8 < 8) by (apply Z.mod_pos_bound; lia).
  assert (Hdm : 0 <= d mod 8 < 8) by (apply Z.mod_pos_bound; lia).
  pose proof (Z.div_mod x 8 ltac:(lia)) as Ex.
  pose proof (Z.div_mod d 8 ltac:(lia)) as Ed.
  assert (0 <= x / 8) by (apply Z.div_pos; lia).
  assert (0 <= d / 8) by (apply Z.div_pos; lia).
  destruct (Z.eq_dec (x / 8) (d / 8)) as [Hq | Hq].
  - rewrite Hq, nth_alter_eq by exact Hlen.
    rewrite Z.land_spec, mask_bit by lia.
    destruct (Z.eqb_spec x d) as [-> | Hne].
    + replace (7 - d mod 8 + d mod 8 =? 7) with true by (symmetry; apply Z.eqb_eq; lia).
      apply andb_false_r.
    + replace (7 - x mod 8 + d mod 8 =? 7) with false by (symmetry; apply Z.eqb_neq; lia).
      apply andb_true_r.
  - rewrite nth_alter_ne by lia.
    destruct (Z.eqb_spec x d) as [-> | Hne]; [contradiction | reflexivity].
Qed.

Section Line.
Context (fl : FloatOps).

Lemma plot_inked (ctx : Hw.PngDrawContext fl) srcW line bits dx :
  Hw.plot fl ctx srcW line bits dx
  = if (0 <=? Hw.x0 fl ctx + dx) && (Hw.x0 fl ctx + dx <? DISPLAY_WIDTH)
       && View.inked fl ctx srcW line dx
    then alter (fun b => Z.land b (to_uint8 (Z.lnot (Z.shiftr 128
                                      (Z.land (Hw.x0 fl ctx + dx) 7)))))
               (Z.to_nat (Z.shiftr (Hw.x0 fl ctx + dx) 3)) bits
    else bits.
Proof. reflexivity. Qed.

Lemma plot_length (ctx : Hw.PngDrawContext fl) srcW line bits dx :
  length (Hw.plot fl ctx srcW line bits dx) = length bits.
Proof.
  rewrite plot_inked. destruct (_ && _); [apply length_alter | reflexivity].
Qed.

Lemma plots_spec (ctx : Hw.PngDrawContext fl) srcW line (n : nat) :
  let bits := fold_left (Hw.plot fl ctx srcW line) (seqZ 0 (Z.of_nat n))
                        (replicate (Z.to_nat ((DISPLAY_WIDTH + 7) / 8)) 255) in
  length bits = 50%nat
  /\ forall x, 0 <= x < DISPLAY_WIDTH ->
       View.pixel bits x
       = negb ((Hw.x0 fl ctx <=? x) && (x <? Hw.x0 fl ctx + Z.of_nat n)
               && View.inked fl ctx srcW line (x - Hw.x0 fl ctx)).
Proof.
  cbv zeta. induction n as [| n [IHlen IHpix]].
  - split; [reflexivity |]. intros x Hx. unfold DISPLAY_WIDTH in Hx.
    change (seqZ 0 (Z.of_nat 0)) with (@nil Z). cbn [fold_left].
    replace ((Hw.x0 fl ctx <=? x) && (x <? Hw.x0 fl ctx + Z.of_nat 0)) with false
      by (symmetry; apply andb_false_iff; destruct (Z.leb_spec (Hw.x0 fl ctx) x);
          [right; apply Z.ltb_ge; lia | left; reflexivity]).
    cbn [andb negb]. unfold View.pixel.
    assert (0 <= x / 8 < 50) by (split; [apply Z.div_pos; lia | apply Z.div_lt_upper_bound; lia]).
    assert (0 <= x mod 8 < 8) by (apply Z.mod_pos_bound; lia).
    change (Z.to_nat ((DISPLAY_WIDTH + 7) / 8)) with 50%nat.
    rewrite nth_lookup, lookup_replicate_2 by lia.
    cbn [default from_option id].
    change 255 with (Z.ones 8). apply Z.ones_spec_low. lia.
  - rewrite Nat2Z.inj_succ, <- Z.add_1_r.
    rewrite seqZ_app by lia. rewrite fold_left_app.
    change (seqZ (0 + Z.of_nat n) 1) with [0 + Z.of_nat n]. rewrite Z.add_0_l.
    cbn [fold_left].
    set (bits := fold_left (Hw.plot fl ctx srcW line) (seqZ 0 (Z.of_nat n)) _) in *.
    split; [rewrite plot_length; exact IHlen |].
    intros x Hx. specialize (IHpix x Hx). unfold DISPLAY_WIDTH in *.
    rewrite plot_inked. unfold DISPLAY_WIDTH.
    destruct (Z.leb_spec 0 (Hw.x0 fl ctx + Z.of_nat n));
      destruct (Z.ltb_spec (Hw.x0 fl ctx + Z.of_nat n) 400); cbn [andb];
      try (rewrite IHpix;
           destruct (Z.leb_spec (Hw.x0 fl ctx) x); cbn [andb]; [| reflexivity];
           destruct (Z.ltb_spec x (Hw.x0 fl ctx + Z.of_nat n));
           destruct (Z.ltb_spec x (Hw.x0 fl ctx + (Z.of_nat n + 1))); try lia; reflexivity).
    destruct (View.inked fl ctx srcW line (Z.of_nat n)) eqn:Hink.
    + rewrite clear_pixel;
        [| lia | lia
         | rewrite IHlen; apply Nat2Z.inj_lt; rewrite Z2Nat.id by (apply Z.div_pos; lia);
           apply Z.div_lt_upper_bound; lia].
      destruct (Z.eqb_spec x (Hw.x0 fl ctx + Z.of_nat n)) as [-> | Hne].
      * replace (Hw.x0 fl ctx + Z.of_nat n - Hw.x0 fl ctx) with (Z.of_nat n) by lia.
        rewrite Hink.
        destruct (Z.leb_spec (Hw.x0 fl ctx) (Hw.x0 fl ctx + Z.of_nat n)); [| lia].
        destruct (Z.ltb_spec (Hw.x0 fl ctx + Z.of_nat n) (Hw.x0 fl ctx + (Z.of_nat n + 1)));
          [reflexivity | lia].
      * rewrite IHpix.
        destruct (Z.leb_spec (Hw.x0 fl ctx) x); cbn [andb]; [| reflexivity].
        destruct (Z.ltb_spec x (Hw.x0 fl ctx + Z.of_nat n));
          destruct (Z.ltb_spec x (Hw.x0 fl ctx + (Z.of_nat n + 1))); try lia; reflexivity.
    + rewrite IHpix.
      destruct (Z.leb_spec (Hw.x0 fl ctx) x); cbn [andb]; [| reflexivity].
      destruct (Z.ltb_spec x (Hw.x0 fl ctx + Z.of_nat n));
        destruct (Z.ltb_spec x (Hw.x0 fl ctx + (Z.of_nat n + 1))); try lia; try reflexivity.
      replace (x - Hw.x0 fl ctx) with (Z.of_nat n) by lia. rewrite Hink. reflexivity.
Qed.

Lemma buildLine_length (ctx : Hw.PngDrawContext fl) srcW line :
  length (Hw.buildLine fl ctx srcW line) = 50%nat.
Proof.
  unfold Hw.buildLine.
  destruct (Z.le_gt_cases 0 (Hw.tW fl ctx)) as [Hpos | Hneg].
  - rewrite <- (Z2Nat.id (Hw.tW fl ctx)) by exact Hpos. apply plots_spec.
  - unfold seqZ. replace (Z.to_nat (Hw.tW fl ctx)) with 0%nat by lia. reflexivity.
Qed.

Lemma buildLine_pixel (ctx : Hw.PngDrawContext fl) srcW line x :
  0 <= x < DISPLAY_WIDTH ->
  View.pixel (Hw.buildLine fl ctx srcW line) x
  = negb ((Hw.x0 fl ctx <=? x) && (x <? Hw.x0 fl ctx + Hw.tW fl ctx)
          && View.inked fl ctx srcW line (x - Hw.x0 fl ctx)).
Proof.
  intros Hx.
  unfold Hw.buildLine.
  destruct (Z.le_gt_cases 0 (Hw.tW fl ctx)) as [Hpos | Hneg].
  - rewrite <- (Z2Nat.id (Hw.tW fl ctx)) at 1 by exact Hpos.
    destruct (plots_spec ctx srcW line (Z.to_nat (Hw.tW fl ctx))) as [_ Hpix].
    rewrite (Hpix x Hx). rewrite Z2Nat.id by exact Hpos. reflexivity.
  - destruct (plots_spec ctx srcW line 0) as [_ Hpix].
    unfold seqZ in *. replace (Z.to_nat (Hw.tW fl ctx)) with 0%nat by lia.
    change (Z.to_nat (Z.of_nat 0)) with 0%nat in Hpix.
    rewrite (Hpix x Hx).
    destruct (Z.leb_spec (Hw.x0 fl ctx) x); cbn [andb]; [| reflexivity].
    destruct (Z.ltb_spec x (Hw.x0 fl ctx + Z.of_nat 0));
      destruct (Z.ltb_spec x (Hw.x0 fl ctx + Hw.tW fl ctx)); try lia; reflexivity.
Qed.

End Line.

(** X16: the line that the PNG draw callback builds for a scanline
    has the 50 bytes of a 400-pixel row, and its pixel at column x
    (most significant bit first) is black exactly when x lies in the
    image's span [x0, x0 + tW) and the source pixel sampled for column
    x - x0 counts as black; every column outside the span stays
    white. *)
Theorem X16_buildLine_pixels (fl : FloatOps) (ctx : Hw.PngDrawContext fl) (srcW : Z)
        (line565 : list Z) (x : Z) :
  0 <= x < DISPLAY_WIDTH ->
  length (Hw.buildLine fl ctx srcW line565) = 50%nat
  /\ View.pixel (Hw.buildLine fl ctx srcW line565) x
     = negb ((Hw.x0 fl ctx <=? x) && (x <? Hw.x0 fl ctx + Hw.tW fl ctx)
             && View.inked fl ctx srcW line565 (x - Hw.x0 fl ctx)).
Proof.
  intros Hx. split; [apply buildLine_length | apply buildLine_pixel; exact Hx].
Qed.

Lemma X16_buildLine_pixels_witness :
  let ctx := {| Hw.x0 := 0; Hw.y0 := 50; Hw.tW := 400; Hw.tH := 200;
                Hw.sX := inject_Z 200 : flt Scenario.ExactQ;
                Hw.sY := inject_Z 200 : flt Scenario.ExactQ;
                Hw.invert := false |} in
  View.pixel (Hw.buildLine Scenario.ExactQ ctx 2 [0; 65535]) 0 = false
  /\ View.pixel (Hw.buildLine Scenario.ExactQ ctx 2 [0; 65535]) 399 = true.
Proof.
  intros ctx.
  destruct (X16_buildLine_pixels Scenario.ExactQ ctx 2 [0; 65535] 0) as [_ A];
    [unfold DISPLAY_WIDTH; lia |].
  destruct (X16_buildLine_pixels Scenario.ExactQ ctx 2 [0; 65535] 399) as [_ B];
    [unfold DISPLAY_WIDTH; lia |].
  split; [rewrite A | rewrite B]; vm_compute; reflexivity.
Defined.

(** ** The PNG path draws full lines inside the frame *)

Lemma linesOnly_refl s : View.linesOnly s s.
Proof. exists []. split; [symmetry; apply app_nil_r | reflexivity]. Qed.

Lemma linesOnly_trans a b c : View.linesOnly a b -> View.linesOnly b c -> View.linesOnly a c.
Proof.
  intros (x & Hx & Px) (y & Hy & Py). exists (x ++ y). split.
  - rewrite Hy, Hx. symmetry. apply app_assoc.
  - rewrite forallb_app, Px, Py. reflexivity.
Qed.

(** a primitive that sends no bitmap *)
Ltac no_bitmap :=
  let s := fresh "s" in
  intros s; exists []; split; [| reflexivity];
  unfold View.bitmaps; msimpl; trace_simpl; symmetry; apply app_nil_r.

Ltac lines_step prim :=
  lazymatch goal with
  | |- follows View.linesOnly (mret _) => apply (follows_ret View.linesOnly linesOnly_refl)
  | |- follows View.linesOnly (getH _) => apply (follows_getH View.linesOnly linesOnly_refl)
  | |- follows View.linesOnly (getE _) => apply (follows_getE View.linesOnly linesOnly_refl)
  | |- follows View.linesOnly (_ ≫= _) =>
      apply (follows_bind View.linesOnly linesOnly_trans); [| intros ?]
  | |- follows View.linesOnly (pagedLoop _ _) =>
      apply (follows_pagedLoop View.linesOnly linesOnly_refl linesOnly_trans)
  | |- follows View.linesOnly (if ?b then _ else _) => destruct b
  | |- follows View.linesOnly (match ?x with _ => _ end) => destruct x
  | |- follows View.linesOnly _ => prim
  end.

Ltac lines prim := repeat (lines_step prim).

Lemma printCmds_lines cs : follows View.linesOnly (Hw.printCmds cs).
Proof.
  induction cs as [| c cs IH]; simpl.
  - apply (follows_ret View.linesOnly linesOnly_refl).
  - apply (follows_bind View.linesOnly linesOnly_trans); [| intros _; exact IH].
    unfold Hw.printCmd. lines ltac:(idtac; no_bitmap).
Qed.

Lemma drawRows_lines bits dys :
  length bits = 50%nat -> follows View.linesOnly (Hw.drawRows bits dys).
Proof.
  intros Hlen. induction dys as [| dy rest IH]; simpl.
  - apply (follows_ret View.linesOnly linesOnly_refl).
  - apply (follows_bind View.linesOnly linesOnly_trans); [| intros _; exact IH].
    destruct (Z.ltb_spec dy 0); cbn [orb];
      [apply (follows_ret View.linesOnly linesOnly_refl) |].
    destruct (Z.leb_spec DISPLAY_HEIGHT dy);
      [apply (follows_ret View.linesOnly linesOnly_refl) |].
    intros s. exists [(0, dy, bits, DISPLAY_WIDTH, 1)]. split.
    + unfold View.bitmaps. msimpl. erewrite omap_snoc_some by reflexivity. reflexivity.
    + cbn [forallb View.panelLine]. rewrite Hlen.
      destruct (Z.leb_spec 0 dy); [| lia].
      destruct (Z.ltb_spec dy DISPLAY_HEIGHT); [| lia]. reflexivity.
Qed.

Lemma decodeLines_lines fl ctx iWidth y lines final :
  follows View.linesOnly (Hw.decodeLines fl ctx iWidth y lines final).
Proof.
  revert y. induction lines as [| l rest IH]; intros y; simpl.
  - apply (follows_ret View.linesOnly linesOnly_refl).
  - unfold Hw.pngDrawToEPD.
    lines ltac:(first [ apply IH
                      | apply drawRows_lines; apply buildLine_length
                      | no_bitmap ]).
Qed.

(** X17: whatever the PNG is, whatever the scale and the offsets
    computed for it, the PNG path of [displayImage] sends the panel
    only bitmaps that are one full row: at x = 0, 400 wide, 1 high,
    50 bytes of data, on a row y with 0 <= y < 300.  Scanline rows that
    fall outside the frame are skipped. *)
Theorem X17_png_path_draws_rows (fl : FloatOps) (data : list Z) (s : Sys.t) :
  Z.of_nat (length data) <> DISPLAY_WIDTH * DISPLAY_HEIGHT / 8 ->
  View.linesOnly s (run (Hw.displayImage fl (Some data)) s).
Proof.
  intros Hraw. unfold run. revert s.
  change (follows View.linesOnly (Hw.displayImage fl (Some data))).
  unfold Hw.displayImage.
  destruct (Z.of_nat (length data) =? 0);
    [apply (follows_ret View.linesOnly linesOnly_refl) |].
  apply (follows_bind View.linesOnly linesOnly_trans);
    [apply (follows_getE View.linesOnly linesOnly_refl) | intros pages].
  destruct (Z.eqb_spec (Z.of_nat (length data)) (DISPLAY_WIDTH * DISPLAY_HEIGHT / 8));
    [contradiction |].
  unfold Hw.png_openRAM, Hw.png_decode, Hw.clearDisplay, Hw.displayText, Hw.updateDisplay.
  lines ltac:(first [ apply printCmds_lines | apply decodeLines_lines | no_bitmap ]).
Qed.

Lemma X17_png_path_draws_rows_witness :
  let s := Scenario.device STATE_OPERATIONAL 1800 (Some 0) Scenario.tinyPng [] in
  View.linesOnly s (run (Hw.displayImage Scenario.ExactQ (Some [137; 80; 78; 71])) s)
  /\ length (View.bitmaps
               (trace (hw (run (Hw.displayImage Scenario.ExactQ (Some [137; 80; 78; 71])) s))))
     = 200%nat.
Proof.
  intros s. split.
  - apply X17_png_path_draws_rows. vm_compute. discriminate.
  - vm_compute. reflexivity.
Defined.

(** ** A refresh that is due: update, then sleep or fall back *)

Ltac settled_prim := unfold View.settled, Main.sleeps; untouched.

Lemma http_GET_settled url headers : keeps View.settled (Client.http_GET url headers).
Proof.
  intros s. unfold Client.http_GET, View.settled, Main.sleeps. msimpl.
  destruct (net (hw s)); msimpl; trace_simpl; reflexivity.
Qed.

Lemma readStream_settled polls maxSize buf :
  keeps View.settled (Client.readStream polls maxSize buf).
Proof.
  revert buf. induction polls as [| c rest IH]; intros buf; simpl.
  - apply keeps_ret.
  - frame ltac:(first [ apply IH | settled_prim ]).
Qed.

Lemma displayAttempts_settled fuel attempt last url headers :
  keeps View.settled (Client.displayAttempts fuel attempt last url headers).
Proof.
  revert attempt last. induction fuel as [| k IH]; intros attempt last; simpl.
  - apply keeps_ret.
  - frame ltac:(first [ apply http_GET_settled | apply IH | settled_prim ]).
Qed.

Lemma downloadImageAutoAlloc_settled url out :
  keeps View.settled (Client.downloadImageAutoAlloc url out).
Proof.
  unfold Client.downloadImageAutoAlloc, Client.isWiFiConnected, Hw.getFreeHeap,
    Client.malloc, Client.free.
  frame ltac:(first [ apply http_GET_settled | apply readStream_settled | settled_prim ]).
Qed.

Lemma displayImage_settled fl img : keeps View.settled (Hw.displayImage fl img).
Proof.
  intros s. pose proof (displayImage_panel fl img s) as H.
  unfold View.panelFrame in H. unfold View.settled.
  remember (snd (Hw.displayImage fl img s)) as s1 eqn:E. clear E. congruence.
Qed.

Lemma cacheImage_settled name data : keeps View.settled (Client.cacheImage name data).
Proof.
  unfold Client.cacheImage, Hw.isSDCardAvailable, Hw.writeFile.
  frame ltac:(idtac; settled_prim).
Qed.

(** past the display call, a refresh settles nothing more *)
Lemma updateContent_settled fl s :
  wifiConnected (hw s) = true ->
  View.settled (snd (Client.updateContent fl s))
  = View.settled (snd (Client.callDisplayAPI Client.fresh_DisplayResponse s)).
Proof.
  intros Hwifi. unfold Client.updateContent, Client.isWiFiConnected.
  rewrite bind_run. change (fst (getH wifiConnected s)) with (wifiConnected (hw s)).
  change (snd (getH wifiConnected s)) with s. rewrite Hwifi. cbn [negb].
  rewrite bind_run.
  destruct (Client.callDisplayAPI Client.fresh_DisplayResponse s) as [[ok response] s1].
  cbn [fst snd].
  match goal with
  | |- View.settled (snd (?m s1)) = _ => revert s1; change (keeps View.settled m)
  end.
  unfold Client.free.
  frame ltac:(first [ apply downloadImageAutoAlloc_settled | apply displayImage_settled
                    | apply cacheImage_settled | settled_prim ]).
Qed.

Lemma callDisplayAPI_settles dr s doc :
  wifiConnected (hw s) = true ->
  nonempty (apiKey (client s)) = true ->
  code (fst (displayAnswer s)) = 200 ->
  json (fst (displayAnswer s)) = Some doc ->
  let rate := Json.or_int (Json.get doc "refresh_rate") (refreshRate (client s)) in
  let s1 := snd (Client.callDisplayAPI dr s) in
  refreshRate (client s1) = rate
  /\ stored s1 "refresh_rate"
     = (if rate =? refreshRate (client s) then stored s "refresh_rate" else Some (PInt rate))
  /\ Main.sleeps (trace (hw s1)) = Main.sleeps (trace (hw s)).
Proof.
  intros Hwifi Hkey H200 Hjson. cbv zeta.
  rewrite callDisplayAPI_run by assumption. cbv zeta. rewrite H200, Hjson.
  change (200 =? 200) with true. cbv iota. cbn [snd].
  pose proof (displayAttempts_settled (Z.to_nat Client.maxRetries + 1) 1 no_answer
                (Client.displayUrl (build (env (hw s))))
                (Client.displayHeaders (apiKey (client s)) (friendlyId (client s))) s) as Hs.
  fold (displayAnswer s) in Hs. unfold View.settled in Hs.
  remember (snd (displayAnswer s)) as s1 eqn:E. clear E.
  injection Hs as Hr Hp Hsl.
  unfold Client.parseDisplay. cbn [Client.dr_refreshRate Client.resetFirmware].
  rewrite Hr.
  set (rate := Json.or_int (Json.get doc "refresh_rate") (refreshRate (client s))).
  unfold stored.
  destruct (rate =? refreshRate (client s)) eqn:Hsame; cbn [negb].
  - apply Z.eqb_eq in Hsame.
    destruct (Json.or_bool (Json.get doc "reset_firmware") false).
    + unfold Client.clearDeviceRegistration, Hw.saveString, Main.sleeps. msimpl.
      trace_simpl. fold (Main.sleeps (trace (hw s1))).
      rewrite !lookup_insert_ne by discriminate. rewrite Hr, Hp, Hsl.
      repeat split; congruence.
    + rewrite Hr, Hp, Hsl. repeat split; congruence.
  - destruct (Json.or_bool (Json.get doc "reset_firmware") false).
    + unfold Client.clearDeviceRegistration, Client.setRefreshRate, Hw.saveString,
        Hw.saveInt, Main.sleeps.
      msimpl. trace_simpl. fold (Main.sleeps (trace (hw s1))).
      rewrite !lookup_insert_ne by discriminate. rewrite lookup_insert_eq, Hsl.
      repeat split; reflexivity.
    + unfold Client.setRefreshRate, Hw.saveInt. msimpl.
      rewrite lookup_insert_eq, Hsl. repeat split; reflexivity.
Qed.

(** X18: when a refresh is due and the update succeeds on a JSON
    answer, the device goes to deep sleep for the refresh rate of that
    answer - its refresh_rate member when that is an integer that fits
    an int, else the rate held before - converted to uint32_t: a
    negative rate becomes a sleep of almost 2^32 seconds and 0 a sleep
    of no time.  A rate that differs from the one held is stored.
    WiFi is off afterwards. *)
Theorem X18_refresh_then_sleep (fl : FloatOps) (s : Sys.t) (doc : Json.t) :
  wifiConnected (hw s) = true ->
  nonempty (apiKey (client s)) = true ->
  code (fst (displayAnswer s)) = 200 ->
  json (fst (displayAnswer s)) = Some doc ->
  result (Client.updateContent fl) s = true ->
  let rate := Json.or_int (Json.get doc "refresh_rate") (refreshRate (client s)) in
  let s' := run (Boot.loop_refresh fl) s in
  result (Boot.loop_refresh fl) s = true
  /\ Main.sleeps (trace (hw s')) = Main.sleeps (trace (hw s)) ++ [to_size_t rate]
  /\ stored s' "refresh_rate"
     = (if rate =? refreshRate (client s) then stored s "refresh_rate" else Some (PInt rate))
  /\ wifiConnected (hw s') = false.
Proof.
  intros Hwifi Hkey H200 Hjson Hok. cbv zeta.
  pose proof (updateContent_settled fl s Hwifi) as Hset.
  destruct (callDisplayAPI_settles Client.fresh_DisplayResponse s doc Hwifi Hkey H200 Hjson)
    as (Hr & Hp & Hsl).
  unfold result, run in *. unfold Boot.loop_refresh. rewrite bind_run.
  unfold View.settled, stored in *.
  remember (snd (Client.callDisplayAPI Client.fresh_DisplayResponse s)) as s1 eqn:E1. clear E1.
  destruct (Client.updateContent fl s) as [ok s2]. cbn [fst snd] in *. subst ok.
  injection Hset as Hr2 Hp2 Hsl2.
  unfold Main.enterSleepMode, Hw.enterDeepSleep, Hw.disablePeripherals, Main.sleeps in *.
  msimpl. trace_simpl.
  rewrite Hr2, Hp2, Hsl2, Hr, Hp, Hsl.
  repeat split; reflexivity.
Qed.

Lemma X18_refresh_then_sleep_witness :
  let raw := replicate (Z.to_nat 15000) 170 in
  let doc := Json.JObj [("image_url", Json.JStr "https://cdn.example/a.bin");
                        ("refresh_rate", Json.JInt (-1))] in
  let s := Scenario.device STATE_OPERATIONAL 1800 (Some 0) Scenario.tinyPng
             [Scenario.jsonAnswer doc; Scenario.imageAnswer 15000 [raw]] in
  Main.sleeps (trace (hw (run (Boot.loop_refresh Scenario.ExactQ) s))) = [4294967295]
  /\ stored (run (Boot.loop_refresh Scenario.ExactQ) s) "refresh_rate" = Some (PInt (-1)).
Proof.
  intros raw doc s.
  destruct (X18_refresh_then_sleep Scenario.ExactQ s doc) as (_ & A & B & _).
  - reflexivity.
  - reflexivity.
  - vm_compute. reflexivity.
  - vm_compute. reflexivity.
  - vm_compute. reflexivity.
  - split; [rewrite A | rewrite B]; vm_compute; reflexivity.
Defined.

Lemma displayCachedContent_settled fl : keeps View.settled (Cache.displayCachedContent fl).
Proof.
  unfold Cache.displayCachedContent, Cache.loadCachedImage, Storage.readFile,
    Hw.isSDCardAvailable, Client.malloc, Client.free.
  frame ltac:(first [ apply displayImage_settled | settled_prim ]).
Qed.

Lemma displayImage_quiet2 fl img :
  keeps (fun s => (httpGets (trace (hw s)), client s)) (Hw.displayImage fl img).
Proof.
  intros s. pose proof (displayImage_panel fl img s) as H.
  unfold View.panelFrame in H.
  remember (snd (Hw.displayImage fl img s)) as s1 eqn:E. clear E. cbn beta. congruence.
Qed.

(** what [displayCachedContent] does, for any state *)
Lemma displayCachedContent_outcome fl s :
  let file := View.cached (lastImageFilename (client s)) s in
  let shown := take (Z.to_nat MAX_IMAGE_SIZE) (default [] file) in
  let drawn := sdCardAvailable (hw s) && nonempty (lastImageFilename (client s))
               && (MAX_IMAGE_SIZE <=? maxAlloc (env (hw s)))
               && (0 <? Z.of_nat (length shown)) in
  (drawn = true ->
     snd (Cache.displayCachedContent fl s)
     = snd ((Client.malloc MAX_IMAGE_SIZE ;; Hw.displayImage fl (Some shown) ;; Client.free) s))
  /\ (drawn = false ->
      epdOps (trace (hw (snd (Cache.displayCachedContent fl s)))) = epdOps (trace (hw s)))
  /\ client (snd (Cache.displayCachedContent fl s)) = client s
  /\ liveBuffers (hw (snd (Cache.displayCachedContent fl s))) = liveBuffers (hw s).
Proof.
  cbv zeta.
  unfold Cache.displayCachedContent, Hw.isSDCardAvailable.
  rewrite bind_run. change (fst (getH sdCardAvailable s)) with (sdCardAvailable (hw s)).
  change (snd (getH sdCardAvailable s)) with s.
  rewrite bind_run. change (fst (getC lastImageFilename s)) with (lastImageFilename (client s)).
  change (snd (getC lastImageFilename s)) with s.
  destruct (sdCardAvailable (hw s)) eqn:Hsd; cbn [negb orb andb];
    [| rewrite ret_run; cbn [snd]; repeat split; intros; discriminate || reflexivity].
  destruct (nonempty (lastImageFilename (client s))) eqn:Hlast; cbn [andb].
  2:{ apply Nat.ltb_ge in Hlast.
      replace (String.length (lastImageFilename (client s)) =? 0)%nat with true
        by (symmetry; apply Nat.eqb_eq; lia).
      rewrite ret_run. cbn [snd]. repeat split; intros; discriminate || reflexivity. }
  rewrite (nonempty_length _ Hlast).
  rewrite !bind_run.
  destruct (malloc_run MAX_IMAGE_SIZE s) as [Hok Hlive].
  assert (Hm : client (snd (Client.malloc MAX_IMAGE_SIZE s)) = client s
               /\ sdFiles (hw (snd (Client.malloc MAX_IMAGE_SIZE s))) = sdFiles (hw s)
               /\ sdCardAvailable (hw (snd (Client.malloc MAX_IMAGE_SIZE s))) = true
               /\ epdOps (trace (hw (snd (Client.malloc MAX_IMAGE_SIZE s))))
                  = epdOps (trace (hw s))).
  { unfold Client.malloc, epdOps. msimpl.
    destruct (MAX_IMAGE_SIZE <=? maxAlloc (env (hw s))); msimpl; trace_simpl;
      repeat split; assumption || reflexivity. }
  destruct (Client.malloc MAX_IMAGE_SIZE s) as [got m]. cbn [fst snd] in *.
  destruct Hm as (Hc & Hf & Hsd1 & He). subst got.
  destruct (MAX_IMAGE_SIZE <=? maxAlloc (env (hw s))); cbn [andb].
  2:{ rewrite ret_run. cbn [fst snd].
      split; [discriminate |]. split; [intros _; exact He |].
      split; [exact Hc | exact Hlive]. }
  rewrite bind_run. unfold Cache.loadCachedImage, Hw.isSDCardAvailable.
  rewrite bind_run. change (fst (getH sdCardAvailable m)) with (sdCardAvailable (hw m)).
  change (snd (getH sdCardAvailable m)) with m. rewrite Hsd1. cbn [negb].
  rewrite readFile_run. cbn [fst snd]. rewrite Hsd1, Hf.
  unfold View.cached.
  destruct (sdFiles (hw s) !! ("/cache/" +:+ lastImageFilename (client s))) as [content |];
    [change (default [] (Some content)) with content
    | change (default [] None) with (@nil Z)].
  2:{ rewrite take_nil. simpl length. change (0 <? Z.of_nat 0) with false.
      rewrite bind_run, ret_run. cbn [fst snd]. unfold Client.free, epdOps. msimpl.
      trace_simpl. fold (epdOps (trace (hw m))).
      rewrite Hlive.
      split; [discriminate |]. split; [intros _; exact He |].
      split; [exact Hc | reflexivity]. }
  destruct (0 <? Z.of_nat (length (take (Z.to_nat MAX_IMAGE_SIZE) content))).
  - rewrite !bind_run.
    pose proof (displayImage_panel fl (Some (take (Z.to_nat MAX_IMAGE_SIZE) content)) m) as Hp.
    remember (snd (Hw.displayImage fl (Some (take (Z.to_nat MAX_IMAGE_SIZE) content)) m))
      as m2 eqn:E. clear E.
    unfold View.panelFrame in Hp.
    assert (Hc2 : client m2 = client m) by congruence.
    assert (Hl2 : liveBuffers (hw m2) = liveBuffers (hw m)) by congruence.
    clear Hp. rewrite ret_run. cbn [fst snd]. unfold Client.free. msimpl.
    rewrite Hc2, Hl2, Hlive.
    split; [intros _; reflexivity |]. split; [discriminate |].
    split; [exact Hc | reflexivity].
  - rewrite bind_run, ret_run. cbn [fst snd]. unfold Client.free, epdOps. msimpl.
    trace_simpl. fold (epdOps (trace (hw m))).
    rewrite Hlive.
    split; [discriminate |]. split; [intros _; exact He |].
    split; [exact Hc | reflexivity].
Qed.

(** X19: the content-update block of [loop()] - the code between
    [handleSystemStates] and the battery check - entered with WiFi
    down.  The block asks the server nothing and does not go to
    sleep: it marks the device offline, counts no error, and leaves
    no buffer allocated.  It draws the cached image - the first
    MAX_IMAGE_SIZE bytes of the file of the last image - exactly when
    there is an SD card, a last image name, [malloc] serves the 50000
    bytes and the file holds at least one byte; when any of these
    fails, an existing cache file notwithstanding, nothing goes to the
    panel.  What [loop()] does before and after the block is not part
    of this. *)
Theorem X19_offline_fallback (fl : FloatOps) (s : Sys.t) :
  wifiConnected (hw s) = false ->
  let offline := {| client := set_currentState STATE_OFFLINE (client s); hw := hw s |} in
  let s' := run (Boot.loop_refresh fl) s in
  let file := View.cached (lastImageFilename (client s)) s in
  let shown := take (Z.to_nat MAX_IMAGE_SIZE) (default [] file) in
  let drawn := sdCardAvailable (hw s) && nonempty (lastImageFilename (client s))
               && (MAX_IMAGE_SIZE <=? maxAlloc (env (hw s)))
               && (0 <? Z.of_nat (length shown)) in
  result (Boot.loop_refresh fl) s = false
  /\ s' = (if result Cache.hasCachedContent offline
           then run (Cache.displayCachedContent fl) offline
           else offline)
  /\ (drawn = true ->
      s' = run (Client.malloc MAX_IMAGE_SIZE ;; Hw.displayImage fl (Some shown) ;; Client.free)
               offline)
  /\ (drawn = false -> epdOps (trace (hw s')) = epdOps (trace (hw s)))
  /\ client s' = client offline
  /\ liveBuffers (hw s') = liveBuffers (hw s)
  /\ Main.sleeps (trace (hw s')) = Main.sleeps (trace (hw s))
  /\ httpGets (trace (hw s')) = httpGets (trace (hw s))
  /\ consecutiveErrors (client s') = consecutiveErrors (client s).
Proof.
  intros Hdown. cbv zeta. unfold result, run, Boot.loop_refresh.
  rewrite bind_run, (updateContent_offline fl s Hdown). cbn [fst snd].
  set (offline := {| client := set_currentState STATE_OFFLINE (client s); hw := hw s |}).
  rewrite !bind_run. rewrite hasCachedContent_run. cbn [fst snd].
  destruct (displayCachedContent_outcome fl offline) as (Oyes & Ono & Oc & Ol).
  change (lastImageFilename (client offline)) with (lastImageFilename (client s)) in *.
  change (View.cached (lastImageFilename (client s)) offline)
    with (View.cached (lastImageFilename (client s)) s) in *.
  change (hw offline) with (hw s) in *.
  destruct (sdCardAvailable (hw s) && nonempty (lastImageFilename (client s))) eqn:Hguard;
    cbn [andb] in *.
  - destruct (bool_decide (is_Some (View.cached (lastImageFilename (client s)) s))) eqn:Hfile.
    + rewrite bind_run, !ret_run. cbn [fst snd].
      pose proof (displayCachedContent_settled fl offline) as Hs.
      assert (Hg : httpGets (trace (hw (snd (Cache.displayCachedContent fl offline))))
                   = httpGets (trace (hw offline))).
      { clear.
        enough (keeps (fun s => (httpGets (trace (hw s)), client s))
                  (Cache.displayCachedContent fl)) as H
          by (specialize (H offline); cbn beta in H; injection H as H1 H2; assumption).
        unfold Cache.displayCachedContent, Cache.loadCachedImage, Storage.readFile,
          Hw.isSDCardAvailable, Client.malloc, Client.free.
        frame ltac:(first [ apply (displayImage_quiet2 fl) | unfold httpGets; untouched ]). }
      unfold View.settled in Hs. injection Hs as _ _ Hsl.
      split; [reflexivity |]. split; [reflexivity |].
      split; [intros Hd; rewrite (Oyes Hd), !bind_run; reflexivity |]. split; [exact Ono |].
      split; [exact Oc |]. split; [exact Ol |].
      split; [exact Hsl |]. split; [exact Hg |]. rewrite Oc. reflexivity.
    + rewrite !ret_run. cbn [fst snd].
      apply bool_decide_eq_false in Hfile.
      assert (Hnone : View.cached (lastImageFilename (client s)) s = None).
      { destruct (View.cached (lastImageFilename (client s)) s) eqn:Hc; [| reflexivity].
        exfalso. apply Hfile. eexists. reflexivity. }
      rewrite Hnone. change (default [] None) with (@nil Z). rewrite take_nil.
      change (0 <? Z.of_nat (length (@nil Z))) with false. rewrite andb_false_r.
      split; [reflexivity |]. split; [reflexivity |].
      split; [discriminate |]. repeat split; reflexivity.
  - rewrite !ret_run. cbn [fst snd].
    split; [reflexivity |]. split; [reflexivity |].
    split; [discriminate |]. repeat split; reflexivity.
Qed.

Lemma X19_offline_fallback_witness :
  let raw := replicate (Z.to_nat 15000) 170 in
  let s := Bench.offline "a.bin" {[ "/cache/a.bin" := raw ]} in
  let hollow := Bench.offline "e.bin" {[ "/cache/e.bin" := [] ]} in
  let s' := run (Boot.loop_refresh Scenario.ExactQ) s in
  (result (Boot.loop_refresh Scenario.ExactQ) s = false
   /\ currentState (client s') = STATE_OFFLINE
   /\ Main.sleeps (trace (hw s')) = []
   /\ epdOps (trace (hw s')) = epdOps (rawFrame raw 0))
  /\ (result Cache.hasCachedContent hollow = true
      /\ epdOps (trace (hw (run (Boot.loop_refresh Scenario.ExactQ) hollow))) = []).
Proof.
  intros raw s hollow.
  destruct (X19_offline_fallback Scenario.ExactQ s) as (A & B & _ & _ & _ & _ & C & _);
    [reflexivity |].
  destruct (X19_offline_fallback Scenario.ExactQ hollow) as (_ & _ & _ & D & _);
    [reflexivity |].
  split.
  - split; [exact A |]. split; [rewrite B; vm_compute; reflexivity |].
    split; [rewrite C; reflexivity |]. rewrite B. vm_compute. reflexivity.
  - split; [vm_compute; reflexivity |].
    rewrite D by (vm_compute; reflexivity). reflexivity.
Defined.

(** ** The invert setting *)

(** X20: [setInvertDisplay] sets the flag that [getInvertDisplay]
    returns and stores it under "invert", where a later start looks
    for it.  In a line built for a scanline, inverting turns every
    pixel inside the image's span over and leaves the margins white. *)
Theorem X20_invert_display (fl : FloatOps) (s : Sys.t) (v : bool)
        (ctx : Hw.PngDrawContext fl) (srcW : Z) (line565 : list Z) (x : Z) :
  0 <= x < DISPLAY_WIDTH ->
  let s' := run (Storage.setInvertDisplay v) s in
  let inverted := {| Hw.x0 := Hw.x0 fl ctx; Hw.y0 := Hw.y0 fl ctx; Hw.tW := Hw.tW fl ctx;
                     Hw.tH := Hw.tH fl ctx; Hw.sX := Hw.sX fl ctx; Hw.sY := Hw.sY fl ctx;
                     Hw.invert := negb (Hw.invert fl ctx) |} in
  let inside := (Hw.x0 fl ctx <=? x) && (x <? Hw.x0 fl ctx + Hw.tW fl ctx) in
  result Storage.getInvertDisplay s' = v
  /\ result (Storage.loadBool "invert" false) s' = v
  /\ View.pixel (Hw.buildLine fl inverted srcW line565) x
     = (if inside then negb (View.pixel (Hw.buildLine fl ctx srcW line565) x) else true)
  /\ (inside = false -> View.pixel (Hw.buildLine fl ctx srcW line565) x = true).
Proof.
  intros Hx. cbv zeta.
  split; [reflexivity |].
  split.
  { unfold result, run, Storage.loadBool, Storage.setInvertDisplay, Storage.saveBool. msimpl.
    rewrite lookup_insert_eq. reflexivity. }
  rewrite !buildLine_pixel by exact Hx. cbn [Hw.x0 Hw.tW].
  destruct ((Hw.x0 fl ctx <=? x) && (x <? Hw.x0 fl ctx + Hw.tW fl ctx)); cbn [andb negb].
  - split; [| discriminate]. unfold View.inked. cbn [Hw.sX Hw.invert].
    unfold Hw.isBlack.
    destruct (Hw.invert fl ctx); cbn [negb];
      match goal with
      | |- context [128 <=? ?l] =>
          destruct (Z.leb_spec 128 l); destruct (Z.ltb_spec l 128); try lia; reflexivity
      end.
  - split; reflexivity.
Qed.

Lemma X20_invert_display_witness :
  let ctx := {| Hw.x0 := 100; Hw.y0 := 0; Hw.tW := 200; Hw.tH := 300;
                Hw.sX := inject_Z 100 : flt Scenario.ExactQ;
                Hw.sY := inject_Z 100 : flt Scenario.ExactQ;
                Hw.invert := true |} in
  result (Storage.loadBool "invert" false) (run (Storage.setInvertDisplay true) Bench.factory)
    = true
  /\ View.pixel (Hw.buildLine Scenario.ExactQ ctx 2 [0; 65535]) 50 = true
  /\ View.pixel (Hw.buildLine Scenario.ExactQ ctx 2 [0; 65535]) 150 = true
  /\ View.pixel (Hw.buildLine Scenario.ExactQ ctx 2 [0; 65535]) 250 = false.
Proof.
  intros ctx.
  pose (plain := {| Hw.x0 := 100; Hw.y0 := 0; Hw.tW := 200; Hw.tH := 300;
                    Hw.sX := inject_Z 100 : flt Scenario.ExactQ;
                    Hw.sY := inject_Z 100 : flt Scenario.ExactQ;
                    Hw.invert := false |}).
  destruct (X20_invert_display Scenario.ExactQ Bench.factory true plain 2 [0; 65535] 50)
    as (_ & A & B & _); [unfold DISPLAY_WIDTH; lia |].
  destruct (X20_invert_display Scenario.ExactQ Bench.factory true plain 2 [0; 65535] 150)
    as (_ & _ & C & _); [unfold DISPLAY_WIDTH; lia |].
  destruct (X20_invert_display Scenario.ExactQ Bench.factory true plain 2 [0; 65535] 250)
    as (_ & _ & D & _); [unfold DISPLAY_WIDTH; lia |].
  split; [exact A |].
  split; [refine (eq_trans B _); vm_compute; reflexivity |].
  split; [refine (eq_trans C _) | refine (eq_trans D _)]; vm_compute; reflexivity.
Defined.

(** ** Buttons *)

Lemma updateButton_wf level t i b :
  Buttons.wf b -> Buttons.wf (Buttons.updateButton level t i b).
Proof.
  intros (Ht & Hs & Hp). unfold Buttons.updateButton, Buttons.wf.
  destruct (negb level); destruct (default false (Buttons.buttonPressed b !! i));
    cbn [andb negb];
    try destruct (Buttons.BUTTON_VERY_LONG_PRESS_MS <? _);
    try destruct (Buttons.BUTTON_LONG_PRESS_MS <? _);
    cbn [Buttons.buttonPressTime Buttons.buttonStates Buttons.buttonPressed];
    rewrite ?length_insert; repeat split; assumption.
Qed.

Lemma updateButton_other level t i j b :
  i <> j -> Buttons.entry j (Buttons.updateButton level t i b) = Buttons.entry j b.
Proof.
  intros Hne. unfold Buttons.updateButton, Buttons.entry.
  destruct (negb level); destruct (default false (Buttons.buttonPressed b !! i));
    cbn [andb negb];
    try destruct (Buttons.BUTTON_VERY_LONG_PRESS_MS <? _);
    try destruct (Buttons.BUTTON_LONG_PRESS_MS <? _);
    cbn [Buttons.buttonPressTime Buttons.buttonStates Buttons.buttonPressed];
    rewrite ?list_lookup_insert_ne by exact Hne; reflexivity.
Qed.

Lemma updateButton_congr level t i a b :
  Buttons.wf a -> Buttons.wf b -> (i < 4)%nat ->
  Buttons.entry i a = Buttons.entry i b ->
  Buttons.entry i (Buttons.updateButton level t i a)
  = Buttons.entry i (Buttons.updateButton level t i b).
Proof.
  intros (At & As & Ap) (Bt & Bs & Bp) Hi He. unfold Buttons.entry in *.
  injection He as Ht Hs Hp.
  unfold Buttons.updateButton. rewrite Ht, Hp.
  destruct (negb level); destruct (default false (Buttons.buttonPressed b !! i));
    cbn [andb negb];
    try destruct (Buttons.BUTTON_VERY_LONG_PRESS_MS <? _);
    try destruct (Buttons.BUTTON_LONG_PRESS_MS <? _);
    cbn [Buttons.buttonPressTime Buttons.buttonStates Buttons.buttonPressed];
    rewrite ?list_lookup_insert_eq by lia; rewrite ?Ht, ?Hs, ?Hp; reflexivity.
Qed.

Lemma updateButtons_wf levels t b :
  Buttons.wf b -> Buttons.wf (Buttons.updateButtons levels t b).
Proof.
  intros Hwf. unfold Buttons.updateButtons. cbn [seq fold_left].
  repeat apply updateButton_wf. exact Hwf.
Qed.

(** the buttons do not affect one another *)
Lemma updateButtons_entry levels t b (n : nat) :
  Buttons.wf b -> (n < 4)%nat ->
  Buttons.entry n (Buttons.updateButtons levels t b)
  = Buttons.entry n (Buttons.updateButton (default true (levels !! n)) t n b).
Proof.
  intros Hwf Hn. unfold Buttons.updateButtons. cbn [seq fold_left].
  destruct n as [| [| [| [| n]]]]; [| | | | lia].
  - rewrite !updateButton_other by lia. reflexivity.
  - rewrite !updateButton_other by lia.
    apply updateButton_congr; [apply updateButton_wf; exact Hwf | exact Hwf | lia |].
    apply updateButton_other. lia.
  - rewrite !updateButton_other by lia.
    apply updateButton_congr; [repeat apply updateButton_wf; exact Hwf | exact Hwf | lia |].
    rewrite !updateButton_other by lia. reflexivity.
  - apply updateButton_congr; [repeat apply updateButton_wf; exact Hwf | exact Hwf | lia |].
    rewrite !updateButton_other by lia. reflexivity.
Qed.

Lemma getButtonState_entry n a b :
  Buttons.entry (Z.to_nat n) a = Buttons.entry (Z.to_nat n) b ->
  Buttons.getButtonState n a = Buttons.getButtonState n b.
Proof.
  unfold Buttons.entry, Buttons.getButtonState. intros He. injection He as _ Hs _.
  rewrite Hs. reflexivity.
Qed.

(** X21: one poll of the four buttons, for a button n in range.  A
    button found down that was up becomes PRESSED; one found up that
    was down becomes RELEASED; one still down becomes VERY_LONG_PRESS
    once it has been down for more than 5000 ms and LONG_PRESS once
    for more than 2000 ms, the time being taken modulo 2^32 so that a
    wrap of millis() does no harm; otherwise its state stays.  The
    other buttons play no part.  A button that is still down when its
    state is reset is reported as PRESSED again by the next poll.
    Numbers outside 0..3 read as RELEASED and are not reset. *)
Theorem X21_button_poll (b : Buttons.t) (levels : list bool) (t n : Z) :
  Buttons.wf b ->
  0 <= n < 4 ->
  let i := Z.to_nat n in
  let down := negb (default true (levels !! i)) in
  let was := default false (Buttons.buttonPressed b !! i) in
  let held := to_size_t (t - default 0 (Buttons.buttonPressTime b !! i)) in
  let b' := Buttons.updateButtons levels t b in
  Buttons.wf b'
  /\ Buttons.getButtonState n b'
     = (if down then
          if was then
            if Buttons.BUTTON_VERY_LONG_PRESS_MS <? held then Buttons.BUTTON_VERY_LONG_PRESS
            else if Buttons.BUTTON_LONG_PRESS_MS <? held then Buttons.BUTTON_LONG_PRESS
            else Buttons.getButtonState n b
          else Buttons.BUTTON_PRESSED
        else if was then Buttons.BUTTON_RELEASED else Buttons.getButtonState n b)
  /\ (down = true ->
      Buttons.getButtonState n
        (Buttons.updateButtons levels t (Buttons.resetButtonState n b))
      = Buttons.BUTTON_PRESSED)
  /\ (forall m, m < 0 \/ 4 <= m ->
      Buttons.getButtonState m b' = Buttons.BUTTON_RELEASED
      /\ Buttons.resetButtonState m b = b).
Proof.
  intros Hwf Hn. cbv zeta.
  assert (Hi : (Z.to_nat n < 4)%nat) by lia.
  destruct Hwf as (Ht & Hs & Hp).
  assert (Hwf : Buttons.wf b) by (repeat split; assumption).
  split; [apply updateButtons_wf; exact Hwf |].
  split; [| split].
  - rewrite (getButtonState_entry n _ _ (updateButtons_entry levels t b _ Hwf Hi)).
    unfold Buttons.getButtonState, Buttons.updateButton.
    destruct (Z.ltb_spec n 0); [lia |]. destruct (Z.leb_spec 4 n); [lia |]. cbn [orb].
    destruct (negb (default true (levels !! Z.to_nat n)));
      destruct (default false (Buttons.buttonPressed b !! Z.to_nat n)); cbn [andb negb];
      try destruct (Buttons.BUTTON_VERY_LONG_PRESS_MS <? _);
      try destruct (Buttons.BUTTON_LONG_PRESS_MS <? _);
      cbn [Buttons.buttonStates];
      rewrite ?list_lookup_insert_eq by lia; reflexivity.
  - intros Hdown.
    assert (Hwf' : Buttons.wf (Buttons.resetButtonState n b)).
    { unfold Buttons.resetButtonState, Buttons.wf.
      destruct ((n <? 0) || (4 <=? n)); [exact Hwf |].
      cbn [Buttons.buttonPressTime Buttons.buttonStates Buttons.buttonPressed].
      rewrite !length_insert. exact Hwf. }
    rewrite (getButtonState_entry n _ _ (updateButtons_entry levels t _ _ Hwf' Hi)).
    unfold Buttons.getButtonState, Buttons.updateButton, Buttons.resetButtonState.
    destruct (Z.ltb_spec n 0); [lia |]. destruct (Z.leb_spec 4 n); [lia |]. cbn [orb].
    rewrite Hdown.
    cbn [Buttons.buttonPressTime Buttons.buttonStates Buttons.buttonPressed].
    rewrite (list_lookup_insert_eq (Buttons.buttonPressed b)) by lia.
    cbn [default from_option id andb negb Buttons.buttonStates].
    rewrite list_lookup_insert_eq by (rewrite length_insert; lia). reflexivity.
  - intros m Hm. unfold Buttons.getButtonState, Buttons.resetButtonState.
    destruct (Z.ltb_spec m 0); [split; reflexivity |].
    destruct (Z.leb_spec 4 m); [split; reflexivity | lia].
Qed.

Lemma X21_button_poll_witness :
  let held := {| Buttons.buttonPressTime := [0; 4294967000; 0; 0];
                 Buttons.buttonStates := [Buttons.BUTTON_RELEASED; Buttons.BUTTON_PRESSED;
                                          Buttons.BUTTON_RELEASED; Buttons.BUTTON_RELEASED];
                 Buttons.buttonPressed := [false; true; false; false] |} in
  Buttons.getButtonState 0 (Buttons.updateButtons [false] 7 Buttons.initial)
    = Buttons.BUTTON_PRESSED
  /\ Buttons.getButtonState 0 (Buttons.updateButtons [false; false; true; true] 2000 held)
     = Buttons.BUTTON_PRESSED
  /\ Buttons.getButtonState 1 (Buttons.updateButtons [false; false; true; true] 2000 held)
     = Buttons.BUTTON_LONG_PRESS
  /\ Buttons.getButtonState 1
       (Buttons.updateButtons [false; false; true; true] 2000
          (Buttons.resetButtonState 1 held))
     = Buttons.BUTTON_PRESSED.
Proof.
  intros held.
  assert (Hwf : Buttons.wf held) by (repeat split; reflexivity).
  destruct (X21_button_poll held [false; false; true; true] 2000 0 Hwf) as (_ & A & _);
    [lia |].
  destruct (X21_button_poll held [false; false; true; true] 2000 1 Hwf) as (_ & B & C & _);
    [lia |].
  destruct (X21_button_poll Buttons.initial [false] 7 0) as (_ & I & _);
    [repeat split; reflexivity | lia |].
  split; [rewrite I; reflexivity |].
  split; [rewrite A; reflexivity |].
  split; [rewrite B; vm_compute; reflexivity | apply C; reflexivity].
Defined.

(** ** The download into a buffer of the caller *)

Lemma readFixed_heap polls maxSize buf :
  keeps (fun s => (client s, liveBuffers (hw s), mallocs (trace (hw s))))
        (Cache.readFixed polls maxSize buf).
Proof.
  revert buf. induction polls as [| c rest IH]; intros buf; simpl.
  - apply keeps_ret.
  - frame ltac:(first [ apply IH | unfold mallocs; untouched ]).
Qed.

(** X22: [downloadImage] after a 200 answer.  It reads the first
    [maxSize] bytes of the body into the caller's buffer and reports
    their number; it succeeds exactly when at least one byte came and
    either no length was declared or exactly the declared length was
    read.  So a body longer than the buffer fails when its length was
    declared and passes, cut off, when it was not.  The call allocates
    nothing. *)
Theorem X22_downloadImage_outcome (s : Sys.t) (url : string) (r : HttpResponse)
        (rest : list HttpResponse) (maxSize : Z) :
  wifiConnected (hw s) = true ->
  nonempty url = true ->
  net (hw s) = r :: rest ->
  code r = 200 ->
  is_int (size r) ->
  0 <= maxSize <= INT_MAX ->
  let L := size r in
  let body := take (Z.to_nat maxSize) (concat (chunks r)) in
  let got := Z.of_nat (length body) in
  let s' := run (Cache.downloadImage url maxSize) s in
  result (Cache.downloadImage url maxSize) s
    = ((0 <? got) && ((L <=? 0) || (got =? L)), Some body)
  /\ (maxSize < L -> fst (result (Cache.downloadImage url maxSize) s) = false)
  /\ liveBuffers (hw s') = liveBuffers (hw s)
  /\ mallocs (trace (hw s')) = mallocs (trace (hw s))
  /\ client s' = client s.
Proof.
  intros Hwifi Hurl Hnet H200 Hint Hmax. cbv zeta.
  apply nonempty_length in Hurl.
  set (body := take (Z.to_nat maxSize) (concat (chunks r))).
  assert (Hgot : 0 <= Z.of_nat (length body) <= maxSize)
    by (unfold body; rewrite length_take; lia).
  cut (let res := Cache.downloadImage url maxSize s in
       fst res = ((0 <? Z.of_nat (length body))
                  && ((size r <=? 0) || (Z.of_nat (length body) =? size r)), Some body)
       /\ liveBuffers (hw (snd res)) = liveBuffers (hw s)
       /\ mallocs (trace (hw (snd res))) = mallocs (trace (hw s))
       /\ client (snd res) = client s).
  { cbv zeta. unfold result, run. intros (A & B & C & D).
    split; [exact A |]. split; [| split; [exact B | split; [exact C | exact D]]].
    intros Hbig. rewrite A. cbn [fst].
    destruct (Z.leb_spec (size r) 0); [lia |].
    destruct (Z.eqb_spec (Z.of_nat (length body)) (size r)); [lia |].
    apply andb_false_r. }
  cbv zeta. unfold Cache.downloadImage, Client.isWiFiConnected.
  rewrite bind_run. change (fst (getH wifiConnected s)) with (wifiConnected (hw s)).
  change (snd (getH wifiConnected s)) with s.
  rewrite Hwifi, Hurl. cbn [negb orb].
  rewrite bind_run. change (snd (getC apiKey s)) with s.
  change (fst (getC apiKey s)) with (apiKey (client s)).
  rewrite bind_run.
  match goal with
  | |- context [Client.http_GET url ?h s] =>
      pose proof (http_GET_answer url h s) as Hr;
      pose proof (http_GET_liveBuffers url h s) as Hl;
      pose proof (http_GET_dlObs url h s) as Hd;
      assert (Hm : mallocs (trace (hw (snd (Client.http_GET url h s))))
                   = mallocs (trace (hw s)))
        by (rewrite http_GET_trace; unfold mallocs; trace_simpl; reflexivity);
      destruct (Client.http_GET url h s) as [r' g]
  end.
  cbn [fst snd] in *. rewrite Hnet in Hr. cbn [hd] in Hr. subst r'.
  assert (Hc : client g = client s) by (unfold dlObs in Hd; congruence). clear Hd.
  rewrite H200. change (200 =? 200) with true. cbv iota.
  rewrite (to_int_id (size r) Hint).
  rewrite bind_run.
  pose proof (readFixed_prefix (chunks r) maxSize [] g) as Hbuf.
  pose proof (readFixed_heap (chunks r) maxSize [] g) as Hk.
  destruct (Cache.readFixed (chunks r) maxSize [] g) as [buffer g2].
  cbn [fst snd] in *. injection Hk as Hc2 Hl2 Hm2.
  assert (Hb : buffer = body).
  { rewrite Hbuf by (simpl; lia). simpl length. rewrite Z.sub_0_r. reflexivity. }
  clear Hbuf. subst buffer.
  rewrite to_int_id by (unfold is_int, INT_MIN, INT_MAX in *; lia).
  rewrite ret_run. cbn [fst snd].
  split; [reflexivity |]. split; [congruence |]. split; congruence.
Qed.

Lemma X22_downloadImage_outcome_witness :
  let url := "https://cdn.example/p.png" in
  let declared := Scenario.device STATE_OPERATIONAL 1800 (Some 0) Scenario.tinyPng
                    [Scenario.imageAnswer 5 [[1; 2]; [3; 4; 5]]] in
  let silent := Scenario.device STATE_OPERATIONAL 1800 (Some 0) Scenario.tinyPng
                  [Scenario.imageAnswer (-1) [[1; 2]; [3; 4; 5]]] in
  result (Cache.downloadImage url 4) declared = (false, Some [1; 2; 3; 4])
  /\ result (Cache.downloadImage url 4) silent = (true, Some [1; 2; 3; 4])
  /\ result (Cache.downloadImage url 8) declared = (true, Some [1; 2; 3; 4; 5]).
Proof.
  intros url declared silent.
  assert (Hi5 : is_int 5) by (unfold is_int, INT_MIN, INT_MAX; lia).
  assert (Hi1 : is_int (-1)) by (unfold is_int, INT_MIN, INT_MAX; lia).
  destruct (X22_downloadImage_outcome declared url
              (Scenario.imageAnswer 5 [[1; 2]; [3; 4; 5]]) [] 4) as (A & _);
    [reflexivity | reflexivity | reflexivity | reflexivity | exact Hi5
    | unfold INT_MAX; lia |].
  destruct (X22_downloadImage_outcome silent url
              (Scenario.imageAnswer (-1) [[1; 2]; [3; 4; 5]]) [] 4) as (B & _);
    [reflexivity | reflexivity | reflexivity | reflexivity | exact Hi1
    | unfold INT_MAX; lia |].
  destruct (X22_downloadImage_outcome declared url
              (Scenario.imageAnswer 5 [[1; 2]; [3; 4; 5]]) [] 8) as (C & _);
    [reflexivity | reflexivity | reflexivity | reflexivity | exact Hi5
    | unfold INT_MAX; lia |].
  split; [exact A |]. split; [exact B | exact C].
Defined.

(** ** Without WiFi *)

(** X23: with WiFi down the network calls return false at once and do
    nothing at all - no request, no allocation, no change of state -
    and hand back what they were given: the response object untouched,
    the caller's buffer pointer as it was. *)
Theorem X23_no_wifi_no_request (s : Sys.t) (sr : Client.SetupResponse)
        (dr : Client.DisplayResponse) (url : string) (out : option (list Z)) (maxSize : Z) :
  wifiConnected (hw s) = false ->
  Client.callSetupAPI sr s = (false, sr, s)
  /\ Client.callDisplayAPI dr s = (false, dr, s)
  /\ Client.downloadImageAutoAlloc url out s = (false, out, s)
  /\ Cache.downloadImage url maxSize s = (false, None, s).
Proof.
  intros Hdown.
  unfold Client.callSetupAPI, Client.callDisplayAPI, Client.downloadImageAutoAlloc,
    Cache.downloadImage, Client.isWiFiConnected.
  rewrite !bind_run.
  change (fst (getH wifiConnected s)) with (wifiConnected (hw s)).
  change (snd (getH wifiConnected s)) with s.
  change (fst (getC apiKey s)) with (apiKey (client s)).
  change (snd (getC apiKey s)) with s.
  rewrite Hdown. cbn [negb orb]. repeat split; reflexivity.
Qed.

Lemma X23_no_wifi_no_request_witness :
  let s := Bench.offline "a.png" ∅ in
  Client.callDisplayAPI Client.fresh_DisplayResponse s = (false, Client.fresh_DisplayResponse, s)
  /\ Client.downloadImageAutoAlloc "https://cdn.example/a.png" None s = (false, None, s).
Proof.
  intros s.
  destruct (X23_no_wifi_no_request s Client.fresh_SetupResponse Client.fresh_DisplayResponse
              "https://cdn.example/a.png" None 0) as (_ & A & B & _); [reflexivity |].
  split; [exact A | exact B].
Defined.

(** ** Joining the WiFi *)

Lemma pollWiFi_run start s :
  Client.pollWiFi start s
  = (match wifiJoinAfter (env (hw s)) with
     | Some d => d <=? millis (hw s) - start
     | None => false
     end,
     {| client := client s;
        hw := set_wifiConnected
                (match wifiJoinAfter (env (hw s)) with
                 | Some d => d <=? millis (hw s) - start
                 | None => false
                 end) (hw s) |}).
Proof. reflexivity. Qed.

(** the wait for the access point, from the state reached [m] polls
    before the timeout *)
Lemma wifi_wait (start : Z) (j : option Z) (m : nat) :
  forall (fuel : nat) (s : Sys.t),
    wifiJoinAfter (env (hw s)) = j ->
    (m < fuel)%nat ->
    millis (hw s) - start = WIFI_CONNECT_TIMEOUT_MS - 500 * Z.of_nat m ->
    let e := millis (hw s) - start in
    let k := match j with
             | Some d => if d <=? e then 0
                         else if d <=? WIFI_CONNECT_TIMEOUT_MS then (d - e + 499) / 500
                         else Z.of_nat m
             | None => Z.of_nat m
             end in
    let reach := match j with Some d => d <=? WIFI_CONNECT_TIMEOUT_MS | None => false end in
    let r := (while fuel
                (up ← Client.pollWiFi start;
                 now ← getH millis;
                 mret (negb up && (now - start <? WIFI_CONNECT_TIMEOUT_MS)))
                (delay 500) ;;
              Client.pollWiFi start) s in
    fst r = reach
    /\ wifiConnected (hw (snd r)) = reach
    /\ trace (hw (snd r)) = trace (hw s) ++ replicate (Z.to_nat k) (EvDelay 500)
    /\ millis (hw (snd r)) = millis (hw s) + 500 * k
    /\ client (snd r) = client s.
Proof.
  unfold WIFI_CONNECT_TIMEOUT_MS.
  induction m as [| m IH]; intros fuel s Hj Hfuel He; cbv zeta.
  - destruct fuel as [| fuel]; [lia |]. cbn [while].
    rewrite !bind_run, (pollWiFi_run start s). cbn [fst snd].
    change (fst (getH millis ?x)) with (millis (hw x)).
    change (snd (getH millis ?x)) with x.
    cbn [hw millis set_wifiConnected]. rewrite ret_run. cbn [fst snd].
    rewrite Hj, He. change (30000 - 500 * Z.of_nat 0) with 30000.
    change (30000 <? 30000) with false. rewrite andb_false_r. rewrite ret_run.
    cbn [snd]. rewrite pollWiFi_run. cbn [fst snd hw env millis set_wifiConnected].
    rewrite Hj, He. change (30000 - 500 * Z.of_nat 0) with 30000.
    destruct j as [d |]; [| rewrite app_nil_r; repeat split; lia].
    destruct (Z.leb_spec d 30000); cbn [Z.to_nat replicate];
      rewrite app_nil_r; repeat split; lia.
  - destruct fuel as [| fuel]; [lia |]. cbn [while].
    rewrite !bind_run, (pollWiFi_run start s). cbn [fst snd].
    change (fst (getH millis ?x)) with (millis (hw x)).
    change (snd (getH millis ?x)) with x.
    cbn [hw millis set_wifiConnected]. rewrite ret_run. cbn [fst snd].
    rewrite Hj.
    assert (Hlt : (millis (hw s) - start <? 30000) = true) by (apply Z.ltb_lt; lia).
    rewrite Hlt, andb_true_r.
    set (up := match j with Some d => d <=? millis (hw s) - start | None => false end).
    destruct up eqn:Hup; cbn [negb].
    + rewrite ret_run. cbn [snd]. rewrite pollWiFi_run.
      cbn [fst snd hw env millis set_wifiConnected]. rewrite Hj. fold up. rewrite Hup.
      destruct j as [d |]; [| discriminate]. unfold up in Hup. rewrite Hup.
      apply Z.leb_le in Hup.
      destruct (Z.leb_spec d 30000); [| lia].
      cbn [Z.to_nat replicate]. rewrite app_nil_r. repeat split; lia.
    + rewrite bind_run.
      set (s2 := snd (delay 500 {| client := client s;
                                   hw := set_wifiConnected false (hw s) |})).
      assert (Hj2 : wifiJoinAfter (env (hw s2)) = j) by exact Hj.
      assert (Hm2 : millis (hw s2) = millis (hw s) + 500) by reflexivity.
      assert (Ht2 : trace (hw s2) = trace (hw s) ++ [EvDelay 500]) by reflexivity.
      assert (Hc2 : client s2 = client s) by reflexivity.
      clearbody s2.
      specialize (IH fuel s2 Hj2 ltac:(lia) ltac:(lia)). cbv zeta in IH.
      change (while fuel ?c ?b s2) with (while fuel c b s2) in IH.
      rewrite bind_run in IH.
      destruct IH as (I1 & I2 & I3 & I4 & I5).
      rewrite I1, I2, I3, I4, I5, Ht2, Hm2, Hc2.
      split; [reflexivity |]. split; [reflexivity |].
      assert (Hk : match j with
                   | Some d => if d <=? millis (hw s) - start then 0
                               else if d <=? 30000
                                    then (d - (millis (hw s) - start) + 499) / 500
                                    else Z.of_nat (S m)
                   | None => Z.of_nat (S m)
                   end
                   = 1 + match j with
                         | Some d => if d <=? millis (hw s) + 500 - start then 0
                                     else if d <=? 30000
                                          then (d - (millis (hw s) + 500 - start) + 499) / 500
                                          else Z.of_nat m
                         | None => Z.of_nat m
                         end
                   /\ 0 <= match j with
                           | Some d => if d <=? millis (hw s) + 500 - start then 0
                                       else if d <=? 30000
                                            then (d - (millis (hw s) + 500 - start) + 499) / 500
                                            else Z.of_nat m
                           | None => Z.of_nat m
                           end).
      { destruct j as [d |]; [| lia]. unfold up in Hup. rewrite Hup.
        apply Z.leb_gt in Hup.
        destruct (Z.leb_spec d 30000).
        - destruct (Z.leb_spec d (millis (hw s) + 500 - start)).
          + split; [| lia]. symmetry. apply Z.div_unique with (d - (millis (hw s) - start) - 1).
            * lia.
            * lia.
          + split.
            * replace (d - (millis (hw s) - start) + 499)
                with (1 * 500 + (d - (millis (hw s) + 500 - start) + 499)) by lia.
              rewrite Z.div_add_l by lia. reflexivity.
            * apply Z.div_pos; lia.
        - destruct (Z.leb_spec d (millis (hw s) + 500 - start)); lia. }
      destruct Hk as [Hk Hk0]. rewrite Hk.
      split; [| split; [lia | reflexivity]].
      rewrite Z2Nat.inj_add by lia. change (Z.to_nat 1) with 1%nat.
      cbn [Nat.add replicate]. rewrite <- app_assoc. reflexivity.
Qed.

(** X24: joining the WiFi with credentials at hand.  The station is
    started once and polled every 500 ms; the call returns as soon as
    a poll finds it connected and gives up when 30 s have gone by.  So
    it succeeds exactly when the access point answers within
    WIFI_CONNECT_TIMEOUT_MS, it never waits more than 60 times, and the
    time it has taken is the number of waits times 500 ms.  The client
    is not touched. *)
Theorem X24_wifi_join (s : Sys.t) (ssid password : string) :
  result Client.loadCredentials s = (true, (ssid, password)) ->
  let reach := match wifiJoinAfter (env (hw s)) with
               | Some d => d <=? WIFI_CONNECT_TIMEOUT_MS
               | None => false
               end in
  let waits := match wifiJoinAfter (env (hw s)) with
               | Some d => if d <=? 0 then 0
                           else if d <=? WIFI_CONNECT_TIMEOUT_MS then (d + 499) / 500
                           else 60
               | None => 60
               end in
  let s' := run Client.connectToWiFi s in
  result Client.connectToWiFi s = reach
  /\ wifiConnected (hw s') = reach
  /\ trace (hw s')
     = trace (hw s) ++ EvWiFiBegin ssid password :: replicate (Z.to_nat waits) (EvDelay 500)
  /\ millis (hw s') = millis (hw s) + 500 * waits
  /\ 0 <= waits <= 60
  /\ client s' = client s.
Proof.
  intros Hcred. cbv zeta. unfold result, run in *. unfold Client.connectToWiFi.
  rewrite bind_run.
  assert (Hs : snd (Client.loadCredentials s) = s).
  { unfold Client.loadCredentials, Hw.loadString. msimpl.
    destruct (WIFI_SSID (build (env (hw s)))); reflexivity. }
  destruct (Client.loadCredentials s) as [cred s0]. cbn [fst snd] in *. subst s0 cred.
  cbv iota beta. cbn [negb].
  rewrite bind_run. rewrite bind_run.
  set (s1 := snd (getH millis (snd (emit (EvWiFiBegin ssid password) s)))).
  change (fst (getH millis (snd (emit (EvWiFiBegin ssid password) s)))) with (millis (hw s)).
  assert (Hj1 : wifiJoinAfter (env (hw s1)) = wifiJoinAfter (env (hw s))) by reflexivity.
  assert (Hm1 : millis (hw s1) = millis (hw s)) by reflexivity.
  assert (Ht1 : trace (hw s1) = trace (hw s) ++ [EvWiFiBegin ssid password]) by reflexivity.
  assert (Hc1 : client s1 = client s) by reflexivity.
  clearbody s1.
  pose proof (wifi_wait (millis (hw s)) (wifiJoinAfter (env (hw s))) 60
                (Z.to_nat (WIFI_CONNECT_TIMEOUT_MS / 500) + 1) s1 Hj1) as Hw.
  cbv zeta in Hw. rewrite Hm1 in Hw.
  replace (millis (hw s) - millis (hw s)) with 0 in Hw by lia.
  destruct Hw as (W1 & W2 & W3 & W4 & W5);
    [vm_compute; lia | vm_compute; reflexivity |].
  rewrite W1, W2, W3, W4, W5, Ht1, Hc1.
  unfold WIFI_CONNECT_TIMEOUT_MS in *.
  assert (Hk : match wifiJoinAfter (env (hw s)) with
               | Some d => if d <=? 0 then 0
                           else if d <=? 30000 then (d - 0 + 499) / 500 else Z.of_nat 60
               | None => Z.of_nat 60
               end
               = match wifiJoinAfter (env (hw s)) with
                 | Some d => if d <=? 0 then 0 else if d <=? 30000 then (d + 499) / 500 else 60
                 | None => 60
                 end).
  { destruct (wifiJoinAfter (env (hw s))) as [d |]; [| reflexivity].
    rewrite Z.sub_0_r. reflexivity. }
  rewrite Hk. clear Hk.
  split; [reflexivity |]. split; [reflexivity |].
  split; [rewrite <- app_assoc; reflexivity |].
  split; [reflexivity |]. split; [| reflexivity].
  destruct (wifiJoinAfter (env (hw s))) as [d |]; [| lia].
  destruct (Z.leb_spec d 0); [lia |].
  destruct (Z.leb_spec d 30000); [| lia].
  split; [apply Z.div_pos; lia |].
  assert ((d + 499) / 500 < 61) by (apply Z.div_lt_upper_bound; lia). lia.
Qed.

Lemma X24_wifi_join_witness :
  let slow := Scenario.device STATE_OPERATIONAL 1800 (Some 1200) Scenario.tinyPng [] in
  let never := Scenario.device STATE_OPERATIONAL 1800 None Scenario.tinyPng [] in
  (result Client.connectToWiFi slow = true
   /\ millis (hw (run Client.connectToWiFi slow)) = 1500)
  /\ (result Client.connectToWiFi never = false
      /\ millis (hw (run Client.connectToWiFi never)) = 30000).
Proof.
  intros slow never.
  destruct (X24_wifi_join slow "home" "secret") as (A & _ & _ & B & _);
    [vm_compute; reflexivity |].
  destruct (X24_wifi_join never "home" "secret") as (C & _ & _ & D & _);
    [vm_compute; reflexivity |].
  split; split.
  - rewrite A. reflexivity.
  - rewrite B. reflexivity.
  - rewrite C. reflexivity.
  - rewrite D. reflexivity.
Defined.

(** ** The device state *)

Lemma stateStep_refl s : View.stateStep s s.
Proof. left. reflexivity. Qed.

Lemma stateStep_trans a b c : View.stateStep a b -> View.stateStep b c -> View.stateStep a c.
Proof.
  unfold View.stateStep. intros [Hab | Hab] [Hbc | Hbc].
  - left. congruence.
  - right. exact Hbc.
  - right. rewrite Hbc. exact Hab.
  - right. exact Hbc.
Qed.

Lemma keeps_stateStep {X A} (obs : Sys.t -> X) (m : M A) :
  (forall a b, obs a = obs b -> currentState (client a) = currentState (client b)) ->
  keeps obs m -> follows View.stateStep m.
Proof. intros Hobs Hk s. left. apply Hobs. apply Hk. Qed.

(** a primitive that leaves the state or assigns one of the five *)
Ltac state_prim :=
  let s := fresh "s" in
  intros s; unfold View.stateStep; msimpl; cbn [In];
  first [ left; reflexivity | right; tauto ].

Ltac state_step prim :=
  lazymatch goal with
  | |- follows View.stateStep (mret _) => apply (follows_ret View.stateStep stateStep_refl)
  | |- follows View.stateStep (getH _) => apply (follows_getH View.stateStep stateStep_refl)
  | |- follows View.stateStep (getE _) => apply (follows_getE View.stateStep stateStep_refl)
  | |- follows View.stateStep (_ ≫= _) =>
      apply (follows_bind View.stateStep stateStep_trans); [| intros ?]
  | |- follows View.stateStep (if ?b then _ else _) => destruct b
  | |- follows View.stateStep (match ?x with _ => _ end) => destruct x
  | |- follows View.stateStep _ => prim
  end.

Ltac states prim := repeat (state_step prim).

Lemma callDisplayAPI_state dr : follows View.stateStep (Client.callDisplayAPI dr).
Proof.
  apply (keeps_stateStep apiObs); [| apply callDisplayAPI_apiObs].
  unfold apiObs. intros a b H. congruence.
Qed.

Lemma download_state url out : follows View.stateStep (Client.downloadImageAutoAlloc url out).
Proof.
  apply (keeps_stateStep dlObs); [| apply downloadImageAutoAlloc_dlObs].
  unfold dlObs. intros a b H. congruence.
Qed.

Lemma displayImage_state fl img : follows View.stateStep (Hw.displayImage fl img).
Proof.
  apply (keeps_stateStep View.panelFrame); [| apply displayImage_panel].
  unfold View.panelFrame. intros a b H. congruence.
Qed.

Lemma text_state :
  follows View.stateStep Hw.updateDisplay
  /\ forall text x y size, follows View.stateStep (Hw.displayText text x y size).
Proof.
  split; [| intros text x y size].
  - apply (keeps_stateStep View.panelFrame); [| apply updateDisplay_panel].
    unfold View.panelFrame. intros a b H. congruence.
  - apply (keeps_stateStep View.panelFrame); [| apply displayText_panel].
    unfold View.panelFrame. intros a b H. congruence.
Qed.

Lemma cacheImage_state name data : follows View.stateStep (Client.cacheImage name data).
Proof.
  apply (keeps_stateStep (fun s => (client s, liveBuffers (hw s)))); [| apply cacheImage_heap].
  intros a b H. congruence.
Qed.

Lemma connectToWiFi_state : follows View.stateStep Client.connectToWiFi.
Proof.
  apply (keeps_stateStep wifiObs); [| apply connectToWiFi_quiet].
  unfold wifiObs. intros a b H. congruence.
Qed.

Lemma callSetupAPI_state sr : follows View.stateStep (Client.callSetupAPI sr).
Proof.
  intros s. left.
  destruct (wifiConnected (hw s)) eqn:Hwifi.
  - destruct (callSetupAPI_run sr s Hwifi) as [-> _].
    pose proof (setupAnswer_around s) as H. unfold aroundNet in H.
    remember (snd (setupAnswer s)) as s1 eqn:E. clear E.
    assert (Hc : client s1 = client (withMac s)) by congruence.
    rewrite Hc. reflexivity.
  - unfold Client.callSetupAPI, Client.isWiFiConnected.
    rewrite bind_run. change (fst (getH wifiConnected s)) with (wifiConnected (hw s)).
    rewrite Hwifi. reflexivity.
Qed.

Lemma updateContent_state fl : follows View.stateStep (Client.updateContent fl).
Proof.
  unfold Client.updateContent, Client.isWiFiConnected, Client.setState, Client.free.
  states ltac:(first [ apply callDisplayAPI_state | apply download_state
                     | apply displayImage_state | apply cacheImage_state | state_prim ]).
Qed.

Lemma displayCachedContent_state fl : follows View.stateStep (Cache.displayCachedContent fl).
Proof.
  unfold Cache.displayCachedContent, Cache.loadCachedImage, Storage.readFile,
    Hw.isSDCardAvailable, Client.malloc, Client.free.
  states ltac:(first [ apply displayImage_state | state_prim ]).
Qed.

(** X25: no operation of the client or of the main program ever puts
    the device into the error state: after each of them the state is
    what it was or one of Uninitialized, WiFi set-up, Device set-up,
    Operational and Offline, however many errors have been counted.
    The error branch of the state machine is entered only by a device
    that is already there. *)
Theorem X25_error_state_never_entered (fl : FloatOps) (s : Sys.t) :
  currentState (client s) <> STATE_ERROR ->
  currentState (client (run Client.registerDevice s)) <> STATE_ERROR
  /\ currentState (client (run (Client.updateContent fl) s)) <> STATE_ERROR
  /\ currentState (client (run (Cache.enterOfflineMode fl) s)) <> STATE_ERROR
  /\ currentState (client (run (Boot.loop_refresh fl) s)) <> STATE_ERROR
  /\ currentState (client (run (Cache.begin ;; Boot.performStartupSequence) s)) <> STATE_ERROR.
Proof.
  intros Hclear.
  assert (Hstep : forall A (m : M A), follows View.stateStep m ->
                    currentState (client (run m s)) <> STATE_ERROR).
  { intros A m Hm. destruct (Hm s) as [He | Hin]; unfold run.
    - rewrite He. exact Hclear.
    - cbn [In] in Hin. intros Herr. rewrite Herr in Hin.
      repeat (destruct Hin as [Hin | Hin]; [discriminate |]). exact Hin. }
  destruct text_state as [Hupd Htext].
  split; [| split; [| split; [| split]]]; apply Hstep.
  - unfold Client.registerDevice, Client.isDeviceRegistered, Client.saveDeviceInfo,
      Client.setState, Hw.saveString, Hw.saveInt.
    states ltac:(first [ apply connectToWiFi_state | apply callSetupAPI_state | state_prim ]).
  - apply updateContent_state.
  - unfold Cache.enterOfflineMode, Client.setState.
    states ltac:(first [ apply displayCachedContent_state | state_prim ]).
  - unfold Boot.loop_refresh, Main.enterSleepMode, Hw.enterDeepSleep, Hw.disablePeripherals,
      Cache.hasCachedContent, Cache.isCacheValid, Storage.fileExists, Hw.isSDCardAvailable.
    states ltac:(first [ apply updateContent_state | apply displayCachedContent_state
                       | state_prim ]).
  - unfold Cache.begin, Boot.performStartupSequence, Cache.hasWiFiCredentials,
      Client.loadCredentials, Client.loadDeviceInfo, Client.isDeviceRegistered,
      Client.setState, Hw.loadString, Hw.loadInt.
    states ltac:(first [ apply Hupd | apply Htext | state_prim ]).
Qed.

Lemma X25_error_state_never_entered_witness :
  let s := {| client := set_consecutiveErrors 1000 (client (Bench.unregistered []));
              hw := hw (Bench.unregistered []) |} in
  currentState (client (run Client.registerDevice s)) <> STATE_ERROR
  /\ consecutiveErrors (client (run Client.registerDevice s)) = 1001.
Proof.
  intros s.
  destruct (X25_error_state_never_entered Scenario.ExactQ s) as (A & _);
    [vm_compute; discriminate |].
  split; [exact A | vm_compute; reflexivity].
Defined.

(** ** Wiping the preferences *)

(** X26: after [clearPreferences] every load returns the default it
    is given.  A restart then finds no refresh rate but the default of
    1800 s, no ids and no WiFi credentials except those the build
    predefines; the files on the SD card, the image cache among them,
    are still there. *)
Theorem X26_cleared_preferences (s : Sys.t) (c : Client) (key dS : string) (dI : Z)
        (dB : bool) :
  let b := build (env (hw s)) in
  let wiped := run Storage.clearPreferences s in
  let boot := {| client := c; hw := hw wiped |} in
  result (Hw.loadString key dS) wiped = dS
  /\ result (Hw.loadInt key dI) wiped = dI
  /\ result (Storage.loadBool key dB) wiped = dB
  /\ result Client.loadDeviceInfo boot
     = nonempty (default "" (TRMNL_API_KEY b)) && nonempty (default "" (CUSTOM_FRIENDLY_ID b))
  /\ refreshRate (client (run Client.loadDeviceInfo boot)) = DEEP_SLEEP_DURATION_SECONDS
  /\ result Cache.hasWiFiCredentials boot = bool_decide (is_Some (WIFI_SSID b))
  /\ sdFiles (hw wiped) = sdFiles (hw s).
Proof.
  cbv zeta.
  unfold result, run, Storage.clearPreferences, Hw.loadString, Hw.loadInt, Storage.loadBool,
    Client.loadDeviceInfo, Client.isDeviceRegistered, Cache.hasWiFiCredentials,
    Client.loadCredentials, Hw.loadString, Hw.loadInt.
  msimpl. rewrite !lookup_empty.
  destruct (TRMNL_API_KEY (build (env (hw s))));
    destruct (CUSTOM_FRIENDLY_ID (build (env (hw s))));
    destruct (WIFI_SSID (build (env (hw s)))); msimpl; rewrite ?lookup_empty;
    repeat split; reflexivity.
Qed.

(** ** The dispatch of [displayImage] *)

Lemma logged_nil s : View.logged [] s = s.
Proof.
  destruct s as [c h]; destruct h. unfold View.logged. cbn. rewrite app_nil_r. reflexivity.
Qed.

Lemma logged_logged a b s : View.logged b (View.logged a s) = View.logged (a ++ b) s.
Proof. unfold View.logged. cbn. rewrite app_assoc. reflexivity. Qed.

Lemma epd_run op s : epd op s = (tt, View.logged [EvEpd op] s).
Proof. reflexivity. Qed.

(** what the draw callback sends for its rows does not depend on the
    state *)
Lemma drawRows_fixed bits dys :
  length bits = 50%nat ->
  exists rows,
    forallb View.rowEvent rows = true
    /\ forall s, Hw.drawRows bits dys s = (tt, View.logged rows s).
Proof.
  intros Hlen. induction dys as [| dy rest (rows & Hrows & IH)].
  - exists []. split; [reflexivity |]. intros s. rewrite logged_nil. reflexivity.
  - cbn [Hw.drawRows].
    destruct ((dy <? 0) || (DISPLAY_HEIGHT <=? dy)) eqn:Hout.
    + exists rows. split; [exact Hrows |]. intros s.
      rewrite bind_run, ret_run. cbn [fst snd]. apply IH.
    + exists (EvEpd (DrawBitmap 0 dy bits DISPLAY_WIDTH 1) :: rows). split.
      * cbn [forallb View.rowEvent View.panelLine]. rewrite Hrows, Hlen.
        apply orb_false_iff in Hout. destruct Hout as [H0 H1].
        apply Z.ltb_ge in H0. apply Z.leb_gt in H1.
        destruct (Z.leb_spec 0 dy); [| lia].
        destruct (Z.ltb_spec dy DISPLAY_HEIGHT); [| lia]. reflexivity.
      * intros s. rewrite bind_run, epd_run. cbn [fst snd].
        rewrite IH, logged_logged. reflexivity.
Qed.

Lemma decodeLines_fixed fl ctx iWidth lines final :
  forall y,
  exists rows,
    forallb View.rowEvent rows = true
    /\ forall s,
         Hw.decodeLines fl ctx iWidth y lines final s
         = (match lines with
            | [] => final
            | _ :: _ => if 1024 <? iWidth then Hw.PNG_QUIT_EARLY else final
            end, View.logged rows s).
Proof.
  induction lines as [| l rest IH]; intros y.
  - exists []. split; [reflexivity |]. intros s. rewrite logged_nil. reflexivity.
  - cbn [Hw.decodeLines]. unfold Hw.pngDrawToEPD.
    destruct (1024 <? iWidth) eqn:Hwide.
    + exists []. split; [reflexivity |]. intros s.
      rewrite bind_run, ret_run. cbn [fst snd]. change (0 =? 0) with true. cbv iota.
      rewrite ret_run, logged_nil. reflexivity.
    + match goal with
      | |- context [Hw.drawRows ?bits ?dys] =>
          destruct (drawRows_fixed bits dys (buildLine_length fl ctx iWidth l))
            as (rows1 & Hrows1 & Hdraw)
      end.
      destruct (IH (y + 1)) as (rows2 & Hrows2 & Hrest).
      exists (rows1 ++ rows2). split; [rewrite forallb_app, Hrows1, Hrows2; reflexivity |].
      intros s. rewrite !bind_run, Hdraw. cbn [fst snd]. rewrite ret_run. cbn [fst snd].
      change (1 =? 0) with false. cbv iota.
      rewrite Hrest, logged_logged.
      destruct rest; reflexivity.
Qed.

(** a decode: the callback's rows, then the result *)
Lemma png_decode_fixed fl (ctx : Hw.PngDrawContext fl) data (e : Env) :
  exists rows,
    forallb View.rowEvent rows = true
    /\ forall s,
         env (hw s) = e ->
         let outcome := match scanlines (pngdec e data) with
                        | [] => decode_rc (pngdec e data)
                        | _ :: _ => if 1024 <? width (pngdec e data)
                                    then Hw.PNG_QUIT_EARLY else decode_rc (pngdec e data)
                        end in
         Hw.png_decode fl ctx data s = (outcome, View.logged (rows ++ [EvPngDecode outcome]) s).
Proof.
  destruct (decodeLines_fixed fl ctx (width (pngdec e data)) (scanlines (pngdec e data))
              (decode_rc (pngdec e data)) 0) as (rows & Hrows & Hdec).
  exists rows. split; [exact Hrows |]. intros s He. cbv zeta.
  unfold Hw.png_decode.
  rewrite bind_run.
  change (fst (getE pngdec s)) with (pngdec (env (hw s))).
  change (snd (getE pngdec s)) with s.
  rewrite He. cbv zeta.
  rewrite bind_run, Hdec. cbn [fst snd].
  rewrite bind_run, ret_run.
  change (snd (emit ?ev ?x)) with (View.logged [ev] x).
  rewrite logged_logged. reflexivity.
Qed.

(** one page of the PNG path, once PNGdec opens the buffer *)
Lemma pngPage_fixed fl (ctx : Hw.PngDrawContext fl) data (e : Env) :
  open_rc (pngdec e data) = Hw.PNG_SUCCESS ->
  exists rows,
    forallb View.rowEvent rows = true
    /\ forall s,
         env (hw s) = e ->
         let outcome := match scanlines (pngdec e data) with
                        | [] => decode_rc (pngdec e data)
                        | _ :: _ => if 1024 <? width (pngdec e data)
                                    then Hw.PNG_QUIT_EARLY else decode_rc (pngdec e data)
                        end in
         (epd FillScreenWhite ;;
          orc ← Hw.png_openRAM data;
          if negb (orc =? Hw.PNG_SUCCESS) then mret false else
          dec ← Hw.png_decode fl ctx data;
          if negb (dec =? Hw.PNG_SUCCESS) then mret false else
          mret true) s
         = (outcome =? Hw.PNG_SUCCESS,
            View.logged ([EvEpd FillScreenWhite; EvPngOpen Hw.PNG_SUCCESS] ++ rows
                         ++ [EvPngDecode outcome]) s).
Proof.
  intros Hopen.
  destruct (png_decode_fixed fl ctx data e) as (rows & Hrows & Hdec).
  exists rows. split; [exact Hrows |]. intros s He. cbv zeta.
  rewrite bind_run, epd_run. cbn [fst snd].
  rewrite bind_run, png_openRAM_run. cbn [fst snd].
  change (env (hw (View.logged [EvEpd FillScreenWhite] s))) with (env (hw s)).
  rewrite He, Hopen.
  change (negb (Hw.PNG_SUCCESS =? Hw.PNG_SUCCESS)) with false. cbv iota.
  fold (View.logged [EvPngOpen Hw.PNG_SUCCESS] (View.logged [EvEpd FillScreenWhite] s)).
  rewrite logged_logged.
  rewrite bind_run,
    (Hdec (View.logged ([EvEpd FillScreenWhite] ++ [EvPngOpen Hw.PNG_SUCCESS]) s) He).
  cbn [fst snd].
  rewrite logged_logged.
  match goal with
  | |- context [negb (?o =? Hw.PNG_SUCCESS)] => destruct (o =? Hw.PNG_SUCCESS)
  end; cbn [negb]; rewrite ret_run; reflexivity.
Qed.

(** the page loop over a body that does the same on every page *)
Lemma pagedLoop_pages extra (body : M bool) evs (e : Env) :
  (forall s, env (hw s) = e -> body s = (true, View.logged evs s)) ->
  forall s, env (hw s) = e ->
    pagedLoop extra body s
    = (tt, View.logged (concat (replicate (S extra) (evs ++ [EvEpd NextPage]))) s).
Proof.
  intros Hbody. induction extra as [| k IH]; intros s He.
  - rewrite pagedLoop_unfold, bind_run, (Hbody s He). cbn [fst snd].
    rewrite bind_run, epd_run, ret_run. cbn [fst snd replicate concat].
    rewrite logged_logged, app_nil_r. reflexivity.
  - rewrite pagedLoop_unfold, bind_run, (Hbody s He). cbn [fst snd].
    rewrite bind_run, epd_run. cbn [fst snd].
    rewrite IH by exact He. rewrite !logged_logged.
    change (replicate (S (S k)) ?x) with (x :: replicate (S k) x).
    cbn [concat]. rewrite <- !app_assoc. reflexivity.
Qed.

Lemma pagedLoop_break extra (body : M bool) evs s :
  body s = (false, View.logged evs s) ->
  pagedLoop extra body s = (tt, View.logged evs s).
Proof.
  intros Hbody. rewrite pagedLoop_unfold, bind_run, Hbody. reflexivity.
Qed.

Lemma clearDisplay_run s :
  Hw.clearDisplay s
  = (tt, View.logged (EvEpd FirstPage
                      :: concat (replicate (S (extraPages (env (hw s))))
                                   [EvEpd FillScreenWhite; EvEpd NextPage])) s).
Proof.
  unfold Hw.clearDisplay. rewrite bind_run, epd_run. cbn [fst snd].
  rewrite bind_run.
  change (fst (getE extraPages ?x)) with (extraPages (env (hw x))).
  change (snd (getE extraPages ?x)) with x.
  rewrite (pagedLoop_pages _ _ [EvEpd FillScreenWhite] (env (hw s))).
  - rewrite logged_logged. reflexivity.
  - intros s0 _. rewrite bind_run, epd_run, ret_run. reflexivity.
  - reflexivity.
Qed.

(** C9: a non-null buffer of exactly width x height / 8 = 15000 bytes
    is drawn as it is, as one full-frame bitmap at the origin on every
    page, and PNGdec is never called.  A buffer of any other non-zero
    size goes to the PNG path and is never drawn as it is: PNGdec
    opens it first.  If the open fails, the panel is cleared and the
    text screen with the queued texts and "PNG decode failed" is
    shown; no decode is attempted and no bitmap is sent.  If the open
    succeeds, every page is filled white, opens the buffer again and
    runs the decoder, whose callback sends scaled rows - one full panel
    line each - and nothing else; the pages go on while the decode
    succeeds, and the first failing decode ends the loop. *)
Theorem C9_raw_or_png (fl : FloatOps) (data : list Z) (s : Sys.t) :
  let s' := run (Hw.displayImage fl (Some data)) s in
  let img := pngdec (env (hw s)) data in
  let extra := extraPages (env (hw s)) in
  let queue :=
    if Z.of_nat (length (text_cmds (hw s))) <? 16
    then text_cmds (hw s)
         ++ [ {| tc_text := "PNG decode failed"; tc_x := 10; tc_y := 60; tc_size := 1 |} ]
    else text_cmds (hw s) in
  let outcome := match scanlines img with
                 | [] => decode_rc img
                 | _ :: _ => if 1024 <? width img then Hw.PNG_QUIT_EARLY else decode_rc img
                 end in
  DISPLAY_WIDTH * DISPLAY_HEIGHT / 8 = 15000
  /\ (Z.of_nat (length data) = 15000 ->
      trace (hw s') = trace (hw s) ++ rawFrame data (extraPages (env (hw s)))
      /\ pngOpens (trace (hw s')) = pngOpens (trace (hw s)))
  /\ (Z.of_nat (length data) <> 0 -> Z.of_nat (length data) <> 15000 ->
      (exists rest,
         trace (hw s') = trace (hw s) ++ EvPngOpen (open_rc img) :: rest)
      /\ (open_rc img <> Hw.PNG_SUCCESS ->
          trace (hw s')
          = trace (hw s) ++ EvPngOpen (open_rc img) :: EvEpd FirstPage
              :: concat (replicate (S extra) [EvEpd FillScreenWhite; EvEpd NextPage])
              ++ View.textFrame queue extra)
      /\ (open_rc img = Hw.PNG_SUCCESS ->
          exists rows,
            forallb View.rowEvent rows = true
            /\ let page := [EvEpd FillScreenWhite; EvPngOpen Hw.PNG_SUCCESS] ++ rows
                           ++ [EvPngDecode outcome] in
               trace (hw s')
               = trace (hw s)
                 ++ [EvPngOpen Hw.PNG_SUCCESS; EvEpd SetFullWindow; EvEpd FirstPage]
                 ++ (if outcome =? Hw.PNG_SUCCESS
                     then concat (replicate (S extra) (page ++ [EvEpd NextPage]))
                     else page))).
Proof.
  cbv zeta. split; [reflexivity |]. unfold run, Hw.displayImage. split.
  - intros Hraw. rewrite Hraw. change (15000 =? 0) with false. cbv iota.
    rewrite bind_run. change (snd (getE extraPages s)) with s.
    change (fst (getE extraPages s)) with (extraPages (env (hw s))).
    change (DISPLAY_WIDTH * DISPLAY_HEIGHT / 8) with 15000.
    change (15000 =? 15000) with true. cbv iota.
    rewrite bind_run, bind_run. rewrite rawPages_trace. msimpl.
    unfold rawFrame. rewrite <- !app_assoc.
    split; [reflexivity |].
    unfold pngOpens. rewrite !omap_app.
    assert (E : forall n, omap (fun e => match e with EvPngOpen rc => Some rc | _ => None end)
                  (concat (replicate n
                     [EvEpd FillScreenWhite;
                      EvEpd (DrawBitmap 0 0 data DISPLAY_WIDTH DISPLAY_HEIGHT);
                      EvEpd NextPage])) = []).
    { induction n as [| n IHn]; [reflexivity |]. simpl. exact IHn. }
    rewrite E. simpl. rewrite !app_nil_r. reflexivity.
  - intros Hnz Hnraw.
    destruct (Z.eqb_spec (Z.of_nat (length data)) 0); [contradiction |].
    rewrite bind_run. change (snd (getE extraPages s)) with s.
    change (fst (getE extraPages s)) with (extraPages (env (hw s))).
    change (DISPLAY_WIDTH * DISPLAY_HEIGHT / 8) with 15000.
    destruct (Z.eqb_spec (Z.of_nat (length data)) 15000); [contradiction |].
    rewrite bind_run. rewrite png_openRAM_run. cbn [fst snd].
    fold (View.logged [EvPngOpen (open_rc (pngdec (env (hw s)) data))] s).
    assert (Hfail : open_rc (pngdec (env (hw s)) data) <> Hw.PNG_SUCCESS ->
              trace (hw (snd ((Hw.clearDisplay ;;
                               Hw.displayText "PNG decode failed" 10 60 1 ;;
                               Hw.updateDisplay)
                                (View.logged [EvPngOpen (open_rc (pngdec (env (hw s)) data))] s))))
              = trace (hw s) ++ EvPngOpen (open_rc (pngdec (env (hw s)) data)) :: EvEpd FirstPage
                  :: concat (replicate (S (extraPages (env (hw s))))
                               [EvEpd FillScreenWhite; EvEpd NextPage])
                  ++ View.textFrame
                       (if Z.of_nat (length (text_cmds (hw s))) <? 16
                        then text_cmds (hw s)
                             ++ [ {| tc_text := "PNG decode failed"; tc_x := 10; tc_y := 60;
                                     tc_size := 1 |} ]
                        else text_cmds (hw s))
                       (extraPages (env (hw s)))).
    { intros _. rewrite bind_run, clearDisplay_run. cbn [fst snd].
      rewrite bind_run, displayText_run. cbn [fst snd].
      rewrite updateDisplay_run. cbn [snd]. unfold View.logged. msimpl.
      destruct (Z.of_nat (length (text_cmds (hw s))) <? 16); msimpl;
        repeat (rewrite <- ?app_assoc; cbn [app]); reflexivity. }
    destruct (Z.eqb_spec (open_rc (pngdec (env (hw s)) data)) Hw.PNG_SUCCESS) as [Hopen | Hopen];
      cbn [negb].
    + rewrite bind_run. change (snd (getE pngdec ?x)) with x.
      change (fst (getE pngdec ?x)) with (pngdec (env (hw x))).
      cbv zeta.
      rewrite bind_run. change (snd (getH invertDisplayFlag ?x)) with x.
      rewrite bind_run, epd_run. cbn [fst snd].
      rewrite bind_run, epd_run. cbn [fst snd].
      rewrite !logged_logged.
      match goal with
      | |- context [Hw.png_decode fl ?ctx data] =>
          destruct (pngPage_fixed fl ctx data (env (hw s)) Hopen) as (rows & Hrows & Hpage)
      end.
      cbv zeta in Hpage.
      set (outcome := match scanlines (pngdec (env (hw s)) data) with
                      | [] => decode_rc (pngdec (env (hw s)) data)
                      | _ :: _ => if 1024 <? width (pngdec (env (hw s)) data)
                                  then Hw.PNG_QUIT_EARLY
                                  else decode_rc (pngdec (env (hw s)) data)
                      end) in *.
      match goal with
      | |- context [pagedLoop ?n ?body ?st] =>
          assert (Htrace :
        trace (hw (snd (pagedLoop n body st)))
        = trace (hw s)
          ++ [EvPngOpen Hw.PNG_SUCCESS; EvEpd SetFullWindow; EvEpd FirstPage]
          ++ (if outcome =? Hw.PNG_SUCCESS
              then concat (replicate (S (extraPages (env (hw s))))
                             (([EvEpd FillScreenWhite; EvPngOpen Hw.PNG_SUCCESS] ++ rows
                               ++ [EvPngDecode outcome]) ++ [EvEpd NextPage]))
              else [EvEpd FillScreenWhite; EvPngOpen Hw.PNG_SUCCESS] ++ rows
                   ++ [EvPngDecode outcome]))
      end; [| split; [| split]].
      * destruct (outcome =? Hw.PNG_SUCCESS) eqn:Hout.
        -- erewrite (pagedLoop_pages _ _ _ (env (hw s)));
             [| intros s0 He; rewrite (Hpage s0 He); reflexivity | reflexivity].
           cbn [snd]. rewrite logged_logged. unfold View.logged. cbn [hw trace set_trace].
           rewrite Hopen. rewrite <- !app_assoc. reflexivity.
        -- erewrite pagedLoop_break;
             [| match goal with |- _ ?st = _ => rewrite (Hpage st eq_refl) end; reflexivity].
           cbn [snd]. rewrite logged_logged. unfold View.logged. cbn [hw trace set_trace].
           rewrite Hopen. rewrite <- !app_assoc. reflexivity.
      * eexists. rewrite Htrace, Hopen. cbn [app]. reflexivity.
      * intros Hbad. contradiction.
      * intros _. exists rows. split; [exact Hrows | exact Htrace].
    + split; [| split].
      * eexists. rewrite (Hfail Hopen). reflexivity.
      * exact Hfail.
      * intros Hgood. contradiction.
Qed.

Lemma C9_raw_or_png_witness :
  let raw := replicate (Z.to_nat 15000) 170 in
  let png := [137; 80; 78; 71] in
  let s := Scenario.device STATE_OPERATIONAL 1800 (Some 0) Scenario.tinyPng [] in
  let junk := Scenario.device STATE_OPERATIONAL 1800 (Some 0) Scenario.notPng [] in
  (trace (hw (run (Hw.displayImage Scenario.ExactQ (Some raw)) s))
   = [EvEpd SetFullWindow; EvEpd FirstPage; EvEpd FillScreenWhite;
      EvEpd (DrawBitmap 0 0 raw 400 300); EvEpd NextPage])
  /\ (exists rows,
        forallb View.rowEvent rows = true
        /\ trace (hw (run (Hw.displayImage Scenario.ExactQ (Some png)) s))
           = [EvPngOpen 0; EvEpd SetFullWindow; EvEpd FirstPage; EvEpd FillScreenWhite;
              EvPngOpen 0] ++ rows ++ [EvPngDecode 0; EvEpd NextPage])
  /\ trace (hw (run (Hw.displayImage Scenario.ExactQ (Some png)) junk))
     = [EvPngOpen 6; EvEpd FirstPage; EvEpd FillScreenWhite; EvEpd NextPage;
        EvEpd FirstPage; EvEpd FillScreenWhite;
        EvEpd (SetCursor 10 60); EvEpd (SetTextSize 1); EvEpd (PrintText "PNG decode failed");
        EvEpd NextPage].
Proof.
  intros raw png s junk.
  destruct (C9_raw_or_png Scenario.ExactQ raw s) as (_ & A & _).
  destruct (C9_raw_or_png Scenario.ExactQ png s) as (_ & _ & B).
  destruct (C9_raw_or_png Scenario.ExactQ png junk) as (_ & _ & C).
  split; [| split].
  - destruct A as [A _]; [vm_compute; reflexivity |]. exact A.
  - destruct B as (_ & _ & B); [vm_compute; discriminate | vm_compute; discriminate |].
    destruct B as (rows & Hrows & B); [reflexivity |].
    exists rows. split; [exact Hrows |]. rewrite B. cbn. rewrite app_nil_r, <- app_assoc. reflexivity.
  - destruct C as (_ & C & _); [vm_compute; discriminate | vm_compute; discriminate |].
    rewrite C by (vm_compute; discriminate). reflexivity.
Defined.
